(** * Property-State: the listing controller over a model of its storage layer

    A shallow embedding of [api/controllers/post.controller.js] and of the
    part of [api/prisma/schema.prisma] it works on, of the diagnostic routes
    of the test router and of the session provider of the client.

    - [JS]         the JavaScript values the controller handles (request
                   bodies, query strings, storage payloads, responses) and
                   the built-ins it calls: truthiness, [||], [parseInt],
                   [parseFloat], property access and assignment.
    - [User], [Post], [PostDetail], [Conversation], [Message]
                   the documents of the schema.
    - [Store]      the storage client ([prisma.post.findMany], [create],
                   [findUnique], [update], [delete], [postDetail.upsert])
                   as state-passing functions that can throw.
    - [Controller] the five handlers, statement by statement.
    - [Sample]     a small store and some requests.
    - [Router]     [/db-stats] and [/auth-check].
    - [Session]    [AuthProvider]: [checkAuth], [register], [login],
                   [logout], [checkAuthStatus].
    - [Spec], [Further]
                   the vocabulary of the statements.
    - [StoreFacts], [Create], [Mutate], [Listing], [Filter]
                   the properties C1 to C7, C9 and C10, X1 and X2.
    - [Reads], [Creating], [Changing], [Answers], [RouterFacts],
      [SessionFacts]
                   the further properties, X3 to X25.
    - [Owner]      the property C8.

    What is assumed of the parts that are not in the repository:

    - Numbers are kept by their exact decimal value; rounding to binary64
      is outside the model.  Strings are byte strings; case folding and
      white space are those of ASCII.
    - The storage client checks a payload and a filter against the schema
      and throws when they do not fit: a field the model does not have, a
      value of the wrong type, a number that is not finite.
    - Any storage request may also fail for reasons of the backend; the
      world carries, for each request to come, whether it does.  A listing
      whose owner is not found is returned with [user: null] unless the
      request fails.
    - [now_iso] is what [new Date().toISOString()] returns during the
      request.
    - Token verification, [JSON.parse], [JSON.stringify], the conversion of
      a value to a string and of an instant to ISO are parameters of the
      functions that call them; nothing is assumed of them. *)

From Stdlib Require Import ZArith String Ascii List Bool Lia.
From Stdlib Require Import DecimalString DecimalNat Sorted Permutation.
Import ListNotations.

Local Open Scope string_scope.
Local Open Scope Z_scope.
Local Open Scope list_scope.

#[local] Set Warnings "-register-all".

(* ================================================================== *)
(** ** JavaScript values *)

Module JS.

(** A JavaScript number: [Fin m e] is the decimal [m / 10^e]. *)
Inductive number : Type :=
| NaN
| Inf (neg : bool)
| Fin (m : Z) (e : nat).

Inductive value : Type :=
| VUndefined
| VNull
| VBool (b : bool)
| VNum (n : number)
| VStr (s : string)
| VDate (ms : Z)
| VArr (xs : list value)
| VObj (fields : list (string * value)).

Definition int (z : Z) : value := VNum (Fin z 0).

Definition pow10 (e : nat) : Z := 10 ^ Z.of_nat e.

(** The integer part, rounding toward zero. *)
Definition trunc (m : Z) (e : nat) : Z := Z.quot m (pow10 e).

Definition is_integer (m : Z) (e : nat) : bool := Z.rem m (pow10 e) =? 0.

(** [a <= b] on numbers; every comparison with [NaN] is false. *)
Definition num_leb (a b : number) : bool :=
  match a, b with
  | NaN, _ | _, NaN => false
  | Inf true, _ => true
  | _, Inf false => true
  | Inf false, _ => false
  | _, Inf true => false
  | Fin m1 e1, Fin m2 e2 => m1 * pow10 e2 <=? m2 * pow10 e1
  end.

(** ToBoolean. *)
Definition truthy (v : value) : bool :=
  match v with
  | VUndefined | VNull => false
  | VBool b => b
  | VNum NaN => false
  | VNum (Inf _) => true
  | VNum (Fin m _) => negb (m =? 0)
  | VStr s => negb (String.eqb s "")
  | VDate _ | VArr _ | VObj _ => true
  end.

(** [a || b] *)
Definition or (a b : value) : value := if truthy a then a else b.

(** [typeof v === 'string'] *)
Definition is_string (v : value) : bool :=
  match v with VStr _ => true | _ => false end.

(** *** Objects: ordered key/value lists *)

Fixpoint assoc (k : string) (fs : list (string * value)) : option value :=
  match fs with
  | [] => None
  | (k', v) :: fs' => if String.eqb k k' then Some v else assoc k fs'
  end.

(** [o.k]: a missing property reads as [undefined].  Only the property names
    the controller reads are meant; none of them is a built-in property of a
    string or an array. *)
Definition get (o : value) (k : string) : value :=
  match o with
  | VObj fs => match assoc k fs with Some v => v | None => VUndefined end
  | _ => VUndefined
  end.

Fixpoint put (k : string) (v : value) (fs : list (string * value))
  : list (string * value) :=
  match fs with
  | [] => [(k, v)]
  | (k', v') :: fs' =>
      if String.eqb k k' then (k, v) :: fs' else (k', v') :: put k v fs'
  end.

(** [o.k = v]: an existing key keeps its place, a new one goes last. *)
Definition set (o : value) (k : string) (v : value) : value :=
  match o with
  | VObj fs => VObj (put k v fs)
  | _ => o
  end.

Fixpoint remove (k : string) (fs : list (string * value))
  : list (string * value) :=
  match fs with
  | [] => []
  | (k', v') :: fs' =>
      if String.eqb k k' then remove k fs' else (k', v') :: remove k fs'
  end.

(** [delete o.k] *)
Definition delete (o : value) (k : string) : value :=
  match o with
  | VObj fs => VObj (remove k fs)
  | _ => o
  end.

(** An object literal [{ ...base, k1: v1, ..., kn: vn }]. *)
Definition extend (base : list (string * value)) (more : list (string * value))
  : value :=
  VObj (fold_left (fun fs kv => put (fst kv) (snd kv) fs) more base).

(** *** Scanning strings *)

Definition is_space (c : ascii) : bool :=
  let n := nat_of_ascii c in
  ((9 <=? n) && (n <=? 13))%nat || (n =? 32)%nat.

Fixpoint skip_space (s : string) : string :=
  match s with
  | String c s' => if is_space c then skip_space s' else s
  | EmptyString => s
  end.

(** The value of a digit in the given radix, if it is one. *)
Definition digit_of (radix : Z) (c : ascii) : option Z :=
  let n := Z.of_nat (nat_of_ascii c) in
  let d :=
    if (48 <=? n) && (n <=? 57) then Some (n - 48)
    else if (97 <=? n) && (n <=? 122) then Some (n - 87)
    else if (65 <=? n) && (n <=? 90) then Some (n - 55)
    else None in
  match d with
  | Some d => if d <? radix then Some d else None
  | None => None
  end.

(** Reads the longest run of digits: the value so far, how many were read,
    and what is left. *)
Fixpoint digits (radix : Z) (s : string) (acc : Z) (count : nat)
  : Z * nat * string :=
  match s with
  | String c s' =>
      match digit_of radix c with
      | Some d => digits radix s' (acc * radix + d) (S count)
      | None => (acc, count, s)
      end
  | EmptyString => (acc, count, s)
  end.

Definition sign (s : string) : bool * string :=
  match s with
  | String "-" s' => (true, s')
  | String "+" s' => (false, s')
  | _ => (false, s)
  end.

Definition strip_hex (s : string) : option string :=
  match s with
  | String "0" (String "x" s') | String "0" (String "X" s') => Some s'
  | _ => None
  end.

(** [parseInt(s)] with no radix given: leading white space, a sign, a [0x]
    prefix that switches to radix 16, then the longest run of digits. *)
Definition parseInt_string (s : string) : number :=
  let '(neg, s1) := sign (skip_space s) in
  let '(radix, s2) :=
    match strip_hex s1 with Some s' => (16, s') | None => (10, s1) end in
  let '(n, count, _) := digits radix s2 0 0 in
  match count with
  | O => NaN
  | _ => Fin (if neg then - n else n) 0
  end.

(** [parseFloat(s)]: leading white space, a sign, then [Infinity] or the
    longest decimal literal, with an exponent when digits follow the [e]. *)
Definition exponent (s : string) : Z :=
  match s with
  | String "e" s' | String "E" s' =>
      let '(neg, s1) := sign s' in
      let '(x, count, _) := digits 10 s1 0 0 in
      match count with
      | O => 0
      | _ => if neg then - x else x
      end
  | _ => 0
  end.

Definition parseFloat_string (s : string) : number :=
  let '(neg, s1) := sign (skip_space s) in
  if prefix "Infinity" s1 then Inf neg else
  let '(ip, ni, r1) := digits 10 s1 0 0 in
  let '(m, nf, r2) :=
    match r1 with
    | String "." r => digits 10 r ip 0
    | _ => (ip, O, r1)
    end in
  match (ni + nf)%nat with
  | O => NaN
  | _ =>
      let x := exponent r2 in
      let m := if neg then - m else m in
      if 0 <=? x then Fin (m * 10 ^ x) nf
      else Fin m (nf + Z.to_nat (- x))
  end.

(** The string form of a number has an exponent when the number is at
    least 10^21 or, not being 0, less than 10^-6: ["1e+21"], ["5e-7"]. *)
Definition exponential (m : Z) (e : nat) : bool :=
  (pow10 (21 + e) <=? Z.abs m)
  || (negb (m =? 0) && (Z.abs m * pow10 6 <? pow10 e)).

(** The first digit of a positive integer. *)
Fixpoint leading (fuel : nat) (n : Z) : Z :=
  match fuel with
  | O => n
  | S fuel' => if n <? 10 then n else leading fuel' (n / 10)
  end.

Definition first_digit (m : Z) : Z :=
  Z.sgn m * leading (S (Z.to_nat (Z.log2 (Z.abs m)))) (Z.abs m).

(** [parseInt(v)] and [parseFloat(v)] read the string form of [v]: of a
    number its integer part, or its first digit when the string form has
    an exponent (resp. the number itself), of an array its first element;
    the string forms of the other values start with no digit. *)
Fixpoint parseInt (v : value) : number :=
  match v with
  | VStr s => parseInt_string s
  | VNum (Fin m e) =>
      if exponential m e then Fin (first_digit m) 0 else Fin (trunc m e) 0
  | VArr (x :: _) => parseInt x
  | _ => NaN
  end.

Fixpoint parseFloat (v : value) : number :=
  match v with
  | VStr s => parseFloat_string s
  | VNum n => n
  | VArr (x :: _) => parseFloat x
  | _ => NaN
  end.

(** *** Strings: case-insensitive containment *)

Definition lower (c : ascii) : ascii :=
  let n := nat_of_ascii c in
  if ((65 <=? n) && (n <=? 90))%nat then ascii_of_nat (n + 32) else c.

Fixpoint lowercase (s : string) : string :=
  match s with
  | String c s' => String (lower c) (lowercase s')
  | EmptyString => EmptyString
  end.

Fixpoint contains (needle hay : string) : bool :=
  prefix needle hay ||
  match hay with
  | String _ hay' => contains needle hay'
  | EmptyString => false
  end.

Definition contains_insensitive (needle hay : string) : bool :=
  contains (lowercase needle) (lowercase hay).

End JS.

(* ================================================================== *)
(** ** The documents of [schema.prisma] *)

(** [DateTime] values are instants in milliseconds. *)

Module User.

Record t : Type := {
  id : string;
  username : string;
  email : string;
  password : string;
  avatar : option string;
  fullName : option string;
  createdAt : Z;
  updatedAt : Z
}.

End User.

Module Post.

Record t : Type := {
  id : string;
  title : string;
  price : JS.number;
  images : list string;
  address : option string;
  city : string;
  bedroom : option Z;
  bathroom : option JS.number;
  latitude : option string;
  longitude : option string;
  type : string;
  property : string;
  createdAt : Z;
  updatedAt : Z;
  userId : string
}.

End Post.

Module PostDetail.

Record t : Type := {
  id : string;
  desc : option string;
  utilities : option string;
  pet : option string;
  income : option string;
  size : option Z;
  school : option Z;
  bus : option Z;
  restaurant : option Z;
  postId : string
}.

End PostDetail.

Module Conversation.

Record t : Type := {
  id : string;
  user1Id : string;
  user2Id : string;
  propertyId : option string;
  createdAt : Z;
  updatedAt : Z;
  user1Unread : Z;
  user2Unread : Z;
  lastMessage : option string
}.

Definition with_propertyId (c : t) (r : option string) : t :=
  {| id := id c; user1Id := user1Id c; user2Id := user2Id c;
     propertyId := r;
     createdAt := createdAt c; updatedAt := updatedAt c;
     user1Unread := user1Unread c; user2Unread := user2Unread c;
     lastMessage := lastMessage c |}.

End Conversation.

Module Message.

Record t : Type := {
  id : string;
  content : string;
  senderId : string;
  conversationId : string;
  createdAt : Z
}.

End Message.

(* ================================================================== *)
(** ** The storage client *)

Module Store.
Import JS.

(** *** State *)

Record DB : Type := {
  users : list User.t;
  posts : list Post.t;
  postDetails : list PostDetail.t;
  conversations : list Conversation.t;
  messages : list Message.t
}.

(** The schema declares one referential action, [onDelete: Cascade] on
    [PostDetail.post].  [Conversation.property] declares none, and the
    storage client then applies its default: for an optional relation,
    [SetNull], which it carries out itself on a document store.  The
    setting is kept in the world, so that a storage layer that takes no
    action on such a reference ([NoAction]) is covered as well. *)
Inductive on_delete : Type := NoAction | SetNull.

(** The requests the controller sends. *)
Inductive call : Type :=
| FindMany (filter : option value) (join_user : bool)
| Create (data : value)
| FindUnique (id : string)
| Upsert (postId : string) (update create : value)
| Update (id : string) (data : value)
| Delete (id : string).

Record event : Type := { what : call; served : bool }.

(** [faults] says, for each storage request to come, whether the backend
    fails it (none once the list is used up); [log] is every request sent so
    far, oldest first. *)
Record World : Type := {
  db : DB;
  faults : list bool;
  log : list event;
  now : Z;
  now_iso : string;
  fresh : nat;
  undeclared : on_delete
}.

Definition with_db (w : World) (d : DB) : World :=
  {| db := d; faults := faults w; log := log w; now := now w;
     now_iso := now_iso w; fresh := fresh w; undeclared := undeclared w |}.

Definition with_faults (w : World) (fs : list bool) : World :=
  {| db := db w; faults := fs; log := log w; now := now w;
     now_iso := now_iso w; fresh := fresh w; undeclared := undeclared w |}.

Definition with_log (w : World) (l : list event) : World :=
  {| db := db w; faults := faults w; log := l; now := now w;
     now_iso := now_iso w; fresh := fresh w; undeclared := undeclared w |}.

Definition with_fresh (w : World) (n : nat) : World :=
  {| db := db w; faults := faults w; log := log w; now := now w;
     now_iso := now_iso w; fresh := n; undeclared := undeclared w |}.

(** *** Computations that read and write the world and may throw *)

Inductive outcome (A : Type) : Type :=
| Ok (a : A)
| Throw (message : string).
Arguments Ok {A} a.
Arguments Throw {A} message.

Definition M (A : Type) : Type := World -> outcome A * World.

Definition ret {A} (a : A) : M A := fun w => (Ok a, w).

Definition throw {A} (message : string) : M A := fun w => (Throw message, w).

Definition bind {A B} (c : M A) (k : A -> M B) : M B :=
  fun w =>
    match c w with
    | (Ok a, w') => k a w'
    | (Throw e, w') => (Throw e, w')
    end.

(** [try { c } catch (err) { h err }] *)
Definition try {A} (c : M A) (h : string -> M A) : M A :=
  fun w =>
    match c w with
    | (Ok a, w') => (Ok a, w')
    | (Throw e, w') => h e w'
    end.

Definition ask {A} (f : World -> A) : M A := fun w => (Ok (f w), w).

Declare Scope store_scope.
Delimit Scope store_scope with store.
Notation "x <- c ;; k" := (bind c (fun x => k))
  (at level 61, c at next level, right associativity) : store_scope.

Notation "'let?' x := c 'in' k" :=
  (match c with Some x => k | None => None end)
  (at level 10, x pattern, c at level 100, k at level 200).

(** *** What a payload field may hold *)

Inductive arg (A : Type) : Type :=
| Absent
| Null
| Val (a : A)
| Bad.
Arguments Absent {A}.
Arguments Null {A}.
Arguments Val {A} a.
Arguments Bad {A}.

Definition as_string (v : value) : arg string :=
  match v with
  | VUndefined => Absent
  | VNull => Null
  | VStr s => Val s
  | _ => Bad
  end.

(** A [Float] takes any finite number. *)
Definition as_float (v : value) : arg number :=
  match v with
  | VUndefined => Absent
  | VNull => Null
  | VNum (Fin m e) => Val (Fin m e)
  | _ => Bad
  end.

(** An [Int] takes a finite number without a fractional part. *)
Definition as_int (v : value) : arg Z :=
  match v with
  | VUndefined => Absent
  | VNull => Null
  | VNum (Fin m e) => if is_integer m e then Val (trunc m e) else Bad
  | _ => Bad
  end.

Fixpoint strings_of (xs : list value) : option (list string) :=
  match xs with
  | [] => Some []
  | VStr s :: xs' => option_map (cons s) (strings_of xs')
  | _ => None
  end.

Definition as_strings (v : value) : arg (list string) :=
  match v with
  | VUndefined => Absent
  | VArr xs => match strings_of xs with Some l => Val l | None => Bad end
  | _ => Bad
  end.

(** On creation: a mandatory field, an optional one, one with a default. *)
Definition required {A} (a : arg A) : option A :=
  match a with Val x => Some x | _ => None end.

Definition optional {A} (a : arg A) : option (option A) :=
  match a with
  | Absent | Null => Some None
  | Val x => Some (Some x)
  | Bad => None
  end.

Definition defaulted {A} (d : A) (a : arg A) : option A :=
  match a with
  | Absent => Some d
  | Val x => Some x
  | Null | Bad => None
  end.

(** On update: [undefined] leaves the field as it is, [null] clears an
    optional field, a value replaces it. *)
Definition revise {A} (old : A) (a : arg A) : option A :=
  match a with
  | Absent => Some old
  | Val x => Some x
  | Null | Bad => None
  end.

Definition revise_optional {A} (old : option A) (a : arg A)
  : option (option A) :=
  match a with
  | Absent => Some old
  | Null => Some None
  | Val x => Some (Some x)
  | Bad => None
  end.

(** A payload may only name fields of the model. *)
Definition only_keys (allowed : list string) (fs : list (string * value))
  : bool :=
  forallb (fun kv => existsb (String.eqb (fst kv)) allowed) fs.

(** *** Filters *)

(** The scalar columns of a listing a filter can name. *)
Inductive column : Type :=
| Text (read : Post.t -> option string)
| Whole (read : Post.t -> option Z)
| Real (read : Post.t -> option number).

Definition column_of (field : string) : option column :=
  if String.eqb field "id" then Some (Text (fun p => Some (Post.id p)))
  else if String.eqb field "title" then Some (Text (fun p => Some (Post.title p)))
  else if String.eqb field "address" then Some (Text Post.address)
  else if String.eqb field "city" then Some (Text (fun p => Some (Post.city p)))
  else if String.eqb field "latitude" then Some (Text Post.latitude)
  else if String.eqb field "longitude" then Some (Text Post.longitude)
  else if String.eqb field "type" then Some (Text (fun p => Some (Post.type p)))
  else if String.eqb field "property" then Some (Text (fun p => Some (Post.property p)))
  else if String.eqb field "userId" then Some (Text (fun p => Some (Post.userId p)))
  else if String.eqb field "bedroom" then Some (Whole Post.bedroom)
  else if String.eqb field "price" then Some (Real (fun p => Some (Post.price p)))
  else if String.eqb field "bathroom" then Some (Real Post.bathroom)
  else None.

(** [mode] of a text filter: is it case-insensitive? *)
Definition insensitive (ops : list (string * value)) : option bool :=
  match assoc "mode" ops with
  | None | Some VUndefined => Some false
  | Some (VStr m) =>
      if String.eqb m "insensitive" then Some true
      else if String.eqb m "default" then Some false
      else None
  | Some _ => None
  end.

Definition text_op (ci : bool) (op : string) (v : value)
  : option (option string -> bool) :=
  if String.eqb op "mode" then Some (fun _ => true) else
  match v with
  | VUndefined => Some (fun _ => true)
  | VStr s =>
      if String.eqb op "contains" then
        Some (fun cell =>
                match cell with
                | Some c => if ci then contains_insensitive s c else contains s c
                | None => false
                end)
      else if String.eqb op "equals" then
        Some (fun cell =>
                match cell with
                | Some c =>
                    if ci then String.eqb (lowercase s) (lowercase c)
                    else String.eqb s c
                | None => false
                end)
      else None
  | _ => None
  end.

Definition real_op (op : string) (v : value)
  : option (option number -> bool) :=
  match v with
  | VUndefined => Some (fun _ => true)
  | VNum (Fin m e) =>
      let bound := Fin m e in
      let test (f : number -> bool) : option number -> bool :=
        fun cell => match cell with Some x => f x | None => false end in
      if String.eqb op "gte" then Some (test (fun x => num_leb bound x))
      else if String.eqb op "lte" then Some (test (fun x => num_leb x bound))
      else if String.eqb op "gt" then Some (test (fun x => negb (num_leb x bound)))
      else if String.eqb op "lt" then Some (test (fun x => negb (num_leb bound x)))
      else if String.eqb op "equals" then
        Some (test (fun x => num_leb bound x && num_leb x bound))
      else None
  | _ => None
  end.

(** An [Int] column takes integer bounds only. *)
Definition whole_op (op : string) (v : value)
  : option (option Z -> bool) :=
  match v with
  | VNum (Fin m e) =>
      if is_integer m e then
        match real_op op v with
        | Some f => Some (fun cell => f (option_map (fun z => Fin z 0) cell))
        | None => None
        end
      else None
  | VUndefined => Some (fun _ => true)
  | _ => None
  end.

Fixpoint all_ops {C} (compile : string -> value -> option (C -> bool))
  (ops : list (string * value)) : option (C -> bool) :=
  match ops with
  | [] => Some (fun _ => true)
  | (op, v) :: ops' =>
      match compile op v, all_ops compile ops' with
      | Some f, Some g => Some (fun cell => f cell && g cell)
      | _, _ => None
      end
  end.

(** The condition put on one column: a bare value asks for equality, an
    object is a list of operators. *)
Definition condition (field : string) (c : value) : option (Post.t -> bool) :=
  match c with
  | VUndefined => Some (fun _ => true)
  | _ =>
      match column_of field with
      | Some (Text read) =>
          match c with
          | VStr _ => option_map (fun f p => f (read p)) (text_op false "equals" c)
          | VObj ops =>
              match insensitive ops with
              | Some ci => option_map (fun f p => f (read p)) (all_ops (text_op ci) ops)
              | None => None
              end
          | _ => None
          end
      | Some (Whole read) =>
          match c with
          | VNum _ => option_map (fun f p => f (read p)) (whole_op "equals" c)
          | VObj ops => option_map (fun f p => f (read p)) (all_ops whole_op ops)
          | _ => None
          end
      | Some (Real read) =>
          match c with
          | VNum _ => option_map (fun f p => f (read p)) (real_op "equals" c)
          | VObj ops => option_map (fun f p => f (read p)) (all_ops real_op ops)
          | _ => None
          end
      | None => None
      end
  end.

Fixpoint conditions (fs : list (string * value)) : option (Post.t -> bool) :=
  match fs with
  | [] => Some (fun _ => true)
  | (field, c) :: fs' =>
      match condition field c, conditions fs' with
      | Some f, Some g => Some (fun p => f p && g p)
      | _, _ => None
      end
  end.

(** A [where] object is checked against the model, then read as the
    conjunction of its conditions; [None] when it is refused. *)
Definition compile_where (w : value) : option (Post.t -> bool) :=
  match w with
  | VObj fs => conditions fs
  | VUndefined => Some (fun _ => true)
  | _ => None
  end.

(** *** Rows *)

(** The restricted view of an account the controller joins to a listing. *)
Record UserSel : Type := {
  sel_id : string;
  sel_username : string;
  sel_email : string;
  sel_avatar : option string;
  sel_createdAt : Z
}.

(** What a request on listings returns: the listing, its owner when the
    request joins it and the account is found, its detail likewise. *)
Record PostRow : Type := {
  post : Post.t;
  user : option UserSel;
  postDetail : option PostDetail.t
}.

Definition select_user (u : User.t) : UserSel :=
  {| sel_id := User.id u; sel_username := User.username u;
     sel_email := User.email u; sel_avatar := User.avatar u;
     sel_createdAt := User.createdAt u |}.

Definition find_user (d : DB) (id : string) : option UserSel :=
  option_map select_user
    (find (fun u => String.eqb (User.id u) id) (users d)).

Definition find_post (d : DB) (id : string) : option Post.t :=
  find (fun p => String.eqb (Post.id p) id) (posts d).

Definition find_detail (d : DB) (postId : string) : option PostDetail.t :=
  find (fun x => String.eqb (PostDetail.postId x) postId) (postDetails d).

Definition included (d : DB) (p : Post.t) : PostRow :=
  {| post := p; user := find_user d (Post.userId p);
     postDetail := find_detail d (Post.id p) |}.

(** [orderBy: { createdAt: 'desc' }] *)
Fixpoint insert_newest (p : Post.t) (l : list Post.t) : list Post.t :=
  match l with
  | [] => [p]
  | q :: l' =>
      if Post.createdAt q <=? Post.createdAt p then p :: l
      else q :: insert_newest p l'
  end.

Definition newest_first (l : list Post.t) : list Post.t :=
  fold_right insert_newest [] l.

(** Identifiers are handed out from a counter. *)
Definition oid (n : nat) : string :=
  ("oid" ++ NilEmpty.string_of_uint (Nat.to_uint n))%string.

(** *** The requests, on the data *)

Definition find_many (w : World) (filter : option value) (join_user : bool)
  : option (list PostRow * World) :=
  let? keep :=
    match filter with
    | Some f => compile_where f
    | None => Some (fun _ => true)
    end in
  let row p :=
    {| post := p;
       user := if join_user then find_user (db w) (Post.userId p) else None;
       postDetail := None |} in
  Some (map row (newest_first (List.filter keep (posts (db w)))), w).

Definition detail_keys : list string :=
  ["desc"; "utilities"; "pet"; "income"; "size"; "school"; "bus";
   "restaurant"].

Definition new_detail (id postId : string) (d : value)
  : option PostDetail.t :=
  match d with
  | VObj fs =>
      if only_keys ("postId" :: detail_keys) fs then
        let? desc := optional (as_string (get d "desc")) in
        let? utilities := optional (as_string (get d "utilities")) in
        let? pet := optional (as_string (get d "pet")) in
        let? income := optional (as_string (get d "income")) in
        let? size := optional (as_int (get d "size")) in
        let? school := optional (as_int (get d "school")) in
        let? bus := optional (as_int (get d "bus")) in
        let? restaurant := optional (as_int (get d "restaurant")) in
        Some {| PostDetail.id := id; PostDetail.desc := desc;
                PostDetail.utilities := utilities; PostDetail.pet := pet;
                PostDetail.income := income; PostDetail.size := size;
                PostDetail.school := school; PostDetail.bus := bus;
                PostDetail.restaurant := restaurant;
                PostDetail.postId := postId |}
      else None
  | _ => None
  end.

Definition revised_detail (old : PostDetail.t) (d : value)
  : option PostDetail.t :=
  match d with
  | VObj fs =>
      if only_keys detail_keys fs then
        let? desc := revise_optional (PostDetail.desc old) (as_string (get d "desc")) in
        let? utilities := revise_optional (PostDetail.utilities old) (as_string (get d "utilities")) in
        let? pet := revise_optional (PostDetail.pet old) (as_string (get d "pet")) in
        let? income := revise_optional (PostDetail.income old) (as_string (get d "income")) in
        let? size := revise_optional (PostDetail.size old) (as_int (get d "size")) in
        let? school := revise_optional (PostDetail.school old) (as_int (get d "school")) in
        let? bus := revise_optional (PostDetail.bus old) (as_int (get d "bus")) in
        let? restaurant := revise_optional (PostDetail.restaurant old) (as_int (get d "restaurant")) in
        Some {| PostDetail.id := PostDetail.id old; PostDetail.desc := desc;
                PostDetail.utilities := utilities; PostDetail.pet := pet;
                PostDetail.income := income; PostDetail.size := size;
                PostDetail.school := school; PostDetail.bus := bus;
                PostDetail.restaurant := restaurant;
                PostDetail.postId := PostDetail.postId old |}
      else None
  | _ => None
  end.

Definition post_keys : list string :=
  ["title"; "price"; "images"; "address"; "city"; "bedroom"; "bathroom";
   "latitude"; "longitude"; "type"; "property"].

Definition new_post (id : string) (at_ : Z) (data : value) : option Post.t :=
  match data with
  | VObj fs =>
      if only_keys ("userId" :: "postDetail" :: post_keys) fs then
        let? title := required (as_string (get data "title")) in
        let? price := required (as_float (get data "price")) in
        let? images := defaulted [] (as_strings (get data "images")) in
        let? address := optional (as_string (get data "address")) in
        let? city := required (as_string (get data "city")) in
        let? bedroom := optional (as_int (get data "bedroom")) in
        let? bathroom := optional (as_float (get data "bathroom")) in
        let? latitude := optional (as_string (get data "latitude")) in
        let? longitude := optional (as_string (get data "longitude")) in
        let? type := defaulted "rent" (as_string (get data "type")) in
        let? property := defaulted "apartment" (as_string (get data "property")) in
        let? userId := required (as_string (get data "userId")) in
        Some {| Post.id := id; Post.title := title; Post.price := price;
                Post.images := images; Post.address := address;
                Post.city := city; Post.bedroom := bedroom;
                Post.bathroom := bathroom; Post.latitude := latitude;
                Post.longitude := longitude; Post.type := type;
                Post.property := property; Post.createdAt := at_;
                Post.updatedAt := at_; Post.userId := userId |}
      else None
  | _ => None
  end.

(** The nested write [postDetail: { create: {...} }]. *)
Definition nested_detail (id postId : string) (v : value)
  : option (list PostDetail.t) :=
  match v with
  | VUndefined => Some []
  | VObj fs =>
      if only_keys ["create"] fs then
        match get v "create" with
        | VUndefined => Some []
        | d => option_map (fun x => [x]) (new_detail id postId d)
        end
      else None
  | _ => None
  end.

Definition create_post (w : World) (data : value)
  : option (PostRow * World) :=
  let id := oid (fresh w) in
  let? p := new_post id (now w) data in
  let? ds := nested_detail (oid (S (fresh w))) id (get data "postDetail") in
  let d := db w in
  let d' := {| users := users d; posts := posts d ++ [p];
               postDetails := postDetails d ++ ds;
               conversations := conversations d; messages := messages d |} in
  Some (included d' p, with_fresh (with_db w d') (S (S (fresh w)))).

Definition revised_post (old : Post.t) (at_ : Z) (data : value)
  : option Post.t :=
  match data with
  | VObj fs =>
      if only_keys post_keys fs then
        let? title := revise (Post.title old) (as_string (get data "title")) in
        let? price := revise (Post.price old) (as_float (get data "price")) in
        let? images := revise (Post.images old) (as_strings (get data "images")) in
        let? address := revise_optional (Post.address old) (as_string (get data "address")) in
        let? city := revise (Post.city old) (as_string (get data "city")) in
        let? bedroom := revise_optional (Post.bedroom old) (as_int (get data "bedroom")) in
        let? bathroom := revise_optional (Post.bathroom old) (as_float (get data "bathroom")) in
        let? latitude := revise_optional (Post.latitude old) (as_string (get data "latitude")) in
        let? longitude := revise_optional (Post.longitude old) (as_string (get data "longitude")) in
        let? type := revise (Post.type old) (as_string (get data "type")) in
        let? property := revise (Post.property old) (as_string (get data "property")) in
        Some {| Post.id := Post.id old; Post.title := title;
                Post.price := price; Post.images := images;
                Post.address := address; Post.city := city;
                Post.bedroom := bedroom; Post.bathroom := bathroom;
                Post.latitude := latitude; Post.longitude := longitude;
                Post.type := type; Post.property := property;
                Post.createdAt := Post.createdAt old; Post.updatedAt := at_;
                Post.userId := Post.userId old |}
      else None
  | _ => None
  end.

Fixpoint replace_post (p : Post.t) (l : list Post.t) : list Post.t :=
  match l with
  | [] => []
  | q :: l' =>
      if String.eqb (Post.id q) (Post.id p) then p :: l'
      else q :: replace_post p l'
  end.

Fixpoint replace_detail (x : PostDetail.t) (l : list PostDetail.t)
  : list PostDetail.t :=
  match l with
  | [] => []
  | y :: l' =>
      if String.eqb (PostDetail.postId y) (PostDetail.postId x) then x :: l'
      else y :: replace_detail x l'
  end.

Definition update_post (w : World) (id : string) (data : value)
  : option (PostRow * World) :=
  let? old := find_post (db w) id in
  let? p := revised_post old (now w) data in
  let d := db w in
  let d' := {| users := users d; posts := replace_post p (posts d);
               postDetails := postDetails d;
               conversations := conversations d; messages := messages d |} in
  Some (included d' p, with_db w d').

Definition upsert_detail (w : World) (postId : string) (update create : value)
  : option (unit * World) :=
  let d := db w in
  match find_detail d postId with
  | Some old =>
      let? x := revised_detail old update in
      Some (tt, with_db w
                  {| users := users d; posts := posts d;
                     postDetails := replace_detail x (postDetails d);
                     conversations := conversations d;
                     messages := messages d |})
  | None =>
      let? pid := required (as_string (get create "postId")) in
      let? x := new_detail (oid (fresh w)) pid create in
      Some (tt, with_fresh
                  (with_db w
                     {| users := users d; posts := posts d;
                        postDetails := postDetails d ++ [x];
                        conversations := conversations d;
                        messages := messages d |})
                  (S (fresh w)))
  end.

(** What becomes of a conversation when the listing [id] goes. *)
Definition release (how : on_delete) (id : string) (c : Conversation.t)
  : Conversation.t :=
  match how, Conversation.propertyId c with
  | SetNull, Some r =>
      if String.eqb r id then Conversation.with_propertyId c None else c
  | _, _ => c
  end.

(** The store without the listing [id]: its detail goes with it
    ([onDelete: Cascade]), the conversations are released. *)
Definition erase (how : on_delete) (id : string) (d : DB) : DB :=
  {| users := users d;
     posts :=
       List.filter (fun p => negb (String.eqb (Post.id p) id)) (posts d);
     postDetails :=
       List.filter (fun x => negb (String.eqb (PostDetail.postId x) id))
         (postDetails d);
     conversations := map (release how id) (conversations d);
     messages := messages d |}.

Definition delete_post (w : World) (id : string) : option (unit * World) :=
  let? _ := find_post (db w) id in
  Some (tt, with_db w (erase (undeclared w) id (db w))).

(** *** The requests, as the client sends them *)

(** A request uses up one entry of [faults] and is logged with its result.
    It throws when the backend fails it, and when the request is refused. *)
Definition send {A} (c : call) (run : World -> option (A * World)) : M A :=
  fun w =>
    let w1 := with_faults w (tl (faults w)) in
    let logged (w : World) (ok : bool) :=
      with_log w (log w ++ [{| what := c; served := ok |}]) in
    if hd false (faults w) then (Throw "storage fault", logged w1 false)
    else
      match run w1 with
      | Some (a, w2) => (Ok a, logged w2 true)
      | None => (Throw "request refused", logged w1 false)
      end.

Module prisma.
Module post.
Definition findMany (filter : option value) (join_user : bool)
  : M (list PostRow) :=
  send (FindMany filter join_user)
       (fun w => find_many w filter join_user).

Definition create (data : value) : M PostRow :=
  send (Create data) (fun w => create_post w data).

(** [findUnique({ where: { id }, include: ... })] *)
Definition findUnique (id : string) : M (option PostRow) :=
  send (FindUnique id)
       (fun w => Some (option_map (included (db w)) (find_post (db w) id), w)).

Definition update (id : string) (data : value) : M PostRow :=
  send (Update id data) (fun w => update_post w id data).

Definition delete (id : string) : M unit :=
  send (Delete id) (fun w => delete_post w id).
End post.

Module postDetail.
Definition upsert (postId : string) (update create : value) : M unit :=
  send (Upsert postId update create)
       (fun w => upsert_detail w postId update create).
End postDetail.
End prisma.

(** *** Rows as the objects the client hands back *)

Definition text (o : option string) : value :=
  match o with Some s => VStr s | None => VNull end.

Definition whole (o : option Z) : value :=
  match o with Some z => int z | None => VNull end.

Definition real (o : option number) : value :=
  match o with Some n => VNum n | None => VNull end.

(** The columns [getPosts] selects: all but the coordinates. *)
Definition selected (p : Post.t) : list (string * value) :=
  [("id", VStr (Post.id p)); ("title", VStr (Post.title p));
   ("price", VNum (Post.price p));
   ("images", VArr (map VStr (Post.images p)));
   ("address", text (Post.address p)); ("city", VStr (Post.city p));
   ("bedroom", whole (Post.bedroom p)); ("bathroom", real (Post.bathroom p));
   ("type", VStr (Post.type p)); ("property", VStr (Post.property p));
   ("createdAt", VDate (Post.createdAt p));
   ("updatedAt", VDate (Post.updatedAt p));
   ("userId", VStr (Post.userId p))].

Definition scalars (p : Post.t) : list (string * value) :=
  [("id", VStr (Post.id p)); ("title", VStr (Post.title p));
   ("price", VNum (Post.price p));
   ("images", VArr (map VStr (Post.images p)));
   ("address", text (Post.address p)); ("city", VStr (Post.city p));
   ("bedroom", whole (Post.bedroom p)); ("bathroom", real (Post.bathroom p));
   ("latitude", text (Post.latitude p));
   ("longitude", text (Post.longitude p));
   ("type", VStr (Post.type p)); ("property", VStr (Post.property p));
   ("createdAt", VDate (Post.createdAt p));
   ("updatedAt", VDate (Post.updatedAt p));
   ("userId", VStr (Post.userId p))].

Definition shown_user (u : option UserSel) : value :=
  match u with
  | Some u =>
      VObj [("id", VStr (sel_id u)); ("username", VStr (sel_username u));
            ("email", VStr (sel_email u)); ("avatar", text (sel_avatar u));
            ("createdAt", VDate (sel_createdAt u))]
  | None => VNull
  end.

Definition shown_detail (x : option PostDetail.t) : value :=
  match x with
  | Some x =>
      VObj [("id", VStr (PostDetail.id x));
            ("desc", text (PostDetail.desc x));
            ("utilities", text (PostDetail.utilities x));
            ("pet", text (PostDetail.pet x));
            ("income", text (PostDetail.income x));
            ("size", whole (PostDetail.size x));
            ("school", whole (PostDetail.school x));
            ("bus", whole (PostDetail.bus x));
            ("restaurant", whole (PostDetail.restaurant x));
            ("postId", VStr (PostDetail.postId x))]
  | None => VNull
  end.

(** A row fetched with [include: { user, postDetail }]. *)
Definition full (r : PostRow) : list (string * value) :=
  scalars (post r) ++
  [("user", shown_user (user r)); ("postDetail", shown_detail (postDetail r))].

End Store.

(* ================================================================== *)
(** ** The controller *)

Module Controller.
Import JS Store.
Local Open Scope store_scope.

(** [express.json()] hands the handler the parsed object; [userId] is what
    the token check left on the request. *)
Record request : Type := {
  query : list (string * value);
  id : string;
  userId : string;
  body : list (string * value)
}.

Record response : Type := { status : Z; json : value }.

Definition message (s : string) : value := VObj [("message", VStr s)].

(** [a || d] on strings *)
Definition or_text (a d : string) : string :=
  if String.eqb a "" then d else a.

(** The filter of [getPosts]. *)
Definition buildWhere (query : value) : value :=
  let where_ := VObj [] in
  let where_ :=
    if truthy (get query "city") then
      set where_ "city"
        (VObj [("contains", get query "city"); ("mode", VStr "insensitive")])
    else where_ in
  let where_ :=
    if truthy (get query "type") then set where_ "type" (get query "type")
    else where_ in
  let where_ :=
    if truthy (get query "property") then
      set where_ "property" (get query "property")
    else where_ in
  let where_ :=
    if truthy (get query "bedroom") then
      set where_ "bedroom" (VObj [("gte", VNum (parseInt (get query "bedroom")))])
    else where_ in
  let where_ :=
    if truthy (get query "minPrice") || truthy (get query "maxPrice") then
      let price := VObj [] in
      let price :=
        if truthy (get query "minPrice") then
          set price "gte" (VNum (parseInt (get query "minPrice")))
        else price in
      let price :=
        if truthy (get query "maxPrice") then
          set price "lte" (VNum (parseInt (get query "maxPrice")))
        else price in
      set where_ "price" price
    else where_ in
  where_.

(** The owner projection on a joined account. *)
Definition ownerInfo (u : UserSel) (location : string) : value :=
  VObj [("id", VStr (sel_id u));
        ("username", VStr (sel_username u));
        ("email", VStr (sel_email u));
        ("fullName", VStr (sel_username u));
        ("avatar", text (sel_avatar u));
        ("verified", VBool false);
        ("showContactInfo", VBool true);
        ("memberSince", VDate (sel_createdAt u));
        ("location", VStr location);
        ("userType", VStr "standard")].

(** The projection standing in for an owner that is not there. *)
Definition unknownOwner (today location : string) : value :=
  VObj
  [("id", VStr "unknown");
   ("username", VStr "Unknown User");
   ("email", VStr "");
   ("fullName", VStr "Unknown");
   ("avatar", VStr "");
   ("verified", VBool false);
   ("showContactInfo", VBool false);
   ("memberSince", VStr today);
   ("location", VStr location);
   ("userType", VStr "standard")].

Definition transformedPost (today : string) (r : PostRow) : value :=
  let city := Post.city (post r) in
  extend (selected (post r) ++ [("user", shown_user (user r))])
    [("latitude", VNull);
     ("longitude", VNull);
     ("ownerInfo",
       match user r with
       | Some u => ownerInfo u (or_text city "Unknown City")
       | None => unknownOwner today (or_text city "Unknown City")
       end)].

Definition simplePost (today : string) (r : PostRow) : value :=
  let city := Post.city (post r) in
  extend (selected (post r))
    [("latitude", VNull);
     ("longitude", VNull);
     ("ownerInfo",
       VObj [("id", VStr "unknown");
             ("username", VStr "Unknown User");
             ("fullName", VStr "Unknown");
             ("email", VStr "");
             ("avatar", VStr "");
             ("verified", VBool false);
             ("showContactInfo", VBool false);
             ("memberSince", VStr today);
             ("location", VStr (or_text city "Unknown"));
             ("userType", VStr "standard")])].

Definition getPosts (req : request) : M response :=
  let query := VObj (query req) in
  try
    (let where_ := buildWhere query in
     try
       (posts <- prisma.post.findMany (Some where_) true ;;
        today <- ask now_iso ;;
        ret {| status := 200; json := VArr (map (transformedPost today) posts) |})
       (fun err =>
          basicPosts <- prisma.post.findMany None false ;;
          today <- ask now_iso ;;
          ret {| status := 200; json := VArr (map (simplePost today) basicPosts) |}))
    (fun err => ret {| status := 200; json := VArr [] |}).

(** [r.user.id] and the like throw when the row has no [user]. *)
Definition joined (r : PostRow) : M UserSel :=
  match user r with
  | Some u => ret u
  | None => throw "Cannot read properties of null"
  end.

(** The response of [addPost], [getPost] and [updatePost]. *)
Definition shaped (r : PostRow) : M value :=
  u <- joined r ;;
  ret (extend (full r) [("ownerInfo", ownerInfo u (Post.city (post r)))]).

Definition detailCreate (postDetail : value) : list (string * value) :=
  [("desc", or (get postDetail "desc") (VStr ""));
   ("utilities", or (get postDetail "utilities") (VStr ""));
   ("pet", or (get postDetail "pet") (VStr ""));
   ("income", or (get postDetail "income") (VStr ""));
   ("size", if truthy (get postDetail "size")
            then VNum (parseInt (get postDetail "size")) else VNull);
   ("school", if truthy (get postDetail "school")
              then VNum (parseInt (get postDetail "school")) else VNull);
   ("bus", if truthy (get postDetail "bus")
           then VNum (parseInt (get postDetail "bus")) else VNull);
   ("restaurant", if truthy (get postDetail "restaurant")
                  then VNum (parseInt (get postDetail "restaurant"))
                  else VNull)].

(** The [data] of both [prisma.post.create] calls of [addPost]. *)
Definition createData (body : value) (tokenUserId : string) : value :=
  let numericPrice :=
    if is_string (get body "price") then VNum (parseFloat (get body "price"))
    else get body "price" in
  let numericBedroom :=
    if truthy (get body "bedroom") then
      if is_string (get body "bedroom")
      then VNum (parseInt (get body "bedroom")) else get body "bedroom"
    else int 0 in
  let numericBathroom :=
    if truthy (get body "bathroom") then
      if is_string (get body "bathroom")
      then VNum (parseFloat (get body "bathroom")) else get body "bathroom"
    else int 0 in
  (* parsed, then left out of the data *)
  let latitude :=
    match get body "latitude" with
    | VUndefined | VNull => VNull
    | v => if is_string v then VNum (parseFloat v) else v
    end in
  let longitude :=
    match get body "longitude" with
    | VUndefined | VNull => VNull
    | v => if is_string v then VNum (parseFloat v) else v
    end in
  VObj [("title", get body "title");
        ("price", numericPrice);
        ("images", or (get body "images") (VArr []));
        ("address", or (get body "address") (VStr ""));
        ("city", get body "city");
        ("bedroom", numericBedroom);
        ("bathroom", numericBathroom);
        ("type", or (get body "type") (VStr "rent"));
        ("property", or (get body "property") (VStr "apartment"));
        ("userId", VStr tokenUserId);
        ("postDetail",
          if truthy (get body "postDetail")
          then VObj [("create", VObj (detailCreate (get body "postDetail")))]
          else VUndefined)].

Definition addPost (req : request) : M response :=
  try
    (let body := VObj (body req) in
     let tokenUserId := userId req in
     if negb (truthy (get body "title")) || negb (truthy (get body "price"))
        || negb (truthy (get body "city"))
     then ret {| status := 400; json := message "Missing required fields" |}
     else
       try
         (newPost <- prisma.post.create (createData body tokenUserId) ;;
          responsePost <- shaped newPost ;;
          ret {| status := 201; json := responsePost |})
         (fun innerErr =>
            newPost <- prisma.post.create (createData body tokenUserId) ;;
            responsePost <- shaped newPost ;;
            ret {| status := 201; json := responsePost |}))
    (fun err =>
       ret {| status := 500;
              json := VObj [("message", VStr "Failed to create post in database");
                            ("error", VStr err)] |}).

Definition getPost (req : request) : M response :=
  try
    (post <- prisma.post.findUnique (id req) ;;
     match post with
     | None => ret {| status := 404; json := message "Post not found" |}
     | Some post =>
         transformedPost <- shaped post ;;
         ret {| status := 200; json := transformedPost |}
     end)
    (fun err => ret {| status := 500; json := message "Failed to get post" |}).

Definition detailUpdate (postDetail : value) : list (string * value) :=
  [("desc", get postDetail "desc");
   ("utilities", get postDetail "utilities");
   ("pet", get postDetail "pet");
   ("income", get postDetail "income");
   ("size", if truthy (get postDetail "size")
            then VNum (parseInt (get postDetail "size")) else VNull);
   ("school", if truthy (get postDetail "school")
              then VNum (parseInt (get postDetail "school")) else VNull);
   ("bus", if truthy (get postDetail "bus")
           then VNum (parseInt (get postDetail "bus")) else VNull);
   ("restaurant", if truthy (get postDetail "restaurant")
                  then VNum (parseInt (get postDetail "restaurant"))
                  else VNull)].

(** The [data] of [prisma.post.update] in [updatePost]. *)
Definition updateData (body : value) : value :=
  VObj [("title", get body "title");
        ("price", if truthy (get body "price")
                  then VNum (parseInt (get body "price")) else VUndefined);
        ("images", get body "images");
        ("address", get body "address");
        ("city", get body "city");
        ("bedroom", if truthy (get body "bedroom")
                    then VNum (parseInt (get body "bedroom")) else VUndefined);
        ("bathroom", if truthy (get body "bathroom")
                     then VNum (parseFloat (get body "bathroom"))
                     else VUndefined);
        ("latitude", get body "latitude");
        ("longitude", get body "longitude");
        ("type", get body "type");
        ("property", get body "property")].

Definition updatePost (req : request) : M response :=
  let id := id req in
  let tokenUserId := userId req in
  let body := VObj (body req) in
  try
    (existingPost <- prisma.post.findUnique id ;;
     match existingPost with
     | None => ret {| status := 404; json := message "Post not found" |}
     | Some existingPost =>
         if negb (String.eqb (Post.userId (post existingPost)) tokenUserId)
         then ret {| status := 403;
                     json := message "Not authorized to update this post" |}
         else
           body <-
             (if truthy (get body "postDetail") then
                let postDetail := get body "postDetail" in
                let body := delete body "postDetail" in
                _ <- prisma.postDetail.upsert id
                       (VObj (detailUpdate postDetail))
                       (VObj (("postId", VStr id) :: detailCreate postDetail)) ;;
                ret body
              else ret body) ;;
           updatedPost <- prisma.post.update id (updateData body) ;;
           transformedPost <- shaped updatedPost ;;
           ret {| status := 200; json := transformedPost |}
     end)
    (fun err => ret {| status := 500; json := message "Failed to update post" |}).

Definition deletePost (req : request) : M response :=
  let id := id req in
  let tokenUserId := userId req in
  try
    (existingPost <- prisma.post.findUnique id ;;
     match existingPost with
     | None => ret {| status := 404; json := message "Post not found" |}
     | Some existingPost =>
         if negb (String.eqb (Post.userId (post existingPost)) tokenUserId)
         then ret {| status := 403;
                     json := message "Not authorized to delete this post" |}
         else
           _ <- prisma.post.delete id ;;
           ret {| status := 200; json := message "Post deleted" |}
     end)
    (fun err => ret {| status := 500; json := message "Failed to delete post" |}).

End Controller.

(* ================================================================== *)
(** ** A small world to run the handlers on *)

Module Sample.
Import JS Store Controller.

Definition alice : User.t :=
  {| User.id := "u1"; User.username := "alice";
     User.email := "alice@example.org"; User.password := "$2b$10$hash";
     User.avatar := None; User.fullName := Some "Alice Liddell";
     User.createdAt := 10; User.updatedAt := 10 |}.

Definition bob : User.t :=
  {| User.id := "u2"; User.username := "bob";
     User.email := "bob@example.org"; User.password := "$2b$10$hash";
     User.avatar := Some "bob.png"; User.fullName := None;
     User.createdAt := 20; User.updatedAt := 20 |}.

Definition flat : Post.t :=
  {| Post.id := "p1"; Post.title := "Flat A"; Post.price := Fin 1200 0;
     Post.images := []; Post.address := Some "Unter den Linden 1";
     Post.city := "Berlin"; Post.bedroom := Some 3;
     Post.bathroom := Some (Fin 15 1);
     Post.latitude := Some "52.52"; Post.longitude := Some "13.40";
     Post.type := "rent"; Post.property := "apartment";
     Post.createdAt := 100; Post.updatedAt := 100; Post.userId := "u1" |}.

Definition house : Post.t :=
  {| Post.id := "p2"; Post.title := "House B"; Post.price := Fin 450000 0;
     Post.images := ["b.jpg"]; Post.address := None;
     Post.city := "Paris"; Post.bedroom := Some 5; Post.bathroom := None;
     Post.latitude := None; Post.longitude := None;
     Post.type := "buy"; Post.property := "house";
     Post.createdAt := 200; Post.updatedAt := 200; Post.userId := "u2" |}.

(** A listing whose owner is gone. *)
Definition orphan : Post.t :=
  {| Post.id := "p3"; Post.title := "Loft C"; Post.price := Fin 900 0;
     Post.images := []; Post.address := None;
     Post.city := ""; Post.bedroom := None; Post.bathroom := None;
     Post.latitude := None; Post.longitude := None;
     Post.type := "rent"; Post.property := "condo";
     Post.createdAt := 50; Post.updatedAt := 50; Post.userId := "u9" |}.

Definition flat_detail : PostDetail.t :=
  {| PostDetail.id := "d1"; PostDetail.desc := Some "Bright";
     PostDetail.utilities := Some "owner"; PostDetail.pet := Some "allowed";
     PostDetail.income := None; PostDetail.size := Some 80;
     PostDetail.school := Some 2; PostDetail.bus := Some 1;
     PostDetail.restaurant := None; PostDetail.postId := "p1" |}.

Definition chat : Conversation.t :=
  {| Conversation.id := "c1"; Conversation.user1Id := "u2";
     Conversation.user2Id := "u1"; Conversation.propertyId := Some "p1";
     Conversation.createdAt := 300; Conversation.updatedAt := 310;
     Conversation.user1Unread := 0; Conversation.user2Unread := 1;
     Conversation.lastMessage := Some "Still free?" |}.

Definition hello : Message.t :=
  {| Message.id := "m1"; Message.content := "Still free?";
     Message.senderId := "u2"; Message.conversationId := "c1";
     Message.createdAt := 310 |}.

Definition data : DB :=
  {| users := [alice; bob]; posts := [flat; house];
     postDetails := [flat_detail]; conversations := [chat];
     messages := [hello] |}.

(** The world with the given backend faults to come.  References that
    declare no action are reset when their listing goes, the storage
    client's default for an optional relation. *)
Definition world (fs : list bool) : World :=
  {| db := data; faults := fs; log := []; now := 1000;
     now_iso := "1970-01-01T00:00:01.000Z"; fresh := 0;
     undeclared := SetNull |}.

(** The same world with a storage layer that leaves such references. *)
Definition keeping (w : World) : World :=
  {| db := db w; faults := faults w; log := log w; now := now w;
     now_iso := now_iso w; fresh := fresh w; undeclared := NoAction |}.

Definition with_orphan (w : World) : World :=
  with_db w
    {| users := users (db w); posts := posts (db w) ++ [orphan];
       postDetails := postDetails (db w);
       conversations := conversations (db w); messages := messages (db w) |}.

Definition from (user : string) (id : string) (q b : list (string * value))
  : request :=
  {| query := q; Controller.id := id; userId := user; body := b |}.

(** Requests. *)
Definition flat_request : request :=
  from "u1" "" []
    [("title", VStr "Flat A"); ("price", int 1200); ("city", VStr "Berlin");
     ("latitude", VStr "52.52"); ("longitude", VStr "13.40")].

Definition free_request : request :=
  from "u1" "" []
    [("title", VStr "Flat A"); ("price", int 0); ("city", VStr "Berlin")].

Definition berlin_query : request :=
  from "" "" [("city", VStr "Berlin")] [].

Definition search_query : request :=
  from "" ""
    [("city", VStr "BER"); ("bedroom", VStr "2"); ("maxPrice", VStr "2000");
     ("type", VStr ""); ("page", VStr "1")] [].

Definition any_type_query : request :=
  from "" "" [("type", VStr "")] [].

Definition studio_edit : request :=
  from "u1" "p1" [] [("bedroom", int 0)].

Definition describe_edit : request :=
  from "u1" "p1" [] [("postDetail", VObj [("desc", VStr "Repainted")])].

Definition full_edit : request :=
  from "u1" "p1" []
    [("price", VStr "1300"); ("bedroom", VStr "2"); ("bathroom", VStr "1.5");
     ("latitude", VStr "52.53"); ("longitude", VStr "13.41");
     ("postDetail", VObj [("size", VStr "85"); ("school", int 3)])].

Definition removal (user : string) : request := from user "p1" [] [].

Definition reading (id : string) : request := from "" id [] [].

Definition everything : request := from "" "" [] [].

Definition move_edit : request :=
  from "u1" "p1" []
    [("latitude", VStr "48.85"); ("longitude", VStr "2.35")].

End Sample.


(* ================================================================== *)
(** ** The diagnostic routes *)

(** [/db-stats] and [/auth-check] of the test router.  The router has a
    storage client of its own, whose requests are not those of the
    controller; token verification is the library's and is a parameter
    here, with the signing key in it. *)
Module Router.
Import JS Store Controller.
Local Open Scope store_scope.

(** *** [/db-stats] *)

(** A request of the router's client: it fails when the backend does. *)
Definition reach {A} (read : DB -> A) : M A :=
  fun w =>
    let w1 := with_faults w (tl (faults w)) in
    if hd false (faults w) then (Throw "storage fault", w1)
    else (Ok (read (db w1)), w1).

Definition connect : M unit := reach (fun _ => tt).

Definition count {A} (table : DB -> list A) : M Z :=
  reach (fun d => Z.of_nat (length (table d))).

Section Environment.

(** [process.env.NODE_ENV], and the trace an error carries. *)
Variable NODE_ENV : option string.
Variable stack : string -> string.

Definition production : bool :=
  match NODE_ENV with Some mode => String.eqb mode "production" | None => false end.

Definition db_stats : M response :=
  try
    (_ <- connect ;;
     userCount <- count users ;;
     postCount <- count posts ;;
     conversationCount <- count conversations ;;
     messageCount <- count messages ;;
     ret {| status := 200;
            json := VObj [("status", VStr "connected");
                          ("collections",
                            VObj [("users", int userCount);
                                  ("posts", int postCount);
                                  ("conversations", int conversationCount);
                                  ("messages", int messageCount)])] |})
    (fun error =>
       ret {| status := 500;
              json := VObj [("status", VStr "error");
                            ("message", VStr error);
                            ("stack", if negb production
                                      then VStr (stack error)
                                      else VUndefined)] |}).

End Environment.

(** *** [/auth-check] *)

(** [s.split(sep)] for a separator of one character. *)
Fixpoint split (sep : ascii) (s : string) : list string :=
  match s with
  | EmptyString => [EmptyString]
  | String c s' =>
      if Ascii.eqb c sep then EmptyString :: split sep s'
      else
        match split sep s' with
        | word :: words => String c word :: words
        | [] => [String c EmptyString]
        end
  end.

(** [req.headers.authorization?.split(' ')[1]] *)
Definition bearer (authorization : option string) : value :=
  match authorization with
  | Some header =>
      match nth_error (split " " header) 1 with
      | Some token => VStr token
      | None => VUndefined
      end
  | None => VUndefined
  end.

(** [decoded.k]: reading a property of [null] or [undefined] throws. *)
Definition property (decoded : value) (k : string) : outcome value :=
  match decoded with
  | VUndefined | VNull => Throw "Cannot read properties of null"
  | _ => Ok (get decoded k)
  end.

Section Verifier.

(** [jwt.verify(token, process.env.JWT_SECRET_KEY)]: the decoded payload,
    or an error with its message. *)
Variable verify : string -> outcome value.

Definition auth_check (authorization : option string) : response :=
  let refused message :=
    {| status := 401;
       json := VObj [("status", VStr "error"); ("message", VStr message)] |} in
  match bearer authorization with
  | VStr token =>
      if negb (truthy (VStr token)) then refused "No token provided"
      else
        match verify token with
        | Ok decoded =>
            match property decoded "id" with
            | Ok _ =>
                {| status := 200;
                   json :=
                     VObj [("status", VStr "authenticated");
                           ("user",
                             VObj [("id", or (or (get decoded "id")
                                                 (get decoded "_id"))
                                             (get decoded "userId"));
                                   ("username", get decoded "username");
                                   ("email", get decoded "email")])] |}
            | Throw message => refused message
            end
        | Throw message => refused message
        end
  | _ => refused "No token provided"
  end.

End Verifier.

(** No blank in the text. *)
Fixpoint spaceless (s : string) : bool :=
  match s with
  | EmptyString => true
  | String c s' => negb (Ascii.eqb c " ") && spaceless s'
  end.

(** A verifier that knows one token. *)
Definition one_token (token : string) (payload : value) (t : string)
  : outcome value :=
  if String.eqb t token then Ok payload else Throw "invalid signature".

End Router.

(* ================================================================== *)
(** ** The session of the client *)

(** [AuthProvider] of [client/src/context/AuthContext.jsx]: the three
    pieces of React state and the item ['user'] of [localStorage], and the
    functions that change them.  [JSON.parse], [JSON.stringify], the
    conversion of a value to a string in a template, the conversion of an
    instant to ISO, the registration request and [authService.login] are
    not in the repository and are parameters; [localStorage] is taken to
    accept every write. *)
Module Session.
Import JS Store.

Record t : Type := {
  user : value;
  isAuthenticated : bool;
  loading : bool;
  (** [localStorage.getItem('user')] *)
  saved : option string
}.

(** The state [AuthProvider] starts in. *)
Definition initial (item : option string) : t :=
  {| user := VNull; isAuthenticated := false; loading := true; saved := item |}.

Definition setUser (s : t) (u : value) : t :=
  {| user := u; isAuthenticated := isAuthenticated s; loading := loading s;
     saved := saved s |}.

Definition setIsAuthenticated (s : t) (b : bool) : t :=
  {| user := user s; isAuthenticated := b; loading := loading s;
     saved := saved s |}.

Definition setLoading (s : t) (b : bool) : t :=
  {| user := user s; isAuthenticated := isAuthenticated s; loading := b;
     saved := saved s |}.

Definition setItem (s : t) (item : string) : t :=
  {| user := user s; isAuthenticated := isAuthenticated s;
     loading := loading s; saved := Some item |}.

Definition removeItem (s : t) : t :=
  {| user := user s; isAuthenticated := isAuthenticated s;
     loading := loading s; saved := None |}.

(** [o.k], which throws on [null] and [undefined]. *)
Definition read (o : value) (k : string) : outcome value :=
  match o with
  | VUndefined => Throw "Cannot read properties of undefined"
  | VNull => Throw "Cannot read properties of null"
  | _ => Ok (get o k)
  end.

(** [o.k = v] in a module, where the code is strict: it throws on a value
    that is not an object.  A property with a name set on an array is not
    in the value model, which keeps the array as it is. *)
Definition assign (o : value) (k : string) (v : value) : outcome value :=
  match o with
  | VObj fs => Ok (VObj (put k v fs))
  | VArr xs => Ok (VArr xs)
  | VUndefined => Throw "Cannot set properties of undefined"
  | VNull => Throw "Cannot set properties of null"
  | _ => Throw "Cannot create property"
  end.

(** [a ?? b] *)
Definition nullish (a b : value) : value :=
  match a with VUndefined | VNull => b | _ => a end.

(** The own properties [{ ...v }] copies: those of an object, the elements
    of an array and the characters of a string by their index. *)
Definition index (n : nat) : string := NilEmpty.string_of_uint (Nat.to_uint n).

Definition indexed (xs : list value) : list (string * value) :=
  combine (map index (seq 0 (length xs))) xs.

Definition characters (s : string) : list value :=
  map (fun c => VStr (String c EmptyString)) (list_ascii_of_string s).

Definition spread (v : value) : list (string * value) :=
  match v with
  | VObj fs => fs
  | VArr xs => indexed xs
  | VStr s => indexed (characters s)
  | _ => []
  end.

(** What the registration request came to: [fetch] rejected, or a
    response with its [ok] and what [response.json()] gives. *)
Inductive fetched : Type :=
| Rejected (message : string)
| Answered (ok : bool) (body : outcome value).

Section Browser.

Variable JSON_parse : string -> outcome value.
Variable JSON_stringify : value -> string.
(** [`${v}`] *)
Variable String_ : value -> string.
(** [new Date(ms).toISOString()] *)
Variable toISOString : Z -> string.

Definition logout (s : t) : t :=
  removeItem (setIsAuthenticated (setUser s VNull) false).

Definition checkAuth (s : t) : t :=
  let restored : outcome t :=
    match saved s with
    | Some savedUser =>
        if truthy (VStr savedUser) then
          match JSON_parse savedUser with
          | Ok userData =>
              match read userData "token" with
              | Ok token =>
                  if negb (truthy token) then
                    match
                      assign userData "token"
                        (VStr ("user_" ++ String_ (get userData "id")))
                    with
                    | Ok userData =>
                        Ok (setIsAuthenticated
                              (setUser (setItem s (JSON_stringify userData))
                                 userData) true)
                    | Throw error => Throw error
                    end
                  else Ok (setIsAuthenticated (setUser s userData) true)
              | Throw error => Throw error
              end
          | Throw error => Throw error
          end
        else Ok s
    | None => Ok s
    end in
  setLoading (match restored with Ok s' => s' | Throw _ => logout s end) false.

(** The fields both branches of [register] take from the form. *)
Definition profile (userData : value) : list (string * value) :=
  [("fullName", or (get userData "fullName") (get userData "username"));
   ("phone", or (get userData "phone") (VStr ""));
   ("city", or (get userData "city") (VStr ""));
   ("state", or (get userData "state") (VStr ""));
   ("location",
     if truthy (get userData "city") && truthy (get userData "state")
     then VStr (String_ (get userData "city") ++ ", "
                ++ String_ (get userData "state"))
     else VStr "");
   ("showContactInfo", nullish (get userData "showContactInfo") (VBool true))].

(** [completeUserData], when the response is [ok] and has a body. *)
Definition completeUserData (result userData : value) (time : nat -> Z)
  : outcome value :=
  match read result "user" with
  | Ok account =>
      match
        (if truthy (get result "token") then Ok (get result "token")
         else
           match read account "id" with
           | Ok id => Ok (VStr ("user_" ++ String_ id))
           | Throw error => Throw error
           end)
      with
      | Ok token =>
          match read userData "fullName" with
          | Ok _ =>
              Ok (extend (spread account)
                    (("token", token) :: profile userData
                     ++ [("lastLogin", VStr (toISOString (time 0%nat)))]))
          | Throw error => Throw error
          end
      | Throw error => Throw error
      end
  | Throw error => Throw error
  end.

Definition fallbackUserData (userData : value) (time : nat -> Z)
  : outcome value :=
  match read userData "username" with
  | Ok _ =>
      Ok (VObj
            ([("id", VStr ("user_" ++ String_ (int (time 0%nat))));
              ("username", get userData "username");
              ("email", get userData "email");
              ("token", VStr ("user_" ++ String_ (int (time 1%nat))));
              ("avatar", VNull);
              ("createdAt", VStr (toISOString (time 2%nat)))]
             ++ profile userData
             ++ [("verified", VBool false);
                 ("lastLogin", VStr (toISOString (time 3%nat)))]))
  | Throw error => Throw error
  end.

(** [time n] is the clock at its [n]-th reading during the call. *)
Definition register (userData : value) (answer : fetched) (time : nat -> Z)
  (s : t) : outcome value * t :=
  let signed_in (data : value) :=
    (Ok (VObj [("success", VBool true); ("user", data)]),
     setItem (setIsAuthenticated (setUser s data) true) (JSON_stringify data)) in
  let attempt : outcome value :=
    match answer with
    | Rejected error => Throw error
    | Answered true (Ok result) => completeUserData result userData time
    | Answered true (Throw error) => Throw error
    | Answered false _ => Throw "Registration failed"
    end in
  match attempt with
  | Ok data => signed_in data
  | Throw _ =>
      match fallbackUserData userData time with
      | Ok data => signed_in data
      | Throw error => (Throw error, s)
      end
  end.

(** [answer] is what [authService.login] came to. *)
Definition login (answer : outcome value) (s : t) : outcome value * t :=
  let s := setLoading s true in
  match answer with
  | Ok userData =>
      (Ok (VObj [("success", VBool true); ("user", userData)]),
       setLoading
         (setIsAuthenticated
            (setUser (setItem s (JSON_stringify userData)) userData) true)
         false)
  | Throw error => (Throw error, setLoading s false)
  end.

Definition checkAuthStatus (s : t) : t :=
  let signed_out := setUser (setIsAuthenticated s false) VNull in
  match saved s with
  | Some userData =>
      if truthy (VStr userData) then
        match JSON_parse userData with
        | Ok parsedUser =>
            if truthy parsedUser && truthy (get parsedUser "token")
            then setIsAuthenticated (setUser s parsedUser) true
            else signed_out
        | Throw _ => signed_out
        end
      else signed_out
  | None => signed_out
  end.

(** What the application can ask of the provider, in any order. *)
Inductive action : Type :=
| CheckAuth
| Register (userData : value) (answer : fetched) (time : nat -> Z)
| Login (answer : outcome value)
| Logout
| CheckAuthStatus.

Definition step (s : t) (a : action) : t :=
  match a with
  | CheckAuth => checkAuth s
  | Register userData answer time => snd (register userData answer time s)
  | Login answer => snd (login answer s)
  | Logout => logout s
  | CheckAuthStatus => checkAuthStatus s
  end.

Definition run (actions : list action) (s : t) : t := fold_left step actions s.

End Browser.

(** A session that is signed in has its user in [localStorage], and a
    session that is not has no user. *)
Definition consistent (s : t) : Prop :=
  (isAuthenticated s = true -> saved s <> None) /\
  (isAuthenticated s = false -> user s = VNull).

(** A browser for the examples: it parses one item, writes every value as
    the same text, and renders strings only. *)
Definition parse_one (item : string) (v : value) (text : string)
  : outcome value :=
  if String.eqb text item then Ok v else Throw "Unexpected token".

Definition render (v : value) : string :=
  match v with VStr s => s | _ => "undefined" end.

Definition form : value :=
  VObj [("username", VStr "carol"); ("email", VStr "carol@example.org");
        ("city", VStr "Rome"); ("showContactInfo", VBool false)].

(** What the server sends back when it accepts the form. *)
Definition accepted : value :=
  VObj [("token", VStr "jwt");
        ("user", VObj [("id", VStr "u7"); ("username", VStr "carol");
                       ("fullName", VStr "Carol C.")])].

Definition ticking (n : nat) : Z := 1000 + Z.of_nat n.

Definition epoch (ms : Z) : string := "1970-01-01T00:00:01.000Z".

End Session.

(* ================================================================== *)
(** ** Vocabulary of the statements *)

Module Spec.
Import JS Store Controller.

(** The requests sent while the world went from [w] to [w']. *)
Definition sent (w w' : World) : list event :=
  skipn (length (log w)) (log w').

(** A [create] request whose data names no coordinate. *)
Definition without_coordinates (ev : event) : Prop :=
  exists fs, what ev = Create (VObj fs) /\
             assoc "latitude" fs = None /\ assoc "longitude" fs = None.

(** One [prisma.post.create] followed by the shaping of its row, as
    [addPost] runs it, twice. *)
Definition attempt (data : value) : M response :=
  (newPost <- prisma.post.create data ;;
   responsePost <- shaped newPost ;;
   ret {| status := 201; json := responsePost |})%store.

(** The three ways an attempt ends: the row is stored and shaped; the row is
    stored and its owner is missing; nothing is stored. *)
Inductive attempted (data : value) (w : World) : outcome response -> World -> Prop :=
| Stored p u w' :
    new_post (oid (fresh w)) (now w) data = Some p ->
    posts (db w') = posts (db w) ++ [p] ->
    users (db w') = users (db w) ->
    find_user (db w') (Post.userId p) = Some u ->
    log w' = log w ++ [{| what := Create data; served := true |}] ->
    attempted data w
      (Ok {| status := 201;
             json := extend (full (included (db w') p))
                       [("ownerInfo", ownerInfo u (Post.city p))] |}) w'
| Unshaped p e w' :
    new_post (oid (fresh w)) (now w) data = Some p ->
    posts (db w') = posts (db w) ++ [p] ->
    users (db w') = users (db w) ->
    find_user (db w') (Post.userId p) = None ->
    log w' = log w ++ [{| what := Create data; served := true |}] ->
    attempted data w (Throw e) w'
| Refused e w' :
    db w' = db w ->
    log w' = log w ++ [{| what := Create data; served := false |}] ->
    attempted data w (Throw e) w'.

(** The answer of a handler's outer [catch]. *)
Definition failed (s : string) (w : World) : outcome response * World :=
  (Ok {| status := 500; json := message s |}, w).

(** The world once the lookup of [id] was served. *)
Definition looked_up (w : World) (id : string) : World :=
  with_log (with_faults w (tl (faults w)))
    (log w ++ [{| what := FindUnique id; served := true |}]).

(** Requests that write. *)
Definition writes (c : call) : bool :=
  match c with
  | Create _ | Upsert _ _ _ | Update _ _ | Delete _ => true
  | FindMany _ _ | FindUnique _ => false
  end.

(** The gate in front of a handler that changes a listing.  With the
    lookup served, a listing of someone else gives 403 and no listing gives
    404, the store untouched in both cases; the store changes, or a writing
    request is sent, only for a listing that is there and belongs to the
    caller; and a listing that is there is never answered 404. *)
Definition owner_gated (handler : request -> M response)
  (req : request) (w : World) : Prop :=
  let '(r, w') := handler req w in
  (hd false (faults w) = false ->
   match find_post (db w) (id req) with
   | Some p =>
       Post.userId p <> userId req ->
       (exists resp, r = Ok resp /\ status resp = 403) /\ db w' = db w
   | None =>
       (exists resp, r = Ok resp /\ status resp = 404) /\ db w' = db w
   end)
  /\
  (db w' <> db w \/ existsb (fun ev => writes (what ev)) (sent w w') = true ->
   exists p, find_post (db w) (id req) = Some p /\
             Post.userId p = userId req)
  /\
  (forall p resp,
     find_post (db w) (id req) = Some p -> r = Ok resp -> status resp <> 404).

(** What [updatePost] does to the numeric fields of the listing [old],
    giving [new]: a falsy value leaves the field, a truthy one is parsed and
    stored. *)
Definition listing_numbers (body : value) (old new : Post.t) : Prop :=
  (if truthy (get body "price")
   then Post.price new = parseInt (get body "price")
   else Post.price new = Post.price old)
  /\
  (if truthy (get body "bedroom")
   then exists n, parseInt (get body "bedroom") = Fin n 0 /\
                  Post.bedroom new = Some n
   else Post.bedroom new = Post.bedroom old)
  /\
  (if truthy (get body "bathroom")
   then Post.bathroom new = Some (parseFloat (get body "bathroom"))
   else Post.bathroom new = Post.bathroom old).

(** A truthy metric of the supplied detail is stored as its integer. *)
Definition metric_stored (postDetail : value) (k : string) (stored : option Z)
  : Prop :=
  truthy (get postDetail k) = true ->
  exists n, parseInt (get postDetail k) = Fin n 0 /\ stored = Some n.

Definition detail_numbers (postDetail : value) (x : PostDetail.t) : Prop :=
  metric_stored postDetail "size" (PostDetail.size x) /\
  metric_stored postDetail "school" (PostDetail.school x) /\
  metric_stored postDetail "bus" (PostDetail.bus x) /\
  metric_stored postDetail "restaurant" (PostDetail.restaurant x).

(** A served upsert of a detail. *)
Definition upserted (ev : event) : bool :=
  match what ev with
  | Upsert _ _ _ => served ev
  | _ => false
  end.

(** The elements of a response that is a sequence. *)
Definition items (v : value) : list value :=
  match v with VArr xs => xs | _ => [] end.

(** The owner projection of a list item or of a read listing: the joined
    account's identifier, handle, e-mail and avatar, its handle again as the
    display name, the two fixed flags, the account's creation instant, and
    a location. *)
Definition projects (info : value) (u : UserSel) (location : string) : Prop :=
  get info "id" = VStr (sel_id u) /\
  get info "username" = VStr (sel_username u) /\
  get info "email" = VStr (sel_email u) /\
  get info "fullName" = VStr (sel_username u) /\
  get info "avatar" = text (sel_avatar u) /\
  get info "verified" = VBool false /\
  get info "showContactInfo" = VBool true /\
  get info "memberSince" = VDate (sel_createdAt u) /\
  get info "location" = VStr location.

(** The projection that stands in for a missing owner. *)
Definition stands_in (info : value) (today location : string) : Prop :=
  get info "id" = VStr "unknown" /\
  get info "username" = VStr "Unknown User" /\
  get info "email" = VStr "" /\
  get info "fullName" = VStr "Unknown" /\
  get info "avatar" = VStr "" /\
  get info "verified" = VBool false /\
  get info "showContactInfo" = VBool false /\
  get info "memberSince" = VStr today /\
  get info "location" = VStr location.

(** A list item carries an owner projection: that of the account joined
    under [user], or the stand-in. *)
Definition owned_item (today : string) (item : value) : Prop :=
  exists info city,
    get item "ownerInfo" = VObj info /\ get item "city" = VStr city /\
    ((exists u, get item "user" = shown_user (Some u) /\
                projects (VObj info) u (or_text city "Unknown City"))
     \/ (truthy (get item "user") = false /\
         (stands_in (VObj info) today (or_text city "Unknown City")
          \/ stands_in (VObj info) today (or_text city "Unknown")))).

(** *** The filter, in the words of the specification *)

(** The keys the filter builder reads. *)
Definition filter_keys : list string :=
  ["city"; "type"; "property"; "bedroom"; "minPrice"; "maxPrice"].

(** The value of a query parameter that is there and not empty. *)
Definition given (q : value) (k : string) : option string :=
  match get q k with
  | VStr s => if String.eqb s "" then None else Some s
  | _ => None
  end.

(** A query as the query-string parser gives it for single parameters:
    each key the builder reads is absent or holds a string, and the
    numeric ones, where given, start with an integer. *)
Definition textual (q : value) (k : string) : Prop :=
  get q k = VUndefined \/ exists s, get q k = VStr s.

Definition numeric (q : value) (k : string) : Prop :=
  forall s, given q k = Some s -> parseInt_string s <> NaN.

Definition plain_query (q : value) : Prop :=
  Forall (textual q) filter_keys /\
  Forall (numeric q) ["bedroom"; "minPrice"; "maxPrice"].

(** What each given parameter asks of a listing. *)
Definition matches_filter (q : value) (p : Post.t) : Prop :=
  (forall s, given q "city" = Some s ->
     exists a b,
       lowercase (Post.city p) = (a ++ lowercase s ++ b)%string) /\
  (forall s, given q "type" = Some s -> Post.type p = s) /\
  (forall s, given q "property" = Some s -> Post.property p = s) /\
  (forall s, given q "bedroom" = Some s ->
     exists n b, parseInt_string s = Fin n 0 /\
                 Post.bedroom p = Some b /\ n <= b) /\
  (forall s, given q "minPrice" = Some s ->
     exists n, parseInt_string s = Fin n 0 /\
               num_leb (Fin n 0) (Post.price p) = true) /\
  (forall s, given q "maxPrice" = Some s ->
     exists n, parseInt_string s = Fin n 0 /\
               num_leb (Post.price p) (Fin n 0) = true).

(** One entry of an object, or none. *)
Definition part (on : bool) (k : string) (v : value) : list (string * value) :=
  if on then [(k, v)] else [].

(** The storage client reads the conditions [fs] as a predicate that holds
    exactly where [P] does. *)
Definition means (fs : list (string * value)) (P : Post.t -> Prop) : Prop :=
  exists keep, conditions fs = Some keep /\ forall p, keep p = true <-> P p.

End Spec.

(* ================================================================== *)
(** ** Vocabulary of the further properties *)

Module Further.
Import JS Store Controller Spec.

(** [a] was created no earlier than [b]. *)
Definition newer (a b : Post.t) : Prop :=
  Post.createdAt b <= Post.createdAt a.

(** The handler answered, with one of the given codes. *)
Definition answers (r : outcome response) (codes : list Z) : Prop :=
  exists resp, r = Ok resp /\ In (status resp) codes.

(** How many of the requests sent from [w] were served. *)
Definition served_count (w w' : World) : nat :=
  length (List.filter served (sent w w')).

(** How [addPost] fills the listing [p] from the body of the request:
    title, city and caller as they are; a price given as a string parsed
    with [parseFloat], a number kept; bedrooms and bathrooms parsed when
    they are strings, kept when they are numbers, 0 when falsy; type,
    property, address and images as given when truthy and "rent",
    "apartment", the empty string and no image otherwise. *)
Definition created_from (body : value) (caller : string) (at_ : Z)
  (p : Post.t) : Prop :=
  get body "title" = VStr (Post.title p) /\
  get body "city" = VStr (Post.city p) /\
  Post.userId p = caller /\
  Post.createdAt p = at_ /\ Post.updatedAt p = at_ /\
  (if is_string (get body "price")
   then Post.price p = parseFloat (get body "price")
   else get body "price" = VNum (Post.price p)) /\
  (if truthy (get body "bedroom") then
     if is_string (get body "bedroom")
     then exists n, parseInt (get body "bedroom") = Fin n 0 /\
                    Post.bedroom p = Some n
     else exists n, as_int (get body "bedroom") = Val n /\
                    Post.bedroom p = Some n
   else Post.bedroom p = Some 0) /\
  (if truthy (get body "bathroom") then
     if is_string (get body "bathroom")
     then Post.bathroom p = Some (parseFloat (get body "bathroom"))
     else get body "bathroom" = real (Post.bathroom p)
   else Post.bathroom p = Some (Fin 0 0)) /\
  (if truthy (get body "type")
   then get body "type" = VStr (Post.type p) else Post.type p = "rent") /\
  (if truthy (get body "property")
   then get body "property" = VStr (Post.property p)
   else Post.property p = "apartment") /\
  (if truthy (get body "address")
   then get body "address" = text (Post.address p)
   else Post.address p = Some "") /\
  (if truthy (get body "images")
   then get body "images" = VArr (map VStr (Post.images p))
   else Post.images p = []).

(** The detail [addPost] stores with the listing [p]: linked to it, its
    texts as given or empty, its metrics parsed or absent. *)
Definition detail_from (postDetail : value) (p : Post.t) (x : PostDetail.t)
  : Prop :=
  PostDetail.postId x = Post.id p /\
  (forall k (read : PostDetail.t -> option string),
     In (k, read) [("desc", PostDetail.desc); ("utilities", PostDetail.utilities);
                   ("pet", PostDetail.pet); ("income", PostDetail.income)] ->
     if truthy (get postDetail k) then get postDetail k = text (read x)
     else read x = Some "") /\
  (forall k (read : PostDetail.t -> option Z),
     In (k, read) [("size", PostDetail.size); ("school", PostDetail.school);
                   ("bus", PostDetail.bus); ("restaurant", PostDetail.restaurant)] ->
     if truthy (get postDetail k)
     then exists n, parseInt (get postDetail k) = Fin n 0 /\ read x = Some n
     else read x = None).

(** The store grew from [w] to [w'] by the listings [ps] and the details
    [ds], appended, and changed in nothing else. *)
Definition grown (w w' : World) (ps : list Post.t) (ds : list PostDetail.t)
  : Prop :=
  posts (db w') = posts (db w) ++ ps /\
  postDetails (db w') = postDetails (db w) ++ ds /\
  users (db w') = users (db w) /\
  conversations (db w') = conversations (db w) /\
  messages (db w') = messages (db w).

(** A caller the store has no account of asks for a listing with a detail,
    and leaves the optional fields out. *)
Definition stranger_request : request :=
  {| query := []; Controller.id := ""; userId := "u9";
     body := [("title", VStr "Loft C"); ("price", VStr "900.50");
              ("city", VStr "Rome"); ("bedroom", VStr "2");
              ("postDetail", VObj [("desc", VStr "Quiet"); ("size", VStr "40")])] |}.

(** The same request of an account. *)
Definition loft_request : request :=
  {| query := []; Controller.id := ""; userId := "u2";
     body := body stranger_request |}.

(** What a listing is known by: its identifier, its owner, its date. *)
Definition identity (p : Post.t) : string * string * Z :=
  (Post.id p, Post.userId p, Post.createdAt p).

(** The listings and details of the store that are not those of [id]. *)
Definition elsewhere (id : string) (d : DB)
  : list Post.t * list PostDetail.t :=
  (List.filter (fun p => negb (String.eqb (Post.id p) id)) (posts d),
   List.filter (fun x => negb (String.eqb (PostDetail.postId x) id))
     (postDetails d)).

(** What [updatePost] does to the texts of the listing [old], giving
    [new]: a field the body does not hold is left; a mandatory text is
    replaced by the string given; an optional text is replaced by the
    string given or cleared by [null]; the images are replaced by the
    strings given; the date of the change is set. *)
Definition listing_texts (body : value) (at_ : Z) (old new : Post.t) : Prop :=
  (forall k (read : Post.t -> string),
     In (k, read) [("title", Post.title); ("city", Post.city);
                   ("type", Post.type); ("property", Post.property)] ->
     match get body k with
     | VUndefined => read new = read old
     | v => v = VStr (read new)
     end) /\
  (forall k (read : Post.t -> option string),
     In (k, read) [("address", Post.address); ("latitude", Post.latitude);
                   ("longitude", Post.longitude)] ->
     match get body k with
     | VUndefined => read new = read old
     | VNull => read new = None
     | v => exists s, v = VStr s /\ read new = Some s
     end) /\
  match get body "images" with
  | VUndefined => Post.images new = Post.images old
  | v => v = VArr (map VStr (Post.images new))
  end /\
  Post.updatedAt new = at_.

(** The owner renames the flat and clears its address. *)
Definition rename_edit : request :=
  {| query := []; Controller.id := "p1"; userId := "u1";
     body := [("title", VStr "Flat A+"); ("address", VNull);
              ("images", VArr [VStr "a.jpg"])] |}.

(** The body of an answer, nothing when the handler threw. *)
Definition json_of (r : outcome response) : value :=
  match r with Ok resp => json resp | Throw _ => VUndefined end.

(** Carries a fact about a field through the cases of its value. *)
Ltac same_field H :=
  revert H;
  match goal with
  | |- match ?v with _ => _ end -> _ => destruct v; intros H; exact H
  end.

(** A request the backend failed or the storage client refused. *)
Definition unserved (ev : event) : bool := negb (served ev).

End Further.
(* ================================================================== *)
(** ** Facts about the storage client *)

Module StoreFacts.
Import JS Store.

(** Peels the chain of field checks of a payload, one field at a time. *)
Ltac fields H :=
  repeat match type of H with
         | match ?c with _ => _ end = Some _ =>
             let E := fresh "E" in destruct c eqn:E; [ | discriminate H ]
         end.

Lemma new_post_fields id at_ data p :
  new_post id at_ data = Some p ->
  Post.id p = id /\
  required (as_string (get data "title")) = Some (Post.title p) /\
  required (as_float (get data "price")) = Some (Post.price p) /\
  required (as_string (get data "city")) = Some (Post.city p) /\
  optional (as_string (get data "latitude")) = Some (Post.latitude p) /\
  optional (as_string (get data "longitude")) = Some (Post.longitude p) /\
  required (as_string (get data "userId")) = Some (Post.userId p).
Proof.
  unfold new_post. intros H.
  destruct data; try discriminate H.
  destruct (only_keys _ fields); [ | discriminate H ].
  fields H. injection H as <-. cbn. repeat split; assumption.
Qed.

Lemma revised_post_fields old at_ data p :
  revised_post old at_ data = Some p ->
  Post.id p = Post.id old /\
  revise (Post.price old) (as_float (get data "price")) = Some (Post.price p) /\
  revise_optional (Post.bedroom old) (as_int (get data "bedroom"))
    = Some (Post.bedroom p) /\
  revise_optional (Post.bathroom old) (as_float (get data "bathroom"))
    = Some (Post.bathroom p) /\
  revise_optional (Post.latitude old) (as_string (get data "latitude"))
    = Some (Post.latitude p) /\
  revise_optional (Post.longitude old) (as_string (get data "longitude"))
    = Some (Post.longitude p).
Proof.
  unfold revised_post. intros H.
  destruct data; try discriminate H.
  destruct (only_keys _ fields); [ | discriminate H ].
  fields H. injection H as <-. cbn. repeat split; assumption.
Qed.

Lemma revised_detail_fields old d x :
  revised_detail old d = Some x ->
  PostDetail.postId x = PostDetail.postId old /\
  revise_optional (PostDetail.size old) (as_int (get d "size"))
    = Some (PostDetail.size x) /\
  revise_optional (PostDetail.school old) (as_int (get d "school"))
    = Some (PostDetail.school x) /\
  revise_optional (PostDetail.bus old) (as_int (get d "bus"))
    = Some (PostDetail.bus x) /\
  revise_optional (PostDetail.restaurant old) (as_int (get d "restaurant"))
    = Some (PostDetail.restaurant x).
Proof.
  unfold revised_detail. intros H.
  destruct d; try discriminate H.
  destruct (only_keys _ fields); [ | discriminate H ].
  fields H. injection H as <-. cbn. repeat split; assumption.
Qed.

Lemma new_detail_fields id postId d x :
  new_detail id postId d = Some x ->
  PostDetail.postId x = postId /\
  optional (as_int (get d "size")) = Some (PostDetail.size x) /\
  optional (as_int (get d "school")) = Some (PostDetail.school x) /\
  optional (as_int (get d "bus")) = Some (PostDetail.bus x) /\
  optional (as_int (get d "restaurant")) = Some (PostDetail.restaurant x).
Proof.
  unfold new_detail. intros H.
  destruct d; try discriminate H.
  destruct (only_keys _ fields); [ | discriminate H ].
  fields H. injection H as <-. cbn. repeat split; assumption.
Qed.

(** Looking a document up after it was put in place. *)
Lemma find_replace_post p l :
  (exists q, find (fun q => String.eqb (Post.id q) (Post.id p)) l = Some q) ->
  find (fun q => String.eqb (Post.id q) (Post.id p)) (replace_post p l) = Some p.
Proof.
  intros [q H]. induction l as [ | a l IH ]; [ discriminate H | ].
  cbn in *. destruct (String.eqb (Post.id a) (Post.id p)) eqn:E.
  - cbn. now rewrite String.eqb_refl.
  - cbn. rewrite E. auto.
Qed.

Lemma find_replace_detail x l :
  (exists y, find (fun y => String.eqb (PostDetail.postId y) (PostDetail.postId x)) l
             = Some y) ->
  find (fun y => String.eqb (PostDetail.postId y) (PostDetail.postId x))
       (replace_detail x l) = Some x.
Proof.
  intros [y H]. induction l as [ | a l IH ]; [ discriminate H | ].
  cbn in *.
  destruct (String.eqb (PostDetail.postId a) (PostDetail.postId x)) eqn:E.
  - cbn. now rewrite String.eqb_refl.
  - cbn. rewrite E. auto.
Qed.

Lemma find_last {A} (f : A -> bool) l x :
  find f l = None -> f x = true -> find f (l ++ [x]) = Some x.
Proof.
  induction l as [ | a l IH ]; cbn; intros H Hx.
  - now rewrite Hx.
  - destruct (f a); [ discriminate H | auto ].
Qed.

Lemma find_filter_out {A} (f : A -> bool) l :
  find f (List.filter (fun x => negb (f x)) l) = None.
Proof.
  induction l as [ | a l IH ]; cbn; [ reflexivity | ].
  destruct (f a) eqn:E; cbn; [ assumption | now rewrite E ].
Qed.

(** What sending a request does, by its result. *)
Lemma send_ok {A} c (run : World -> option (A * World)) w a w' :
  send c run w = (Ok a, w') ->
  hd false (faults w) = false /\
  exists w2, run (with_faults w (tl (faults w))) = Some (a, w2) /\
             w' = with_log w2 (log w2 ++ [{| what := c; served := true |}]).
Proof.
  unfold send. destruct (hd false (faults w)); [ discriminate | ].
  destruct (run _) as [ [a' w2] | ]; [ | discriminate ].
  intros H. injection H as <- <-. eauto.
Qed.

Lemma send_throw {A} c (run : World -> option (A * World)) w e w' :
  send c run w = (Throw e, w') ->
  w' = with_log (with_faults w (tl (faults w)))
         (log w ++ [{| what := c; served := false |}]).
Proof.
  unfold send. destruct (hd false (faults w)).
  - intros H. now injection H as _ <-.
  - destruct (run _) as [ [a' w2] | ]; [ discriminate | ].
    intros H. now injection H as _ <-.
Qed.

Lemma send_fault {A} c (run : World -> option (A * World)) w :
  hd false (faults w) = true ->
  send c run w =
    (Throw "storage fault",
     with_log (with_faults w (tl (faults w)))
       (log w ++ [{| what := c; served := false |}])).
Proof. unfold send. now intros ->. Qed.

End StoreFacts.
(* ================================================================== *)
(** ** Creating a listing *)

Module Create.
Import JS Store Controller StoreFacts Spec.

Lemma sent_app w w' evs : log w' = log w ++ evs -> sent w w' = evs.
Proof.
  unfold sent. intros ->. rewrite skipn_app, skipn_all, Nat.sub_diag. reflexivity.
Qed.

Lemma create_ok data w row w1 :
  prisma.post.create data w = (Ok row, w1) ->
  exists p ds,
    new_post (oid (fresh w)) (now w) data = Some p /\
    posts (db w1) = posts (db w) ++ [p] /\
    postDetails (db w1) = postDetails (db w) ++ ds /\
    users (db w1) = users (db w) /\
    conversations (db w1) = conversations (db w) /\
    messages (db w1) = messages (db w) /\
    row = included (db w1) p /\
    log w1 = log w ++ [{| what := Create data; served := true |}].
Proof.
  intros H. apply send_ok in H as (_ & w2 & H & ->).
  unfold create_post in H. cbn in H.
  destruct (new_post _ _ data) as [p | ]; [ | discriminate H ].
  destruct (nested_detail _ _ _) as [ds | ]; [ | discriminate H ].
  injection H as <- <-. exists p, ds. cbn. repeat split; reflexivity.
Qed.

Lemma create_throw data w e w1 :
  prisma.post.create data w = (Throw e, w1) ->
  db w1 = db w /\
  log w1 = log w ++ [{| what := Create data; served := false |}].
Proof.
  intros H. apply send_throw in H as ->. cbn. split; reflexivity.
Qed.

Lemma shaped_run r w :
  shaped r w =
    match user r with
    | Some u =>
        (Ok (extend (full r) [("ownerInfo", ownerInfo u (Post.city (post r)))]), w)
    | None => (Throw "Cannot read properties of null", w)
    end.
Proof. unfold shaped, joined, bind. now destruct (user r). Qed.

Lemma attempt_run data w r w' :
  attempt data w = (r, w') -> attempted data w r w'.
Proof.
  unfold attempt, bind. destruct (prisma.post.create data w) as [ [row | e] w1 ] eqn:C.
  - apply create_ok in C as (p & ds & Hp & Hposts & _ & Husers & _ & _ & -> & Hlog).
    rewrite shaped_run. cbn [user included post].
    destruct (find_user (db w1) (Post.userId p)) as [u | ] eqn:U;
      intros H; injection H as <- <-.
    + now apply Stored.
    + now apply Unshaped with (p := p).
  - apply create_throw in C as [Hdb Hlog].
    intros H; injection H as <- <-. now apply Refused.
Qed.

Lemma addPost_run req w :
  addPost req w =
    let body := VObj (body req) in
    if negb (truthy (get body "title")) || negb (truthy (get body "price"))
       || negb (truthy (get body "city"))
    then (Ok {| status := 400; json := message "Missing required fields" |}, w)
    else
      let data := createData body (userId req) in
      let failed e w :=
        (Ok {| status := 500;
               json := VObj [("message", VStr "Failed to create post in database");
                             ("error", VStr e)] |}, w) in
      match attempt data w with
      | (Ok resp, w1) => (Ok resp, w1)
      | (Throw _, w1) =>
          match attempt data w1 with
          | (Ok resp, w2) => (Ok resp, w2)
          | (Throw e, w2) => failed e w2
          end
      end.
Proof.
  unfold addPost, try, attempt. cbv zeta.
  destruct (_ || _); [ reflexivity | ].
  destruct (bind _ _ w) as [ [resp | e] w1 ]; [ reflexivity | ].
  destruct (bind _ _ w1) as [ [resp | e'] w2 ]; reflexivity.
Qed.

Lemma required_string v s : required (as_string v) = Some s -> v = VStr s.
Proof. destruct v; cbn; try discriminate. now intros [= ->]. Qed.

Lemma createData_fields body uid p id at_ :
  new_post id at_ (createData (VObj body) uid) = Some p ->
  Post.latitude p = None /\ Post.longitude p = None /\
  get (VObj body) "title" = VStr (Post.title p) /\
  get (VObj body) "city" = VStr (Post.city p) /\
  Post.userId p = uid.
Proof.
  intros H. apply new_post_fields in H as (_ & Ht & _ & Hc & Hla & Hlo & Hu).
  cbn in Hla, Hlo, Ht, Hc, Hu.
  injection Hla as <-. injection Hlo as <-. injection Hu as <-.
  apply required_string in Ht, Hc. auto.
Qed.

Lemma createData_without_coordinates body uid b :
  without_coordinates {| what := Create (createData body uid); served := b |}.
Proof. eexists. split; [ reflexivity | split; reflexivity ]. Qed.

(** C5.  [addPost] never stores a latitude or a longitude.  Whatever the
    request holds, it sends at most two [create] requests and the data of
    each names neither coordinate; every listing in the store afterwards
    was there before or has both coordinates empty.  When the first
    [create] fails, exactly one more is sent, with the same data, and when
    that one fails too the answer is 500 and the store is as it was. *)
Theorem addPost_never_stores_coordinates (req : request) (w : World) :
  let '(r, w') := addPost req w in
  (length (sent w w') <= 2)%nat /\
  Forall without_coordinates (sent w w') /\
  (forall p, In p (posts (db w')) ->
     In p (posts (db w)) \/
     (Post.latitude p = None /\ Post.longitude p = None)) /\
  (forall first rest, sent w w' = first :: rest -> served first = false ->
     exists second, rest = [second] /\ what second = what first /\
       (served second = false ->
          db w' = db w /\ exists resp, r = Ok resp /\ status resp = 500)).
Proof.
  rewrite addPost_run. cbv zeta.
  destruct (_ || _).
  { unfold sent. rewrite skipn_all. cbn. repeat split; auto; try lia.
    intros ? ? [=]. }
  set (data := createData _ _).
  assert (Hdata : forall b, without_coordinates {| what := Create data; served := b |})
    by (intros b; apply createData_without_coordinates).
  assert (Hnew : forall id at_ p, new_post id at_ data = Some p ->
            Post.latitude p = None /\ Post.longitude p = None).
  { intros id at_ p H. apply createData_fields in H. tauto. }
  destruct (attempt data w) as [r1 w1] eqn:A1. apply attempt_run in A1.
  destruct A1 as [p u w1 Hp Hposts _ _ Hlog | p e w1 Hp Hposts _ _ Hlog | e w1 Hdb Hlog ].
  - rewrite (sent_app _ _ _ Hlog). cbn. repeat split; auto.
    + intros q. rewrite Hposts, in_app_iff. cbn. intros [ ? | [ <- | [] ] ]; eauto.
    + intros ? ? [= <- <-]. discriminate.
  - destruct (attempt data w1) as [r2 w2] eqn:A2. apply attempt_run in A2.
    assert (Hev : exists ev, log w2 = log w ++ [{| what := Create data; served := true |}; ev]
                    /\ what ev = Create data).
    { destruct A2 as [ ? ? ? _ _ _ _ L | ? ? ? _ _ _ _ L | ? ? _ L ];
        rewrite L, Hlog, <- app_assoc; eexists; split; reflexivity. }
    destruct Hev as (ev & L & Hev).
    assert (Hq : forall q, In q (posts (db w2)) ->
              In q (posts (db w)) \/ (Post.latitude q = None /\ Post.longitude q = None)).
    { intros q.
      destruct A2 as [ p2 ? ? Hp2 P2 _ _ _ | p2 ? ? Hp2 P2 _ _ _ | ? ? D2 _ ].
      - rewrite P2, Hposts, !in_app_iff. cbn. intros [ [ ? | [ <- | [] ] ] | [ <- | [] ] ]; eauto.
      - rewrite P2, Hposts, !in_app_iff. cbn. intros [ [ ? | [ <- | [] ] ] | [ <- | [] ] ]; eauto.
      - rewrite D2, Hposts, in_app_iff. cbn. intros [ ? | [ <- | [] ] ]; eauto. }
    assert (G : (length (sent w w2) <= 2)%nat /\ Forall without_coordinates (sent w w2) /\
                forall first rest, sent w w2 = first :: rest -> served first = false -> False).
    { rewrite (sent_app _ _ _ L). cbn. split; [ lia | split ].
      - repeat constructor; auto. destruct ev as [c b]; cbn in Hev; subst c; auto.
      - intros ? ? [= <- <-]. discriminate. }
    destruct G as (G1 & G2 & G3).
    destruct r2; (repeat split; auto; intros ? ? S F; destruct (G3 _ _ S F)).
  - destruct (attempt data w1) as [r2 w2] eqn:A2. apply attempt_run in A2.
    destruct A2 as [ p2 u2 w2 Hp2 P2 _ _ L2 | p2 e2 w2 Hp2 P2 _ _ L2 | e2 w2 D2 L2 ].
    + assert (L : log w2 = log w ++ [{| what := Create data; served := false |};
                                     {| what := Create data; served := true |}])
        by (rewrite L2, Hlog, <- app_assoc; reflexivity).
      rewrite (sent_app _ _ _ L). cbn. repeat split; auto.
      * intros q. rewrite P2, Hdb, in_app_iff. cbn. intros [ ? | [ <- | [] ] ]; eauto.
      * intros ? ? [= <- <-] _. eexists. repeat split; discriminate.
    + assert (L : log w2 = log w ++ [{| what := Create data; served := false |};
                                     {| what := Create data; served := true |}])
        by (rewrite L2, Hlog, <- app_assoc; reflexivity).
      rewrite (sent_app _ _ _ L). cbn. repeat split; auto.
      * intros q. rewrite P2, Hdb, in_app_iff. cbn. intros [ ? | [ <- | [] ] ]; eauto.
      * intros ? ? [= <- <-] _. eexists. repeat split; discriminate.
    + assert (L : log w2 = log w ++ [{| what := Create data; served := false |};
                                     {| what := Create data; served := false |}])
        by (rewrite L2, Hlog, <- app_assoc; reflexivity).
      rewrite (sent_app _ _ _ L). cbn. repeat split; auto.
      * intros q. rewrite D2, Hdb. auto.
      * intros ? ? [= <- <-] _. eexists. repeat split; eauto.
        now rewrite D2.
Qed.

Lemma find_user_users d d' id :
  users d' = users d -> find_user d' id = find_user d id.
Proof. unfold find_user. now intros ->. Qed.


(** C10.  The check on the required fields of [addPost] is a truthiness
    check: a request whose [price] is the number 0, or whose [title] or
    [city] is the empty string, holds the field and is answered 400
    "Missing required fields" all the same, with the world left as it
    was. *)
Theorem addPost_rejects_falsy (req : request) (w : World) :
  (exists e, assoc "price" (body req) = Some (VNum (Fin 0 e)))
  \/ assoc "title" (body req) = Some (VStr "")
  \/ assoc "city" (body req) = Some (VStr "") ->
  addPost req w =
    (Ok {| status := 400; json := message "Missing required fields" |}, w).
Proof.
  intros H. unfold addPost, try. cbn [get].
  destruct H as [ [e H] | [ H | H ] ]; rewrite H; cbn;
    rewrite ?orb_true_r; reflexivity.
Qed.

(** The sample owner creates a flat: coordinates are sent, none is kept. *)
Lemma addPost_never_stores_coordinates_witness :
  Forall without_coordinates
    (sent (Sample.world []) (snd (addPost Sample.flat_request (Sample.world []))))
  /\ map Post.latitude (posts (db (snd (addPost Sample.flat_request (Sample.world [])))))
     = [Some "52.52"; None; None].
Proof.
  split.
  - pose proof (addPost_never_stores_coordinates Sample.flat_request (Sample.world [])) as H.
    destruct (addPost _ _) as [r w']. apply H.
  - vm_compute. reflexivity.
Defined.



Lemma addPost_rejects_falsy_witness :
  addPost Sample.free_request (Sample.world []) =
    (Ok {| status := 400; json := message "Missing required fields" |},
     Sample.world []).
Proof.
  apply addPost_rejects_falsy. left. exists 0%nat. reflexivity.
Defined.

End Create.

(* ================================================================== *)
(** ** Changing and removing a listing *)

Module Mutate.
Import JS Store Controller StoreFacts Spec.

Lemma findUnique_run id w :
  prisma.post.findUnique id w =
    if hd false (faults w) then
      (Throw "storage fault",
       with_log (with_faults w (tl (faults w)))
         (log w ++ [{| what := FindUnique id; served := false |}]))
    else
      (Ok (option_map (included (db w)) (find_post (db w) id)), looked_up w id).
Proof.
  unfold prisma.post.findUnique, send, looked_up.
  destruct (hd false (faults w)); reflexivity.
Qed.

Lemma sent_refl w : sent w w = [].
Proof. unfold sent. apply skipn_all. Qed.

Lemma sent_one w w' ev : log w' = log w ++ [ev] -> sent w w' = [ev].
Proof. intros H. now apply Create.sent_app. Qed.

(** *** The steps of [updatePost] and [deletePost] *)

Lemma assoc_remove_other k k' fs :
  String.eqb k' k = false -> assoc k' (remove k fs) = assoc k' fs.
Proof.
  intros N. induction fs as [ | [a v] fs IH ]; cbn; [ reflexivity | ].
  destruct (String.eqb k a) eqn:E.
  - apply String.eqb_eq in E. subst a. now rewrite N.
  - cbn. now rewrite IH.
Qed.

Lemma updateData_delete fs :
  updateData (delete (VObj fs) "postDetail") = updateData (VObj fs).
Proof.
  unfold updateData, delete, get.
  rewrite !assoc_remove_other by reflexivity. reflexivity.
Qed.

Lemma updatePost_run req w :
  updatePost req w =
    let body := VObj (body req) in
    let postDetail := get body "postDetail" in
    if hd false (faults w) then
      failed "Failed to update post"
        (with_log (with_faults w (tl (faults w)))
           (log w ++ [{| what := FindUnique (id req); served := false |}]))
    else
      match find_post (db w) (id req) with
      | None =>
          (Ok {| status := 404; json := message "Post not found" |},
           looked_up w (id req))
      | Some old =>
          if negb (String.eqb (Post.userId old) (userId req)) then
            (Ok {| status := 403;
                   json := message "Not authorized to update this post" |},
             looked_up w (id req))
          else
            match
              (if truthy postDetail then
                 prisma.postDetail.upsert (id req)
                   (VObj (detailUpdate postDetail))
                   (VObj (("postId", VStr (id req)) :: detailCreate postDetail))
                   (looked_up w (id req))
               else (Ok tt, looked_up w (id req)))
            with
            | (Throw _, w2) => failed "Failed to update post" w2
            | (Ok _, w2) =>
                match prisma.post.update (id req) (updateData body) w2 with
                | (Throw _, w3) => failed "Failed to update post" w3
                | (Ok row, w3) =>
                    match user row with
                    | Some u =>
                        (Ok {| status := 200;
                               json := extend (full row)
                                         [("ownerInfo",
                                           ownerInfo u (Post.city (post row)))] |},
                         w3)
                    | None => failed "Failed to update post" w3
                    end
                end
            end
      end.
Proof.
  unfold updatePost, try, bind, failed. rewrite findUnique_run. cbv zeta.
  destruct (hd false (faults w)); [ reflexivity | ].
  destruct (find_post (db w) (id req)) as [old | ]; [ | reflexivity ].
  cbn [option_map post included].
  destruct (negb _); [ reflexivity | ].
  destruct (truthy (get (VObj (body req)) "postDetail")).
  - destruct (prisma.postDetail.upsert _ _ _ _) as [ [ [] | e ] w2 ]; [ | reflexivity ].
    unfold ret. rewrite updateData_delete.
    destruct (prisma.post.update _ _ w2) as [ [row | e] w3 ]; [ | reflexivity ].
    rewrite Create.shaped_run. destruct (user row); reflexivity.
  - unfold ret.
    destruct (prisma.post.update _ _ _) as [ [row | e] w3 ]; [ | reflexivity ].
    rewrite Create.shaped_run. destruct (user row); reflexivity.
Qed.

Lemma update_ok id data w row w' :
  prisma.post.update id data w = (Ok row, w') ->
  exists old new,
    find_post (db w) id = Some old /\
    revised_post old (now w) data = Some new /\
    posts (db w') = replace_post new (posts (db w)) /\
    postDetails (db w') = postDetails (db w) /\
    users (db w') = users (db w) /\
    conversations (db w') = conversations (db w) /\
    messages (db w') = messages (db w) /\
    row = included (db w') new /\
    log w' = log w ++ [{| what := Update id data; served := true |}].
Proof.
  intros H. apply send_ok in H as (_ & w2 & H & ->).
  unfold update_post in H. cbn in H.
  destruct (find_post (db w) id) as [old | ] eqn:F; [ | discriminate H ].
  destruct (revised_post old (now w) data) as [new | ] eqn:R; [ | discriminate H ].
  injection H as <- <-. exists old, new. cbn. repeat split; auto.
Qed.

Lemma update_throw id data w e w' :
  prisma.post.update id data w = (Throw e, w') ->
  db w' = db w /\
  log w' = log w ++ [{| what := Update id data; served := false |}].
Proof. intros H. apply send_throw in H as ->. split; reflexivity. Qed.

Lemma find_post_id d id p : find_post d id = Some p -> Post.id p = id.
Proof.
  unfold find_post. intros H. apply find_some in H as [_ H].
  now apply String.eqb_eq in H.
Qed.

Lemma find_detail_postId d id x :
  find_detail d id = Some x -> PostDetail.postId x = id.
Proof.
  unfold find_detail. intros H. apply find_some in H as [_ H].
  now apply String.eqb_eq in H.
Qed.

(** A served upsert leaves the detail of the listing in the store, revised
    from the [update] payload or made from the [create] payload. *)
Lemma upsert_ok id u c w w' :
  get c "postId" = VStr id ->
  prisma.postDetail.upsert id u c w = (Ok tt, w') ->
  posts (db w') = posts (db w) /\
  users (db w') = users (db w) /\
  conversations (db w') = conversations (db w) /\
  messages (db w') = messages (db w) /\
  now w' = now w /\
  log w' = log w ++ [{| what := Upsert id u c; served := true |}] /\
  exists x, find_detail (db w') id = Some x /\
    ((exists old, find_detail (db w) id = Some old /\ revised_detail old u = Some x)
     \/ (exists i, new_detail i id c = Some x)).
Proof.
  intros Hc H. apply send_ok in H as (_ & w2 & H & ->).
  unfold upsert_detail in H. cbn [db with_faults] in H.
  destruct (find_detail (db w) id) as [old | ] eqn:F.
  - destruct (revised_detail old u) as [x | ] eqn:R; [ | discriminate H ].
    injection H as <-. cbn. repeat split; try reflexivity.
    exists x. split; [ | left; eauto ].
    pose proof (find_detail_postId _ _ _ F) as P.
    apply revised_detail_fields in R as (Px & _).
    unfold find_detail in *. cbn. rewrite <- P, <- Px.
    apply find_replace_detail. exists old. now rewrite Px, P.
  - rewrite Hc in H. cbn [as_string required] in H.
    destruct (new_detail _ id c) as [x | ] eqn:N; [ | discriminate H ].
    injection H as <-. cbn. repeat split; try reflexivity.
    exists x. split; [ | right; eauto ].
    apply new_detail_fields in N as (Px & _).
    unfold find_detail in *. cbn. apply find_last; [ assumption | ].
    rewrite Px. apply String.eqb_refl.
Qed.

Lemma upsert_throw id u c w e w' :
  prisma.postDetail.upsert id u c w = (Throw e, w') ->
  db w' = db w /\
  log w' = log w ++ [{| what := Upsert id u c; served := false |}].
Proof. intros H. apply send_throw in H as ->. split; reflexivity. Qed.

(** *** Parsed numbers as payload fields *)

Lemma parseInt_whole (v : value) :
  parseInt v = NaN \/ exists z, parseInt v = Fin z 0.
Proof.
  revert v. fix parseInt_whole 1. intros v.
  destruct v as [ | | b | n | s | ms | xs | fs ]; cbn; auto.
  - destruct n as [ | neg | m e ]; [ auto | auto | ].
    destruct (exponential m e); eauto.
  - unfold parseInt_string.
    destruct (sign _) as [neg s1].
    destruct (match strip_hex s1 with Some s' => _ | None => _ end) as [radix s2].
    destruct (digits _ _ _ _) as [ [n count] rest ].
    destruct count; eauto.
  - destruct xs as [ | x xs ]; auto.
Qed.

Lemma whole_is_int z : as_int (VNum (Fin z 0)) = Val z.
Proof.
  unfold as_int, is_integer, trunc, pow10. cbn [Z.of_nat Z.pow Z.pow_pos Pos.iter].
  now rewrite Z.rem_1_r, Z.quot_1_r.
Qed.

Lemma revised_int v old n :
  revise_optional old (as_int (VNum (parseInt v))) = Some n ->
  exists z, parseInt v = Fin z 0 /\ n = Some z.
Proof.
  destruct (parseInt_whole v) as [ -> | [z ->] ]; [ discriminate | ].
  rewrite whole_is_int. cbn. intros [= <-]. eauto.
Qed.

Lemma fresh_int v n :
  optional (as_int (VNum (parseInt v))) = Some n ->
  exists z, parseInt v = Fin z 0 /\ n = Some z.
Proof.
  destruct (parseInt_whole v) as [ -> | [z ->] ]; [ discriminate | ].
  rewrite whole_is_int. cbn. intros [= <-]. eauto.
Qed.

Lemma revised_float n old x :
  revise old (as_float (VNum n)) = Some x -> x = n.
Proof. destruct n; cbn; try discriminate. now intros [= <-]. Qed.

Lemma revised_optional_float n old x :
  revise_optional old (as_float (VNum n)) = Some x -> x = Some n.
Proof. destruct n; cbn; try discriminate. now intros [= <-]. Qed.

Lemma find_post_posts d d' id :
  posts d' = posts d -> find_post d' id = find_post d id.
Proof. unfold find_post. now intros ->. Qed.

Lemma find_detail_details d d' id :
  postDetails d' = postDetails d -> find_detail d' id = find_detail d id.
Proof. unfold find_detail. now intros ->. Qed.

Lemma revised_listing_numbers body old at_ new :
  revised_post old at_ (updateData body) = Some new ->
  listing_numbers body old new.
Proof.
  intros H. apply revised_post_fields in H as (_ & Hp & Hb & Ha & _ & _).
  cbn [get assoc updateData String.eqb Ascii.eqb Bool.eqb] in Hp, Hb, Ha.
  unfold listing_numbers.
  destruct (truthy (get body "price")), (truthy (get body "bedroom")),
    (truthy (get body "bathroom")).
  all: repeat split.
  all: try (apply revised_float in Hp; exact Hp).
  all: try (apply revised_int in Hb as (z & -> & ->); eauto).
  all: try (apply revised_optional_float in Ha; exact Ha).
  all: try (now injection Hp as <-).
  all: try (now injection Hb as <-).
  all: try (now injection Ha as <-).
Qed.

Lemma stored_detail_numbers postDetail id x :
  (exists old, revised_detail old (VObj (detailUpdate postDetail)) = Some x)
  \/ (exists i, new_detail i id
                  (VObj (("postId", VStr id) :: detailCreate postDetail)) = Some x) ->
  detail_numbers postDetail x.
Proof.
  intros [ [old H] | [i H] ].
  - apply revised_detail_fields in H as (_ & H1 & H2 & H3 & H4).
    cbn [get assoc detailUpdate String.eqb Ascii.eqb Bool.eqb] in H1, H2, H3, H4.
    repeat split; intros T; rewrite T in *.
    + apply revised_int in H1 as (z & -> & ->); eauto.
    + apply revised_int in H2 as (z & -> & ->); eauto.
    + apply revised_int in H3 as (z & -> & ->); eauto.
    + apply revised_int in H4 as (z & -> & ->); eauto.
  - apply new_detail_fields in H as (_ & H1 & H2 & H3 & H4).
    cbn [get assoc detailCreate String.eqb Ascii.eqb Bool.eqb] in H1, H2, H3, H4.
    repeat split; intros T; rewrite T in *.
    + apply fresh_int in H1 as (z & -> & ->); eauto.
    + apply fresh_int in H2 as (z & -> & ->); eauto.
    + apply fresh_int in H3 as (z & -> & ->); eauto.
    + apply fresh_int in H4 as (z & -> & ->); eauto.
Qed.

(** What a run of [updatePost] that got past the gate leaves behind. *)
Lemma updatePost_effects req w :
  let body := VObj (body req) in
  let postDetail := get body "postDetail" in
  let '(r, w') := updatePost req w in
  ((exists resp, r = Ok resp /\ status resp = 200) ->
   exists old new,
     find_post (db w) (id req) = Some old /\
     find_post (db w') (id req) = Some new /\
     revised_post old (now w) (updateData body) = Some new)
  /\
  (existsb upserted (sent w w') = true ->
   exists x, find_detail (db w') (id req) = Some x /\
             detail_numbers postDetail x)
  /\
  ((exists resp, r = Ok resp /\ status resp = 200) ->
   truthy postDetail = true -> existsb upserted (sent w w') = true).
Proof.
  intros body postDetail. rewrite updatePost_run. cbv zeta.
  fold body. fold postDetail. unfold failed.
  destruct (hd false (faults w)).
  { rewrite (sent_one w _ {| what := FindUnique (id req); served := false |})
      by reflexivity.
    split; [ | split; [ discriminate | ] ];
      intros (resp & [= <-] & S); discriminate S. }
  assert (L0 : log (looked_up w (id req))
               = log w ++ [{| what := FindUnique (id req); served := true |}])
    by reflexivity.
  destruct (find_post (db w) (id req)) as [old | ] eqn:F.
  2: { rewrite (sent_one w _ _ L0).
       split; [ | split; [ discriminate | ] ];
      intros (resp & [= <-] & S); discriminate S. }
  destruct (negb _).
  { rewrite (sent_one w _ _ L0).
    split; [ | split; [ discriminate | ] ];
      intros (resp & [= <-] & S); discriminate S. }
  (* the listing update, from a world [w2] with the listings of [w] *)
  assert (Listing : forall w2 evs,
            posts (db w2) = posts (db w) -> now w2 = now w ->
            log w2 = log w ++ evs ->
            let '(r, w') :=
              match prisma.post.update (id req) (updateData body) w2 with
              | (Throw _, w3) =>
                  (Ok {| status := 500; json := message "Failed to update post" |}, w3)
              | (Ok row, w3) =>
                  match user row with
                  | Some u =>
                      (Ok {| status := 200;
                             json := extend (full row)
                                       [("ownerInfo",
                                         ownerInfo u (Post.city (post row)))] |}, w3)
                  | None =>
                      (Ok {| status := 500; json := message "Failed to update post" |}, w3)
                  end
              end in
            ((exists resp, r = Ok resp /\ status resp = 200) ->
             exists old new,
               find_post (db w) (id req) = Some old /\
               find_post (db w') (id req) = Some new /\
               revised_post old (now w) (updateData body) = Some new)
            /\ postDetails (db w') = postDetails (db w2)
            /\ exists ev, log w' = log w ++ evs ++ [ev] /\ upserted ev = false).
  { intros w2 evs P N L.
    destruct (prisma.post.update _ _ w2) as [ [row | e] w3 ] eqn:U.
    - apply update_ok in U as (old' & new & F' & R & P3 & D3 & _ & _ & _ & -> & L3).
      rewrite (find_post_posts (db w) (db w2)) in F' by assumption.
      rewrite F in F'. injection F' as <-. rewrite N in R.
      assert (G : find_post (db w3) (id req) = Some new).
      { pose proof (find_post_id _ _ _ F) as I.
        apply revised_post_fields in R as (I' & _).
        unfold find_post. rewrite P3, P, <- I, <- I'.
        apply find_replace_post. exists old. rewrite I', I. exact F. }
      assert (E : exists ev, log w3 = log w ++ evs ++ [ev] /\ upserted ev = false).
      { eexists. rewrite L3, L, <- app_assoc. split; reflexivity. }
      cbn [user included].
      destruct (find_user _ _); (split; [ | split; [ exact D3 | exact E ] ]).
      + intros _. exists old, new. auto.
      + intros (resp & [= <-] & S). discriminate S.
    - apply update_throw in U as [D3 L3].
      split; [ intros (resp & [= <-] & S); discriminate S | split ].
      + now rewrite D3.
      + eexists. rewrite L3, L, <- app_assoc. split; reflexivity. }
  destruct (truthy postDetail).
  - destruct (prisma.postDetail.upsert _ _ _ _) as [ [ [] | e ] w2 ] eqn:U.
    + apply upsert_ok in U as (P & _ & _ & _ & N & L & x & X & Hx); [ | reflexivity ].
      rewrite L0, <- app_assoc in L.
      specialize (Listing w2 _ P N L). cbv beta iota.
      lazymatch type of Listing with
      | match ?e with _ => _ end => destruct e as [r w']
      end.
      destruct Listing as (A & D & ev & Lw & Hev).
      rewrite F in A. split; [ exact A | split; [ intros _ | intros _ _ ] ].
      * exists x. split.
        -- now rewrite (find_detail_details (db w2) (db w')).
        -- apply stored_detail_numbers with (id := id req).
           destruct Hx as [ (old' & _ & R) | Nw ]; eauto.
      * rewrite (Create.sent_app _ _ _ Lw). reflexivity.
    + apply upsert_throw in U as [D L].
      rewrite (Create.sent_app w w2
                 [{| what := FindUnique (id req); served := true |};
                  {| what := Upsert (id req) (VObj (detailUpdate postDetail))
                               (VObj (("postId", VStr (id req))
                                      :: detailCreate postDetail));
                     served := false |}])
        by (rewrite L, L0, <- app_assoc; reflexivity).
      split; [ | split; [ discriminate | ] ];
      intros (resp & [= <-] & S); discriminate S.
  - specialize (Listing (looked_up w (id req)) _ eq_refl eq_refl L0).
    cbv beta iota.
    lazymatch type of Listing with
    | match ?e with _ => _ end => destruct e as [r w']
    end.
    destruct Listing as (A & D & ev & Lw & Hev).
    rewrite F in A. split; [ exact A | split; [ | intros _ [=] ] ].
    rewrite (Create.sent_app _ _ _ Lw). cbn. rewrite Hev. discriminate.
Qed.

(** C4, as amended.  [updatePost] guards each numeric field with a
    truthiness test and parses what passes it.  When the update succeeds,
    [price], [bedroom] and [bathroom] of the listing are unchanged for a
    falsy value (absent, [null], [0], the empty string) and hold
    [parseInt], [parseInt] and [parseFloat] of a truthy one.  A supplied
    detail is written by a request of its own: once that request is served
    the detail is in the store, whatever becomes of the listing update,
    and each of [size], [school], [bus] and [restaurant] that was truthy
    holds its [parseInt]; a successful update with a detail supplied has
    sent it. *)
Theorem updatePost_numeric_fields (req : request) (w : World) :
  let body := VObj (body req) in
  let postDetail := get body "postDetail" in
  let '(r, w') := updatePost req w in
  ((exists resp, r = Ok resp /\ status resp = 200) ->
   exists old new,
     find_post (db w) (id req) = Some old /\
     find_post (db w') (id req) = Some new /\
     listing_numbers body old new)
  /\
  (existsb upserted (sent w w') = true ->
   exists x, find_detail (db w') (id req) = Some x /\
             detail_numbers postDetail x)
  /\
  ((exists resp, r = Ok resp /\ status resp = 200) ->
   truthy postDetail = true -> existsb upserted (sent w w') = true).
Proof.
  intros body postDetail.
  pose proof (updatePost_effects req w) as H. cbv zeta in H.
  destruct (updatePost req w) as [r w'].
  destruct H as (A & B & C). split; [ | split; assumption ].
  intros S. destruct (A S) as (old & new & F & G & R).
  exists old, new. split; [ assumption | split; [ assumption | ] ].
  now apply revised_listing_numbers in R.
Qed.

(** The owner sets the price, rooms and a detail of the flat. *)
Lemma updatePost_numeric_fields_witness :
  let w' := snd (updatePost Sample.full_edit (Sample.world [])) in
  option_map Post.price (find_post (db w') "p1") = Some (Fin 1300 0) /\
  option_map Post.bedroom (find_post (db w') "p1") = Some (Some 2) /\
  option_map Post.bathroom (find_post (db w') "p1") = Some (Some (Fin 15 1)) /\
  option_map PostDetail.size (find_detail (db w') "p1") = Some (Some 85) /\
  option_map PostDetail.school (find_detail (db w') "p1") = Some (Some 3).
Proof.
  pose proof (updatePost_numeric_fields Sample.full_edit (Sample.world [])) as H.
  cbv zeta in H |- *.
  destruct (updatePost Sample.full_edit (Sample.world [])) as [r w'] eqn:E.
  destruct H as (A & B & _).
  assert (S : exists resp, r = Ok resp /\ status resp = 200)
    by (vm_compute in E; injection E as <- _; eexists; split; reflexivity).
  assert (U : existsb upserted (sent (Sample.world []) w') = true)
    by (vm_compute in E; injection E as _ <-; reflexivity).
  destruct (A S) as (old & new & _ & G & P & Bd & Ba).
  destruct (B U) as (x & X & S1 & S2 & _ & _).
  change (id Sample.full_edit) with "p1" in G, X.
  cbn [snd]. rewrite G, X. cbn [option_map].
  cbn in P, Bd, Ba. destruct Bd as (n & [= <-] & Bd).
  destruct (S1 eq_refl) as (n1 & N1 & ->). destruct (S2 eq_refl) as (n2 & N2 & ->).
  cbn in N1, N2. injection N1 as <-. injection N2 as <-.
  rewrite P, Bd, Ba. repeat split; reflexivity.
Defined.

(** C4 fails as stated: the owner sends [bedroom: 0]; the value is there
    and parses to 0; the update succeeds and the flat keeps its 3
    bedrooms. *)
Lemma zero_is_supplied_but_not_stored :
  let '(r, w') := updatePost Sample.studio_edit (Sample.world []) in
  assoc "bedroom" (body Sample.studio_edit) = Some (int 0) /\
  parseInt (int 0) = Fin 0 0 /\
  (exists resp, r = Ok resp /\ status resp = 200) /\
  option_map Post.bedroom (find_post (db w') "p1") = Some (Some 3).
Proof.
  vm_compute. repeat split. eexists. split; reflexivity.
Qed.

(** A detail sent with a description only loses its metrics: the fields
    left out are written as [null]. *)
Lemma absent_metrics_are_cleared :
  let w' := snd (updatePost Sample.describe_edit (Sample.world [])) in
  option_map PostDetail.size (find_detail (db (Sample.world [])) "p1")
    = Some (Some 80) /\
  option_map PostDetail.size (find_detail (db w') "p1") = Some None /\
  option_map PostDetail.desc (find_detail (db w') "p1")
    = Some (Some "Repainted").
Proof. vm_compute. repeat split. Qed.

(** *** Removing a listing *)

Lemma deletePost_run req w :
  deletePost req w =
    if hd false (faults w) then
      failed "Failed to delete post"
        (with_log (with_faults w (tl (faults w)))
           (log w ++ [{| what := FindUnique (id req); served := false |}]))
    else
      match find_post (db w) (id req) with
      | None =>
          (Ok {| status := 404; json := message "Post not found" |},
           looked_up w (id req))
      | Some old =>
          if negb (String.eqb (Post.userId old) (userId req)) then
            (Ok {| status := 403;
                   json := message "Not authorized to delete this post" |},
             looked_up w (id req))
          else
            match prisma.post.delete (id req) (looked_up w (id req)) with
            | (Ok _, w2) =>
                (Ok {| status := 200; json := message "Post deleted" |}, w2)
            | (Throw _, w2) => failed "Failed to delete post" w2
            end
      end.
Proof.
  unfold deletePost, try, bind, failed. rewrite findUnique_run.
  destruct (hd false (faults w)); [ reflexivity | ].
  destruct (find_post (db w) (id req)) as [old | ]; [ | reflexivity ].
  cbn [option_map post included].
  destruct (negb _); [ reflexivity | ].
  destruct (prisma.post.delete _ _) as [ [ [] | e ] w2 ]; reflexivity.
Qed.

(** C2.  [updatePost] and [deletePost] stand behind the same gate.  Once
    the store has answered the lookup: a listing that exists and belongs to
    someone else gives 403 and an untouched store; an identifier with no
    listing gives 404, whoever asks, and an untouched store.  The store
    changes, or a writing request is sent at all, only when the listing
    exists and belongs to the caller.  A listing that exists is never
    answered 404. *)
Theorem mutations_are_owner_gated (req : request) (w : World) :
  owner_gated updatePost req w /\ owner_gated deletePost req w.
Proof.
  assert (L0 : log (looked_up w (id req))
               = log w ++ [{| what := FindUnique (id req); served := true |}])
    by reflexivity.
  split; unfold owner_gated;
    [ rewrite updatePost_run | rewrite deletePost_run ];
    cbv zeta; unfold failed.
  all: destruct (hd false (faults w)).
  all: try (rewrite (sent_one w _ {| what := FindUnique (id req); served := false |})
              by reflexivity;
            split; [ discriminate | split ];
            [ intros [ H | H ]; [ now destruct H | discriminate H ]
            | intros p resp _ [= <-]; discriminate ]).
  all: destruct (find_post (db w) (id req)) as [old | ] eqn:F.
  all: try (rewrite (sent_one w _ _ L0);
            split; [ intros _; split; [ eauto | reflexivity ] | split ];
            [ intros [ H | H ]; [ now destruct H | discriminate H ]
            | intros p resp [=] ]).
  all: destruct (String.eqb (Post.userId old) (userId req)) eqn:E; cbn [negb].
  all: try (rewrite (sent_one w _ _ L0);
            split; [ intros _ _; split; [ eauto | reflexivity ] | split ];
            [ intros [ H | H ]; [ now destruct H | discriminate H ]
            | intros p resp _ [= <-]; discriminate ]).
  all: apply String.eqb_eq in E.
  - destruct (if truthy _ then _ else _) as [ [ [] | e ] w2 ].
    + destruct (prisma.post.update _ _ w2) as [ [row | e] w3 ].
      * destruct (user row);
          (split; [ intros _ N; now destruct N | split; [ eauto | ] ];
           intros p resp _ [= <-]; discriminate).
      * split; [ intros _ N; now destruct N | split; [ eauto | ] ].
        intros p resp _ [= <-]; discriminate.
    + split; [ intros _ N; now destruct N | split; [ eauto | ] ].
      intros p resp _ [= <-]; discriminate.
  - destruct (prisma.post.delete _ _) as [ [ [] | e ] w2 ];
      (split; [ intros _ N; now destruct N | split; [ eauto | ] ];
       intros p resp _ [= <-]; discriminate).
Qed.

(** Bob may neither change nor remove Alice's flat, and nobody can remove
    a listing that is not there. *)
Lemma mutations_are_owner_gated_witness :
  (exists resp,
     fst (updatePost (Sample.removal "u2") (Sample.world [])) = Ok resp /\
     status resp = 403) /\
  (exists resp,
     fst (deletePost (Sample.removal "u2") (Sample.world [])) = Ok resp /\
     status resp = 403) /\
  (exists resp,
     fst (deletePost (Sample.reading "p9") (Sample.world [])) = Ok resp /\
     status resp = 404).
Proof.
  pose proof (mutations_are_owner_gated (Sample.removal "u2") (Sample.world []))
    as [U D].
  pose proof (mutations_are_owner_gated (Sample.reading "p9") (Sample.world []))
    as [_ D9].
  unfold owner_gated in U, D, D9.
  destruct (updatePost (Sample.removal "u2") (Sample.world [])) as [r1 w1].
  destruct (deletePost (Sample.removal "u2") (Sample.world [])) as [r2 w2].
  destruct (deletePost (Sample.reading "p9") (Sample.world [])) as [r3 w3].
  cbn in U, D, D9.
  destruct U as [U _]. destruct D as [D _]. destruct D9 as [D9 _].
  destruct (U eq_refl ltac:(discriminate)) as [R1 _].
  destruct (D eq_refl ltac:(discriminate)) as [R2 _].
  destruct (D9 eq_refl) as [R3 _].
  cbn [fst]. auto.
Defined.

Lemma delete_ok id w w' :
  prisma.post.delete id w = (Ok tt, w') ->
  db w' = erase (undeclared w) id (db w).
Proof.
  intros H. apply send_ok in H as (_ & w2 & H & ->).
  unfold delete_post in H. cbn [db with_faults] in H.
  destruct (find_post (db w) id); [ | discriminate H ].
  injection H as <-. reflexivity.
Qed.

Lemma delete_throw id w e w' :
  prisma.post.delete id w = (Throw e, w') -> db w' = db w.
Proof. intros H. apply send_throw in H as ->. reflexivity. Qed.

Lemma release_NoAction id l : map (release NoAction id) l = l.
Proof. induction l as [ | c l IH ]; cbn; [ | rewrite IH ]; reflexivity. Qed.

Lemma release_id how id l :
  map Conversation.id (map (release how id) l) = map Conversation.id l.
Proof.
  induction l as [ | c l IH ]; cbn; [ reflexivity | ]. rewrite IH. f_equal.
  unfold release. destruct how; [ reflexivity | ].
  destruct (Conversation.propertyId c) as [r | ]; [ | reflexivity ].
  destruct (String.eqb r id); reflexivity.
Qed.

Lemma release_SetNull id l c :
  In c (map (release SetNull id) l) -> Conversation.propertyId c <> Some id.
Proof.
  rewrite in_map_iff. intros (c0 & <- & _). unfold release.
  destruct (Conversation.propertyId c0) as [r | ] eqn:P.
  - destruct (String.eqb r id) eqn:E; cbn.
    + discriminate.
    + rewrite P. intros [= ->]. now rewrite String.eqb_refl in E.
  - rewrite P. discriminate.
Qed.

(** C7, as amended.  A successful [deletePost] takes the listing and its
    detail out of the store and nothing else: the other listings and
    details, the accounts and the messages stay, and no conversation is
    removed or added.  What happens to a conversation that points at the
    listing is the storage layer's referential action on
    [Conversation.property], for which the schema declares none: with no
    action the conversations are exactly as before, the reference kept;
    with the [SetNull] default no conversation points at the removed
    listing any more.  Any other answer leaves the store as it was. *)
Theorem deletePost_effects (req : request) (w : World) :
  let '(r, w') := deletePost req w in
  ((exists resp, r = Ok resp /\ status resp = 200) ->
   db w' = erase (undeclared w) (id req) (db w) /\
   find_post (db w') (id req) = None /\
   find_detail (db w') (id req) = None /\
   (forall p, In p (posts (db w)) -> Post.id p <> id req -> In p (posts (db w'))) /\
   (forall x, In x (postDetails (db w)) -> PostDetail.postId x <> id req ->
              In x (postDetails (db w'))) /\
   users (db w') = users (db w) /\
   messages (db w') = messages (db w) /\
   map Conversation.id (conversations (db w'))
     = map Conversation.id (conversations (db w)) /\
   match undeclared w with
   | NoAction => conversations (db w') = conversations (db w)
   | SetNull =>
       forall c, In c (conversations (db w')) ->
                 Conversation.propertyId c <> Some (id req)
   end)
  /\
  (~ (exists resp, r = Ok resp /\ status resp = 200) -> db w' = db w).
Proof.
  rewrite deletePost_run. unfold failed.
  destruct (hd false (faults w)).
  { split; [ intros (resp & [= <-] & S); discriminate S | reflexivity ]. }
  destruct (find_post (db w) (id req)) as [old | ].
  2: { split; [ intros (resp & [= <-] & S); discriminate S | reflexivity ]. }
  destruct (negb _).
  { split; [ intros (resp & [= <-] & S); discriminate S | reflexivity ]. }
  destruct (prisma.post.delete _ _) as [ [ [] | e ] w2 ] eqn:D.
  - apply delete_ok in D. cbn [undeclared looked_up with_log with_faults db] in D.
    split; [ intros _ | intros N; destruct N; eexists; split; reflexivity ].
    rewrite D. unfold find_post, find_detail. cbn [erase posts postDetails users
      messages conversations].
    split; [ reflexivity | ].
    split; [ apply (find_filter_out (fun p => String.eqb (Post.id p) (id req))) | ].
    split; [ apply (find_filter_out
                      (fun x => String.eqb (PostDetail.postId x) (id req))) | ].
    split.
    { intros p I N. apply filter_In. split; [ assumption | ].
      apply negb_true_iff, String.eqb_neq. exact N. }
    split.
    { intros x I N. apply filter_In. split; [ assumption | ].
      apply negb_true_iff, String.eqb_neq. exact N. }
    split; [ reflexivity | split; [ reflexivity | ] ].
    split; [ apply release_id | ].
    destruct (undeclared w).
    + apply release_NoAction.
    + intros c. apply release_SetNull.
  - apply delete_throw in D.
    split; [ intros (resp & [= <-] & S); discriminate S | intros _; exact D ].
Qed.

(** The owner removes the flat from a store that resets references. *)
Lemma deletePost_effects_witness :
  let w' := snd (deletePost (Sample.removal "u1") (Sample.world [])) in
  find_post (db w') "p1" = None /\
  find_detail (db w') "p1" = None /\
  map Conversation.id (conversations (db w')) = ["c1"].
Proof.
  pose proof (deletePost_effects (Sample.removal "u1") (Sample.world [])) as H.
  cbv zeta.
  destruct (deletePost (Sample.removal "u1") (Sample.world [])) as [r w'] eqn:E.
  destruct H as [H _].
  assert (S : exists resp, r = Ok resp /\ status resp = 200)
    by (vm_compute in E; injection E as <- _; eexists; split; reflexivity).
  destruct (H S) as (_ & P & X & _ & _ & _ & _ & C & _).
  cbn [snd]. repeat split; assumption.
Defined.

(** C7 fails as stated where the storage layer applies its default to the
    reference: the conversation about the flat is still there after the
    flat is removed, and its listing reference is empty. *)
Lemma deleted_listing_is_released :
  let w := Sample.world [] in
  let '(r, w') := deletePost (Sample.removal "u1") w in
  (exists resp, r = Ok resp /\ status resp = 200) /\
  map Conversation.propertyId (conversations (db w)) = [Some "p1"] /\
  map Conversation.propertyId (conversations (db w')) = [None].
Proof.
  vm_compute. repeat split. eexists. split; reflexivity.
Qed.

(** Where it takes no action the reference stays, pointing at nothing. *)
Lemma deleted_listing_is_kept_without_action :
  let w := Sample.keeping (Sample.world []) in
  let '(r, w') := deletePost (Sample.removal "u1") w in
  (exists resp, r = Ok resp /\ status resp = 200) /\
  conversations (db w') = conversations (db w) /\
  find_post (db w') "p1" = None.
Proof.
  vm_compute. repeat split. eexists. split; reflexivity.
Qed.

(** *** Coordinates on update *)

Lemma updatePost_writes_coordinates req w resp w' s t :
  updatePost req w = (Ok resp, w') -> status resp = 200 ->
  assoc "latitude" (body req) = Some (VStr s) ->
  assoc "longitude" (body req) = Some (VStr t) ->
  exists p, find_post (db w') (id req) = Some p /\
            Post.latitude p = Some s /\ Post.longitude p = Some t.
Proof.
  intros E S La Lo.
  pose proof (updatePost_effects req w) as H. cbv zeta in H. rewrite E in H.
  destruct H as (A & _).
  destruct A as (old & new & _ & G & R); [ eauto | ].
  exists new. split; [ exact G | ].
  apply revised_post_fields in R as (_ & _ & _ & _ & Hla & Hlo).
  cbn [get assoc updateData String.eqb Ascii.eqb Bool.eqb] in Hla, Hlo.
  rewrite La in Hla. rewrite Lo in Hlo. cbn in Hla, Hlo.
  injection Hla as <-. injection Hlo as <-. auto.
Qed.

End Mutate.

(* ================================================================== *)
(** ** Listing and reading *)

Module Listing.
Import JS Store Controller StoreFacts Spec.

Lemma getPosts_run req w :
  getPosts req w =
    match prisma.post.findMany (Some (buildWhere (VObj (query req)))) true w with
    | (Ok posts, w1) =>
        (Ok {| status := 200;
               json := VArr (map (transformedPost (now_iso w1)) posts) |}, w1)
    | (Throw _, w1) =>
        match prisma.post.findMany None false w1 with
        | (Ok basicPosts, w2) =>
            (Ok {| status := 200;
                   json := VArr (map (simplePost (now_iso w2)) basicPosts) |}, w2)
        | (Throw _, w2) => (Ok {| status := 200; json := VArr [] |}, w2)
        end
    end.
Proof.
  unfold getPosts, try, bind, ask, ret.
  destruct (prisma.post.findMany (Some _) true w) as [ [posts | e] w1 ];
    [ reflexivity | ].
  destruct (prisma.post.findMany None false w1) as [ [basic | e'] w2 ];
    reflexivity.
Qed.

(** X1.  [getPosts] answers 200 with a sequence, in every world. *)
Lemma getPosts_always_succeeds req w :
  exists xs w', getPosts req w = (Ok {| status := 200; json := VArr xs |}, w').
Proof.
  rewrite getPosts_run.
  destruct (prisma.post.findMany (Some _) true w) as [ [posts | e] w1 ];
    [ eauto | ].
  destruct (prisma.post.findMany None false w1) as [ [basic | e'] w2 ]; eauto.
Qed.

(** X2.  With the backend failing both requests the sequence is empty. *)
Lemma getPosts_unreachable req w fs :
  faults w = true :: true :: fs ->
  exists w', getPosts req w = (Ok {| status := 200; json := VArr [] |}, w')
             /\ db w' = db w.
Proof.
  intros F. rewrite getPosts_run.
  unfold prisma.post.findMany at 1. rewrite send_fault by now rewrite F.
  unfold prisma.post.findMany. rewrite send_fault by (cbn; now rewrite F).
  eexists. split; reflexivity.
Qed.

Lemma getPosts_unreachable_witness :
  exists w',
    getPosts Sample.berlin_query (Sample.world [true; true])
      = (Ok {| status := 200; json := VArr [] |}, w')
    /\ db w' = db (Sample.world [true; true]).
Proof. apply (getPosts_unreachable _ _ []). reflexivity. Defined.

(** When the first request fails the second one carries no filter. *)
Lemma getPosts_fallback_request req w :
  hd false (faults w) = true ->
  exists b,
    sent w (snd (getPosts req w)) =
      [{| what := FindMany (Some (buildWhere (VObj (query req)))) true;
          served := false |};
       {| what := FindMany None false; served := b |}].
Proof.
  intros F. rewrite getPosts_run.
  unfold prisma.post.findMany at 1. rewrite send_fault by assumption.
  destruct (prisma.post.findMany None false _) as [ [basic | e'] w2 ] eqn:E;
    unfold prisma.post.findMany in E.
  - apply send_ok in E as (_ & w3 & R & ->). unfold find_many in R.
    cbn in R. injection R as _ <-. exists true. cbn [snd].
    apply Create.sent_app. cbn. now rewrite <- app_assoc.
  - apply send_throw in E as ->. exists false. cbn [snd].
    apply Create.sent_app. cbn. now rewrite <- app_assoc.
Qed.

(** C1.  The fallback of [getPosts] is not the first query without the
    owner join: it carries no filter at all.  A request for the listings
    of Berlin whose first query fails is answered from the second query
    with every listing of the store, the one in Paris included. *)
Theorem getPosts_fallback_ignores_the_filter :
  let w := Sample.world [true] in
  let '(r, w') := getPosts Sample.berlin_query w in
  map what (sent w w') =
    [FindMany (Some (VObj [("city", VObj [("contains", VStr "Berlin");
                                          ("mode", VStr "insensitive")])])) true;
     FindMany None false]
  /\ map served (sent w w') = [false; true]
  /\ exists resp, r = Ok resp /\ status resp = 200 /\
       map (fun item => get item "city") (items (json resp))
         = [VStr "Paris"; VStr "Berlin"].
Proof.
  vm_compute. repeat split. eexists. repeat split.
Qed.

(** *** What the items of a list look like *)

Lemma findMany_ok filter join w rows w1 :
  prisma.post.findMany filter join w = (Ok rows, w1) ->
  now_iso w1 = now_iso w /\ db w1 = db w /\
  Forall (fun r => join = false -> user r = None) rows.
Proof.
  intros H. apply send_ok in H as (_ & w2 & R & ->).
  unfold find_many in R.
  destruct (match filter with Some f => compile_where f | None => _ end)
    as [keep | ]; [ | discriminate R ].
  injection R as <- <-. cbn. repeat split.
  apply Forall_forall. intros r I. apply in_map_iff in I as (p & <- & _).
  cbn. now intros ->.
Qed.

Lemma findMany_throw filter join w e w1 :
  prisma.post.findMany filter join w = (Throw e, w1) ->
  now_iso w1 = now_iso w /\ db w1 = db w.
Proof. intros H. apply send_throw in H as ->. split; reflexivity. Qed.

Lemma transformedPost_coordinates today r :
  get (transformedPost today r) "latitude" = VNull /\
  get (transformedPost today r) "longitude" = VNull.
Proof. split; reflexivity. Qed.

Lemma simplePost_coordinates today r :
  get (simplePost today r) "latitude" = VNull /\
  get (simplePost today r) "longitude" = VNull.
Proof. split; reflexivity. Qed.

Lemma transformedPost_owned today r : owned_item today (transformedPost today r).
Proof.
  unfold owned_item, transformedPost.
  destruct (user r) as [u | ].
  - eexists _, _. split; [ reflexivity | split; [ reflexivity | ] ].
    left. exists u. split; [ reflexivity | ].
    unfold projects, ownerInfo. repeat split.
  - eexists _, _. split; [ reflexivity | split; [ reflexivity | ] ].
    right. split; [ reflexivity | left ].
    unfold stands_in, unknownOwner. repeat split.
Qed.

Lemma simplePost_owned today r : owned_item today (simplePost today r).
Proof.
  unfold owned_item, simplePost.
  eexists _, _. split; [ reflexivity | split; [ reflexivity | ] ].
  right. split; [ reflexivity | right ].
  unfold stands_in. repeat split.
Qed.

Lemma getPost_run req w :
  getPost req w =
    if hd false (faults w) then
      failed "Failed to get post"
        (with_log (with_faults w (tl (faults w)))
           (log w ++ [{| what := FindUnique (id req); served := false |}]))
    else
      match find_post (db w) (id req) with
      | None =>
          (Ok {| status := 404; json := message "Post not found" |},
           looked_up w (id req))
      | Some p =>
          match find_user (db w) (Post.userId p) with
          | Some u =>
              (Ok {| status := 200;
                     json := extend (full (included (db w) p))
                               [("ownerInfo", ownerInfo u (Post.city p))] |},
               looked_up w (id req))
          | None => failed "Failed to get post" (looked_up w (id req))
          end
      end.
Proof.
  unfold getPost, try, bind, failed. rewrite Mutate.findUnique_run.
  destruct (hd false (faults w)); [ reflexivity | ].
  destruct (find_post (db w) (id req)) as [p | ]; [ | reflexivity ].
  cbn [option_map]. rewrite Create.shaped_run. cbn [user included post].
  destruct (find_user (db w) (Post.userId p)); reflexivity.
Qed.

(** C8 fails as stated.  The display name of the projection is the
    handle also for an account that has a name of its own: Alice's flat is
    read with "alice".  And [getPost] has no stand-in: reading a listing
    whose owner is gone is answered 500, which carries no listing and no
    owner projection. *)
Lemma display_name_is_never_read :
  User.fullName Sample.alice = Some "Alice Liddell" /\
  (exists resp,
     fst (getPost (Sample.reading "p1") (Sample.world [])) = Ok resp /\
     status resp = 200 /\
     get (get (json resp) "ownerInfo") "fullName" = VStr "alice") /\
  (exists resp,
     fst (getPost (Sample.reading "p3") (Sample.with_orphan (Sample.world [])))
       = Ok resp /\
     status resp = 500 /\ get (json resp) "ownerInfo" = VUndefined).
Proof.
  split; [ reflexivity | split ]; eexists; (split; [ vm_compute; reflexivity | ]);
    split; reflexivity.
Qed.

(** C9.  Every item [getPosts] returns, from the full query and from the
    fallback alike, has [latitude] and [longitude] equal to [null], in
    every world, that is, whatever the stored listings hold; and yet a
    successful [updatePost] stores the latitude and longitude strings of
    its request as they are. *)
Theorem coordinates_are_written_but_never_listed (req : request) (w : World) :
  (let '(r, w') := getPosts req w in
   exists xs, r = Ok {| status := 200; json := VArr xs |} /\
     Forall (fun item => get item "latitude" = VNull /\
                         get item "longitude" = VNull) xs)
  /\
  (let '(r, w') := updatePost req w in
   forall resp s t,
     r = Ok resp -> status resp = 200 ->
     assoc "latitude" (body req) = Some (VStr s) ->
     assoc "longitude" (body req) = Some (VStr t) ->
     exists p, find_post (db w') (id req) = Some p /\
               Post.latitude p = Some s /\ Post.longitude p = Some t).
Proof.
  split.
  - rewrite getPosts_run.
    destruct (prisma.post.findMany (Some _) true w) as [ [posts | e] w1 ].
    + eexists. split; [ reflexivity | ].
      apply Forall_forall. intros x I. apply in_map_iff in I as (r & <- & _).
      apply transformedPost_coordinates.
    + destruct (prisma.post.findMany None false w1) as [ [basic | e'] w2 ].
      * eexists. split; [ reflexivity | ].
        apply Forall_forall. intros x I. apply in_map_iff in I as (r & <- & _).
        apply simplePost_coordinates.
      * eexists. split; [ reflexivity | constructor ].
  - destruct (updatePost req w) as [r w'] eqn:E.
    intros resp s t -> S La Lo.
    now apply (Mutate.updatePost_writes_coordinates req w resp w' s t).
Qed.

(** Alice moves the flat; the store holds the new coordinates and the list
    shows none. *)
Lemma coordinates_are_written_but_never_listed_witness :
  let w' := snd (updatePost Sample.move_edit (Sample.world [])) in
  option_map Post.latitude (find_post (db w') "p1") = Some (Some "48.85") /\
  map (fun item => get item "latitude")
    (items (json (match fst (getPosts Sample.everything w') with
                  | Ok resp => resp
                  | Throw _ => {| status := 0; json := VNull |}
                  end)))
  = [VNull; VNull].
Proof.
  cbv zeta.
  pose proof (coordinates_are_written_but_never_listed Sample.move_edit
                (Sample.world [])) as [_ U].
  destruct (updatePost Sample.move_edit (Sample.world [])) as [r w'] eqn:E.
  cbn [snd].
  assert (S : exists resp, r = Ok resp /\ status resp = 200)
    by (vm_compute in E; injection E as <- _; eexists; split; reflexivity).
  destruct S as (resp & -> & S).
  destruct (U resp "48.85" "2.35" eq_refl S eq_refl eq_refl) as (p & F & La & _).
  change (id Sample.move_edit) with "p1" in F. rewrite F. cbn [option_map].
  rewrite La. split; [ reflexivity | ].
  vm_compute in E. injection E as _ <-. vm_compute. reflexivity.
Defined.

End Listing.

(* ================================================================== *)
(** ** The filter of the list operation *)

Module Filter.
Import JS Store Controller StoreFacts Spec.

(** *** Containment *)

Lemma prefix_append n h :
  prefix n h = true <-> exists b, h = (n ++ b)%string.
Proof.
  revert h. induction n as [ | c n IH ]; intros h.
  - split; [ intros _; now exists h | intros _; now destruct h ].
  - destruct h as [ | d h ]; simpl.
    + split; [ discriminate | intros [b [=]] ].
    + destruct (ascii_dec c d) as [ -> | N ].
      * rewrite IH. split; intros [b E]; exists b; [ now rewrite E | now injection E ].
      * split; [ discriminate | intros [b [= E _]]; now destruct N ].
Qed.

Lemma contains_append n h :
  contains n h = true <-> exists a b, h = (a ++ n ++ b)%string.
Proof.
  induction h as [ | d h IH ]; cbn [contains]; rewrite orb_true_iff.
  - rewrite prefix_append. split.
    + intros [ [b E] | [=] ]. now exists EmptyString, b.
    + intros (a & b & E). left. destruct a; [ now exists b | discriminate E ].
  - rewrite prefix_append, IH. split.
    + intros [ [b E] | (a & b & E) ].
      * now exists EmptyString, b.
      * exists (String d a), b. cbn. now rewrite E.
    + intros (a & b & E). destruct a as [ | c a ].
      * left. now exists b.
      * right. cbn in E. injection E as _ E. now exists a, b.
Qed.

(** *** The object the builder makes *)

Lemma buildWhere_parts q :
  buildWhere q =
    VObj
      (part (truthy (get q "city")) "city"
         (VObj [("contains", get q "city"); ("mode", VStr "insensitive")])
       ++ part (truthy (get q "type")) "type" (get q "type")
       ++ part (truthy (get q "property")) "property" (get q "property")
       ++ part (truthy (get q "bedroom")) "bedroom"
            (VObj [("gte", VNum (parseInt (get q "bedroom")))])
       ++ part (truthy (get q "minPrice") || truthy (get q "maxPrice")) "price"
            (VObj (part (truthy (get q "minPrice")) "gte"
                     (VNum (parseInt (get q "minPrice")))
                   ++ part (truthy (get q "maxPrice")) "lte"
                        (VNum (parseInt (get q "maxPrice")))))).
Proof.
  unfold buildWhere, part.
  destruct (truthy (get q "city")), (truthy (get q "type")),
    (truthy (get q "property")), (truthy (get q "bedroom")),
    (truthy (get q "minPrice")), (truthy (get q "maxPrice")); reflexivity.
Qed.

Lemma assoc_put_other k k' v fs :
  String.eqb k' k = false -> assoc k' (put k v fs) = assoc k' fs.
Proof.
  intros N. induction fs as [ | [a x] fs IH ]; cbn.
  - now rewrite N.
  - destruct (String.eqb k a) eqn:E; cbn.
    + apply String.eqb_eq in E. subst a. now rewrite N.
    + now rewrite IH.
Qed.

Lemma buildWhere_other_key fs k v :
  ~ In k filter_keys ->
  buildWhere (set (VObj fs) k v) = buildWhere (VObj fs).
Proof.
  intros N.
  assert (G : forall k', In k' filter_keys ->
            get (set (VObj fs) k v) k' = get (VObj fs) k').
  { intros k' I. cbn. rewrite assoc_put_other; [ reflexivity | ].
    apply String.eqb_neq. intros ->. auto. }
  unfold buildWhere.
  rewrite (G "city"), (G "type"), (G "property"), (G "bedroom"),
    (G "minPrice"), (G "maxPrice") by (cbn; tauto).
  reflexivity.
Qed.

(** *** Reading the object *)

Lemma means_app a b Pa Pb :
  means a Pa -> means b Pb -> means (a ++ b) (fun p => Pa p /\ Pb p).
Proof.
  revert Pa. induction a as [ | [k c] a IH ]; intros Pa (f & F & HF) Hb.
  - cbn in F. injection F as <-. destruct Hb as (g & G & HG).
    exists g. split; [ exact G | ]. intros p. rewrite HG.
    specialize (HF p). tauto.
  - cbn in F. destruct (condition k c) as [f1 | ] eqn:C; [ | discriminate F ].
    destruct (conditions a) as [f2 | ] eqn:A; [ | discriminate F ].
    injection F as <-.
    destruct (IH (fun p => f2 p = true)) as (h & H & HH); [ | exact Hb | ].
    { exists f2. split; [ exact A | tauto ]. }
    exists (fun p => f1 p && h p). split.
    + cbn. now rewrite C, H.
    + intros p. rewrite andb_true_iff, HH, <- HF, andb_true_iff. tauto.
Qed.

Lemma means_part (on : bool) k c (P : Post.t -> Prop) :
  (on = true -> exists f, condition k c = Some f /\ forall p, f p = true <-> P p) ->
  (on = false -> forall p, P p) ->
  means (part on k c) P.
Proof.
  destruct on; intros Hon Hoff.
  - destruct (Hon eq_refl) as (f & F & HF).
    exists (fun p => f p && true). split.
    + cbn. now rewrite F.
    + intros p. now rewrite andb_true_r.
  - exists (fun _ => true). split; [ reflexivity | ].
    intros p. split; [ intros _; now apply Hoff | reflexivity ].
Qed.

(** A parameter is off (absent or empty) or on with the string given. *)
Lemma parameter q k :
  textual q k ->
  (truthy (get q k) = false /\ given q k = None)
  \/ (exists s, get q k = VStr s /\ truthy (get q k) = true /\
                given q k = Some s).
Proof.
  unfold given. intros [ -> | [s ->] ]; [ left; split; reflexivity | ].
  cbn. destruct (String.eqb s ""); [ left | right; exists s ]; auto.
Qed.

Lemma parsed q k s :
  numeric q k -> given q k = Some s -> exists n, parseInt_string s = Fin n 0.
Proof.
  intros N G. specialize (N s G).
  destruct (Mutate.parseInt_whole (VStr s)) as [ E | [n E] ]; cbn in E;
    [ now destruct N | eauto ].
Qed.

(** *** The condition of each parameter *)

Lemma city_means q :
  textual q "city" ->
  means (part (truthy (get q "city")) "city"
           (VObj [("contains", get q "city"); ("mode", VStr "insensitive")]))
    (fun p => forall s, given q "city" = Some s ->
       exists a b, lowercase (Post.city p) = (a ++ lowercase s ++ b)%string).
Proof.
  intros H. apply means_part;
    destruct (parameter q "city" H) as [ [T G] | (s & E & T & G) ];
    rewrite T; try discriminate; intros _.
  - rewrite E. eexists. split; [ reflexivity | ].
    intros p. cbn. rewrite !andb_true_r. unfold contains_insensitive.
    rewrite contains_append, G. split.
    + intros C s' [= <-]. exact C.
    + intros C. now apply C.
  - intros p s. rewrite G. discriminate.
Qed.

Lemma equality_means q k (read : Post.t -> string) :
  textual q k ->
  (forall s, exists f, condition k (VStr s) = Some f /\
                       forall p, f p = String.eqb s (read p)) ->
  means (part (truthy (get q k)) k (get q k))
    (fun p => forall s, given q k = Some s -> read p = s).
Proof.
  intros H C. apply means_part;
    destruct (parameter q k H) as [ [T G] | (s & E & T & G) ];
    rewrite T; try discriminate; intros _.
  - rewrite E. destruct (C s) as (f & F & HF). exists f. split; [ exact F | ].
    intros p. rewrite HF, String.eqb_eq, G. split.
    + intros <- s' [= <-]. reflexivity.
    + intros R. symmetry. now apply R.
  - intros p s. rewrite G. discriminate.
Qed.

Lemma is_integer_whole n : is_integer n 0 = true.
Proof.
  unfold is_integer, pow10. cbn [Z.of_nat Z.pow Z.pow_pos Pos.iter].
  now rewrite Z.rem_1_r.
Qed.

Lemma whole_leb n b : num_leb (Fin n 0) (Fin b 0) = (n <=? b).
Proof.
  unfold num_leb, pow10. cbn [Z.of_nat Z.pow Z.pow_pos Pos.iter].
  now rewrite !Z.mul_1_r.
Qed.

Lemma bedroom_means q :
  textual q "bedroom" -> numeric q "bedroom" ->
  means (part (truthy (get q "bedroom")) "bedroom"
           (VObj [("gte", VNum (parseInt (get q "bedroom")))]))
    (fun p => forall s, given q "bedroom" = Some s ->
       exists n b, parseInt_string s = Fin n 0 /\
                   Post.bedroom p = Some b /\ n <= b).
Proof.
  intros H N. apply means_part;
    destruct (parameter q "bedroom" H) as [ [T G] | (s & E & T & G) ];
    rewrite T; try discriminate; intros _.
  - rewrite E. cbn [parseInt]. destruct (parsed _ _ _ N G) as [n P]. rewrite P.
    unfold condition. cbn [column_of String.eqb Ascii.eqb Bool.eqb all_ops].
    unfold whole_op. rewrite is_integer_whole. cbn [real_op String.eqb Ascii.eqb Bool.eqb].
    eexists. split; [ reflexivity | ].
    intros p. cbn beta. rewrite andb_true_r, G.
    destruct (Post.bedroom p) as [b | ]; cbn [option_map].
    + rewrite whole_leb, Z.leb_le. split.
      * intros L s' [= <-]. eauto.
      * intros R. destruct (R s eq_refl) as (n' & b' & P' & [= <-] & L).
        rewrite P in P'. now injection P' as <-.
    + split; [ discriminate | ].
      intros R. destruct (R s eq_refl) as (_ & b' & _ & [=] & _).
  - intros p s. rewrite G. discriminate.
Qed.

Lemma bound_means q k op (test : number -> number -> bool) :
  textual q k -> numeric q k ->
  (forall n, exists f,
     real_op op (VNum (Fin n 0)) = Some f /\
     forall x, f (Some x) = test (Fin n 0) x) ->
  exists g,
    all_ops real_op (part (truthy (get q k)) op (VNum (parseInt (get q k))))
      = Some g /\
    forall x, g (Some x) = true <->
      forall s, given q k = Some s ->
        exists n, parseInt_string s = Fin n 0 /\ test (Fin n 0) x = true.
Proof.
  intros H N C.
  destruct (parameter q k H) as [ [T G] | (s & E & T & G) ]; rewrite T, G.
  - exists (fun _ => true). split; [ reflexivity | ].
    intros x. split; [ discriminate | reflexivity ].
  - rewrite E. cbn [parseInt]. destruct (parsed _ _ _ N G) as [n P]. rewrite P.
    destruct (C n) as (f & F & HF).
    exists (fun cell => f cell && true). split.
    + cbn [part all_ops]. now rewrite F.
    + intros x. rewrite andb_true_r, HF. split.
      * intros L s' [= <-]. eauto.
      * intros R. destruct (R s eq_refl) as (n' & P' & L).
        rewrite P in P'. now injection P' as <-.
Qed.

Lemma all_ops_app {C} compile (a b : list (string * value)) (f g : C -> bool) :
  all_ops compile a = Some f -> all_ops compile b = Some g ->
  exists h, all_ops compile (a ++ b) = Some h /\
            forall x, h x = f x && g x.
Proof.
  revert f. induction a as [ | [op v] a IH ]; intros f F G.
  - cbn in F. injection F as <-. exists g. split; [ exact G | reflexivity ].
  - cbn in F. destruct (compile op v) as [f1 | ] eqn:E; [ | discriminate F ].
    destruct (all_ops compile a) as [f2 | ] eqn:A; [ | discriminate F ].
    injection F as <-. destruct (IH f2 eq_refl G) as (h & H & HH).
    exists (fun x => f1 x && h x). split.
    + cbn. now rewrite E, H.
    + intros x. now rewrite HH, andb_assoc.
Qed.

Lemma price_means q :
  textual q "minPrice" -> textual q "maxPrice" ->
  numeric q "minPrice" -> numeric q "maxPrice" ->
  means (part (truthy (get q "minPrice") || truthy (get q "maxPrice")) "price"
           (VObj (part (truthy (get q "minPrice")) "gte"
                    (VNum (parseInt (get q "minPrice")))
                  ++ part (truthy (get q "maxPrice")) "lte"
                       (VNum (parseInt (get q "maxPrice"))))))
    (fun p =>
       (forall s, given q "minPrice" = Some s ->
          exists n, parseInt_string s = Fin n 0 /\
                    num_leb (Fin n 0) (Post.price p) = true) /\
       (forall s, given q "maxPrice" = Some s ->
          exists n, parseInt_string s = Fin n 0 /\
                    num_leb (Post.price p) (Fin n 0) = true)).
Proof.
  intros Hmin Hmax Nmin Nmax.
  destruct (bound_means q "minPrice" "gte" (fun b x => num_leb b x) Hmin Nmin)
    as (g1 & G1 & HG1).
  { intros n. eexists. split; [ reflexivity | reflexivity ]. }
  destruct (bound_means q "maxPrice" "lte" (fun b x => num_leb x b) Hmax Nmax)
    as (g2 & G2 & HG2).
  { intros n. eexists. split; [ reflexivity | reflexivity ]. }
  destruct (all_ops_app _ _ _ _ _ G1 G2) as (h & H & HH).
  apply means_part.
  - intros _. unfold condition.
    cbn [column_of String.eqb Ascii.eqb Bool.eqb]. rewrite H. cbn [option_map].
    eexists. split; [ reflexivity | ].
    intros p. cbn beta. now rewrite HH, andb_true_iff, HG1, HG2.
  - intros Off p. apply orb_false_iff in Off as [Tmin Tmax].
    destruct (parameter q "minPrice" Hmin) as [ [_ G] | (s & _ & T & _) ];
      [ | rewrite T in Tmin; discriminate ].
    destruct (parameter q "maxPrice" Hmax) as [ [_ G'] | (s & _ & T & _) ];
      [ | rewrite T in Tmax; discriminate ].
    rewrite G, G'. split; discriminate.
Qed.

(** C3, as amended.  For a query whose parameters are single strings and
    whose numeric parameters, where given, start with an integer, the
    storage client accepts the filter [getPosts] builds and reads it as:
    the listing's city contains a given [city] as a substring, letter case
    aside; its type and property equal a given [type] and [property]; it
    has at least the bedrooms a given [bedroom] parses to; its price is
    within the bounds given [minPrice] and [maxPrice] parse to, each on its
    own or both.  A parameter that is absent or empty puts no condition:
    the empty query accepts every listing.  A key the builder does not
    read leaves the filter as it is. *)
Theorem buildWhere_meaning (fs : list (string * value)) :
  let q := VObj fs in
  (plain_query q ->
   exists keep,
     compile_where (buildWhere q) = Some keep /\
     forall p, keep p = true <-> matches_filter q p)
  /\
  (exists keep,
     compile_where (buildWhere (VObj [])) = Some keep /\
     forall p, keep p = true)
  /\
  (forall k v, ~ In k filter_keys -> buildWhere (set q k v) = buildWhere q).
Proof.
  intros q. split; [ | split ].
  - intros [T N].
    assert (Tk : forall k, In k filter_keys -> textual q k)
      by (apply Forall_forall; exact T).
    assert (Nk : forall k, In k ["bedroom"; "minPrice"; "maxPrice"] -> numeric q k)
      by (apply Forall_forall; exact N).
    pose proof (city_means q (Tk "city" ltac:(cbn; tauto))) as M1.
    pose proof (equality_means q "type" Post.type (Tk "type" ltac:(cbn; tauto))) as M2.
    pose proof (equality_means q "property" Post.property
                  (Tk "property" ltac:(cbn; tauto))) as M3.
    pose proof (bedroom_means q (Tk "bedroom" ltac:(cbn; tauto))
                  (Nk "bedroom" ltac:(cbn; tauto))) as M4.
    pose proof (price_means q (Tk "minPrice" ltac:(cbn; tauto))
                  (Tk "maxPrice" ltac:(cbn; tauto))
                  (Nk "minPrice" ltac:(cbn; tauto))
                  (Nk "maxPrice" ltac:(cbn; tauto))) as M5.
    specialize (M2 ltac:(intros s; eexists; split; [ reflexivity | reflexivity ])).
    specialize (M3 ltac:(intros s; eexists; split; [ reflexivity | reflexivity ])).
    pose proof (means_app _ _ _ _ M1
                  (means_app _ _ _ _ M2
                     (means_app _ _ _ _ M3 (means_app _ _ _ _ M4 M5)))) as M.
    destruct M as (keep & K & HK).
    exists keep. rewrite buildWhere_parts. split; [ exact K | ].
    intros p. rewrite HK. unfold matches_filter. tauto.
  - exists (fun _ => true). split; reflexivity.
  - intros k v. apply buildWhere_other_key.
Qed.

(** A search for "BER", two bedrooms, at most 2000, with an empty [type]
    and a key the builder does not read: the flat in Berlin passes, the
    house in Paris does not. *)
Lemma buildWhere_meaning_witness :
  exists keep,
    compile_where (buildWhere (VObj (query Sample.search_query))) = Some keep /\
    (keep Sample.flat = true <->
     matches_filter (VObj (query Sample.search_query)) Sample.flat) /\
    keep Sample.flat = true /\ keep Sample.house = false.
Proof.
  destruct (proj1 (buildWhere_meaning (query Sample.search_query)))
    as (keep & K & HK).
  - split.
    + unfold filter_keys.
      repeat (apply Forall_cons;
              [ first [ left; reflexivity | right; eexists; reflexivity ] | ]).
      apply Forall_nil.
    + repeat (apply Forall_cons;
              [ intros s E; vm_compute in E; try discriminate E;
                injection E as <-; vm_compute; discriminate | ]).
      apply Forall_nil.
  - exists keep. split; [ exact K | split; [ apply HK | ] ].
    vm_compute in K. injection K as <-. split; reflexivity.
Defined.

(** C3 fails as stated: a [type] parameter that is there and empty is not
    an equality.  The filter built from [?type=] accepts the flat, whose
    type is "rent", and [getPosts] returns both listings. *)
Lemma empty_type_is_no_condition :
  assoc "type" (query Sample.any_type_query) = Some (VStr "") /\
  buildWhere (VObj (query Sample.any_type_query)) = VObj [] /\
  Post.type Sample.flat = "rent" /\
  (exists keep,
     compile_where (buildWhere (VObj (query Sample.any_type_query))) = Some keep /\
     keep Sample.flat = true) /\
  (exists resp,
     fst (getPosts Sample.any_type_query (Sample.world [])) = Ok resp /\
     map (fun item => get item "type") (items (json resp))
       = [VStr "buy"; VStr "rent"]).
Proof.
  split; [ reflexivity | split; [ reflexivity | split; [ reflexivity | split ] ] ].
  - eexists. split; reflexivity.
  - eexists. split; vm_compute; reflexivity.
Qed.

End Filter.

(* ================================================================== *)
(** ** Further properties: reading *)

Module Reads.
Import JS Store Controller StoreFacts Spec Further.

(** X3.  Listing and reading change nothing in the store, whatever the
    request and whatever the backend does. *)
Theorem reading_changes_nothing (req : request) (w : World) :
  db (snd (getPosts req w)) = db w /\ db (snd (getPost req w)) = db w.
Proof.
  split.
  - rewrite Listing.getPosts_run.
    destruct (prisma.post.findMany (Some _) true w) as [ [posts | e] w1 ] eqn:E1.
    + now apply Listing.findMany_ok in E1 as (_ & D & _).
    + apply Listing.findMany_throw in E1 as (_ & D1).
      destruct (prisma.post.findMany None false w1) as [ [basic | e'] w2 ] eqn:E2.
      * apply Listing.findMany_ok in E2 as (_ & D2 & _). cbn. congruence.
      * apply Listing.findMany_throw in E2 as (_ & D2). cbn. congruence.
  - rewrite Listing.getPost_run. unfold failed.
    destruct (hd false (faults w)); [ reflexivity | ].
    destruct (find_post (db w) (id req)) as [p | ]; [ | reflexivity ].
    destruct (find_user (db w) (Post.userId p)); reflexivity.
Qed.

(** *** What [getPost] returns *)

Lemma full_scalars r u loc k v :
  In (k, v) (scalars (post r)) ->
  get (extend (full r) [("ownerInfo", ownerInfo u loc)]) k = v.
Proof.
  unfold scalars. cbn [In].
  intros H.
  repeat (destruct H as [ [= <- <-] | H ]; [ reflexivity | ]).
  destruct H.
Qed.

(** X4.  With the lookup served, [getPost] answers 404 "Post not found"
    for an identifier with no listing, and for a listing whose owner is an
    account 200 with the listing as stored: every column, the coordinates
    among them, the owner under [user] and the detail under [postDetail]
    ([null] when there is none). *)
Theorem getPost_returns_the_listing (req : request) (w : World) :
  hd false (faults w) = false ->
  let '(r, w') := getPost req w in
  match find_post (db w) (id req) with
  | None => r = Ok {| status := 404; json := message "Post not found" |}
  | Some p =>
      forall u, find_user (db w) (Post.userId p) = Some u ->
      exists body,
        r = Ok {| status := 200; json := body |} /\
        (forall k v, In (k, v) (scalars p) -> get body k = v) /\
        get body "latitude" = text (Post.latitude p) /\
        get body "longitude" = text (Post.longitude p) /\
        get body "user" = shown_user (Some u) /\
        get body "postDetail" = shown_detail (find_detail (db w) (Post.id p))
  end.
Proof.
  intros F. rewrite Listing.getPost_run, F.
  destruct (find_post (db w) (id req)) as [p | ]; [ | reflexivity ].
  destruct (find_user (db w) (Post.userId p)) as [u0 | ] eqn:U0;
    intros u [= <-].
  eexists. split; [ reflexivity | ].
  split; [ | repeat split ].
  - intros k v I.
    apply (full_scalars (included (db w) p) u0 (Post.city p) k v I).
  - cbn. now rewrite U0.
Qed.

Lemma getPost_returns_the_listing_witness :
  exists body,
    fst (getPost (Sample.reading "p1") (Sample.world []))
      = Ok {| status := 200; json := body |} /\
    get body "latitude" = VStr "52.52" /\
    get (get body "postDetail") "size" = int 80.
Proof.
  pose proof (getPost_returns_the_listing (Sample.reading "p1") (Sample.world [])
                eq_refl) as H.
  destruct (getPost (Sample.reading "p1") (Sample.world [])) as [r w'].
  cbn in H. destruct (H _ eq_refl) as (body & -> & _ & La & _ & _ & D).
  exists body. cbn [fst]. rewrite La, D. repeat split.
Defined.

(** *** The order of a list *)

Lemma insert_newest_perm p l : Permutation (insert_newest p l) (p :: l).
Proof.
  induction l as [ | q l IH ]; cbn; [ reflexivity | ].
  destruct (Post.createdAt q <=? Post.createdAt p); [ reflexivity | ].
  rewrite IH. apply perm_swap.
Qed.

Lemma newest_first_perm l : Permutation (newest_first l) l.
Proof.
  induction l as [ | p l IH ]; cbn; [ constructor | ].
  rewrite insert_newest_perm. now constructor.
Qed.

Lemma insert_newest_sorted p l :
  StronglySorted newer l -> StronglySorted newer (insert_newest p l).
Proof.
  induction 1 as [ | q l S IH F ]; cbn.
  - repeat constructor.
  - destruct (Post.createdAt q <=? Post.createdAt p) eqn:E.
    + apply Z.leb_le in E. constructor; [ now constructor | ].
      constructor; [ exact E | ].
      eapply Forall_impl; [ | exact F ]. unfold newer. intros a A. lia.
    + apply Z.leb_gt in E. constructor; [ exact IH | ].
      eapply Permutation_Forall.
      * symmetry. apply insert_newest_perm.
      * constructor; [ unfold newer; lia | exact F ].
Qed.

Lemma newest_first_sorted l : StronglySorted newer (newest_first l).
Proof.
  induction l as [ | p l IH ]; cbn; [ constructor | ].
  now apply insert_newest_sorted.
Qed.

Lemma findMany_rows filter join w rows w1 :
  prisma.post.findMany filter join w = (Ok rows, w1) ->
  exists keep,
    match filter with
    | Some f => compile_where f = Some keep
    | None => keep = fun _ => true
    end /\
    map post rows = newest_first (List.filter keep (posts (db w))) /\
    Forall (fun r => user r =
                       if join then find_user (db w) (Post.userId (post r))
                       else None) rows.
Proof.
  intros H. apply send_ok in H as (_ & w2 & R & _).
  unfold find_many in R. cbn [db with_faults] in R.
  destruct filter as [f | ].
  - destruct (compile_where f) as [keep | ] eqn:C; [ | discriminate R ].
    injection R as <- _. exists keep. split; [ reflexivity | ]. split.
    + rewrite map_map. cbn. apply map_id.
    + apply Forall_forall. intros r I. apply in_map_iff in I as (p & <- & _).
      reflexivity.
  - injection R as <- _. exists (fun _ => true). split; [ reflexivity | ]. split.
    + rewrite map_map. cbn. apply map_id.
    + apply Forall_forall. intros r I. apply in_map_iff in I as (p & <- & _).
      reflexivity.
Qed.

(** X5.  When the filtered query is served, [getPosts] returns one item
    for each listing the filter accepts and no other, newest first, each
    made from the listing and its owner. *)
Theorem getPosts_lists_the_matches_newest_first (req : request) (w : World) keep :
  hd false (faults w) = false ->
  compile_where (buildWhere (VObj (query req))) = Some keep ->
  exists rows,
    fst (getPosts req w)
      = Ok {| status := 200;
              json := VArr (map (transformedPost (now_iso w)) rows) |} /\
    Permutation (map post rows) (List.filter keep (posts (db w))) /\
    StronglySorted newer (map post rows) /\
    Forall (fun r => user r = find_user (db w) (Post.userId (post r))) rows.
Proof.
  intros F C. rewrite Listing.getPosts_run.
  destruct (prisma.post.findMany (Some _) true w) as [ [rows | e] w1 ] eqn:E.
  - pose proof (Listing.findMany_ok _ _ _ _ _ E) as (N & _ & _).
    apply findMany_rows in E as (keep' & K & R & U).
    rewrite C in K. injection K as <-.
    exists rows. cbn [fst]. rewrite N, R. repeat split.
    + apply newest_first_perm.
    + apply newest_first_sorted.
    + exact U.
  - exfalso. unfold prisma.post.findMany, send in E. rewrite F in E.
    unfold find_many in E. rewrite C in E. discriminate E.
Qed.

Lemma getPosts_lists_the_matches_newest_first_witness :
  exists rows,
    fst (getPosts Sample.everything (Sample.world []))
      = Ok {| status := 200;
              json := VArr (map (transformedPost "1970-01-01T00:00:01.000Z") rows) |}
    /\ Permutation (map post rows) [Sample.flat; Sample.house]
    /\ StronglySorted newer (map post rows).
Proof.
  destruct (getPosts_lists_the_matches_newest_first Sample.everything
              (Sample.world []) (fun _ => true) eq_refl eq_refl)
    as (rows & E & P & S & _).
  exists rows. split; [ exact E | split; [ exact P | exact S ] ].
Defined.

(** *** The fallback *)

Lemma conditions_refused_later a b :
  conditions b = None -> conditions (a ++ b) = None.
Proof.
  intros B. induction a as [ | [k c] a IH ]; cbn; [ exact B | ].
  rewrite IH. now destruct (condition k c).
Qed.

(** A [bedroom] parameter that is truthy and starts with no integer gives
    a filter the storage client refuses. *)
Lemma unparsable_bedroom_is_refused q :
  truthy (get q "bedroom") = true -> parseInt (get q "bedroom") = NaN ->
  compile_where (buildWhere q) = None.
Proof.
  intros T P. rewrite Filter.buildWhere_parts, T, P. cbn [compile_where].
  do 3 apply conditions_refused_later. reflexivity.
Qed.

(** X6.  When the filtered query fails, or the storage client refuses the
    filter, and the fallback query is served, [getPosts] answers 200 with
    every listing of the store, newest first, whatever the query asked
    for. *)
Theorem getPosts_falls_back_to_every_listing (req : request) (w : World) :
  hd false (faults w) = true
  \/ compile_where (buildWhere (VObj (query req))) = None ->
  hd false (tl (faults w)) = false ->
  exists rows,
    fst (getPosts req w)
      = Ok {| status := 200;
              json := VArr (map (simplePost (now_iso w)) rows) |} /\
    Permutation (map post rows) (posts (db w)) /\
    StronglySorted newer (map post rows).
Proof.
  intros Bad F2. rewrite Listing.getPosts_run.
  destruct (prisma.post.findMany (Some _) true w) as [ [rows | e] w1 ] eqn:E1.
  { exfalso. apply send_ok in E1 as (F1 & w2 & R & _).
    destruct Bad as [ B | B ]; [ congruence | ].
    unfold find_many in R. rewrite B in R. discriminate R. }
  apply send_throw in E1. subst w1.
  destruct (prisma.post.findMany None false _) as [ [rows | e'] w2 ] eqn:E2.
  - pose proof (Listing.findMany_ok _ _ _ _ _ E2) as (N & _ & _).
    apply findMany_rows in E2 as (keep & -> & R & _).
    exists rows. cbn [fst]. rewrite N, R. cbn [now_iso with_log with_faults db].
    split; [ reflexivity | split ].
    + rewrite newest_first_perm.
      assert (A : forall l : list Post.t, List.filter (fun _ => true) l = l)
        by (induction l as [ | a l IH ]; cbn; [ | rewrite IH ]; reflexivity).
      now rewrite A.
    + apply newest_first_sorted.
  - exfalso. unfold prisma.post.findMany, send in E2.
    cbn [faults with_log with_faults] in E2. rewrite F2 in E2.
    unfold find_many in E2. discriminate E2.
Qed.

(** [?bedroom=abc] is answered with both listings of the sample. *)
Lemma getPosts_falls_back_to_every_listing_witness :
  exists rows,
    fst (getPosts (Sample.from "" "" [("bedroom", VStr "abc")] [])
           (Sample.world []))
      = Ok {| status := 200;
              json := VArr (map (simplePost "1970-01-01T00:00:01.000Z") rows) |}
    /\ Permutation (map post rows) [Sample.flat; Sample.house].
Proof.
  destruct (getPosts_falls_back_to_every_listing
              (Sample.from "" "" [("bedroom", VStr "abc")] []) (Sample.world []))
    as (rows & E & P & _).
  - right. apply unparsable_bedroom_is_refused; reflexivity.
  - reflexivity.
  - exists rows. split; [ exact E | exact P ].
Defined.

End Reads.

(* ================================================================== *)
(** ** Further properties: creating *)

Module Creating.
Import JS Store Controller StoreFacts Spec Further.

Lemma new_post_every_field id at_ data p :
  new_post id at_ data = Some p ->
  Post.id p = id /\ Post.createdAt p = at_ /\ Post.updatedAt p = at_ /\
  required (as_string (get data "title")) = Some (Post.title p) /\
  required (as_float (get data "price")) = Some (Post.price p) /\
  defaulted [] (as_strings (get data "images")) = Some (Post.images p) /\
  optional (as_string (get data "address")) = Some (Post.address p) /\
  required (as_string (get data "city")) = Some (Post.city p) /\
  optional (as_int (get data "bedroom")) = Some (Post.bedroom p) /\
  optional (as_float (get data "bathroom")) = Some (Post.bathroom p) /\
  defaulted "rent" (as_string (get data "type")) = Some (Post.type p) /\
  defaulted "apartment" (as_string (get data "property"))
    = Some (Post.property p) /\
  required (as_string (get data "userId")) = Some (Post.userId p).
Proof.
  unfold new_post. intros H.
  destruct data; try discriminate H.
  destruct (only_keys _ fields); [ | discriminate H ].
  fields H. injection H as <-. cbn. repeat split; assumption.
Qed.

Lemma new_detail_every_field id postId d x :
  new_detail id postId d = Some x ->
  PostDetail.postId x = postId /\
  optional (as_string (get d "desc")) = Some (PostDetail.desc x) /\
  optional (as_string (get d "utilities")) = Some (PostDetail.utilities x) /\
  optional (as_string (get d "pet")) = Some (PostDetail.pet x) /\
  optional (as_string (get d "income")) = Some (PostDetail.income x) /\
  optional (as_int (get d "size")) = Some (PostDetail.size x) /\
  optional (as_int (get d "school")) = Some (PostDetail.school x) /\
  optional (as_int (get d "bus")) = Some (PostDetail.bus x) /\
  optional (as_int (get d "restaurant")) = Some (PostDetail.restaurant x).
Proof.
  unfold new_detail. intros H.
  destruct d; try discriminate H.
  destruct (only_keys _ fields); [ | discriminate H ].
  fields H. injection H as <-. cbn. repeat split; assumption.
Qed.

(** *** Reading a stored field back *)

Lemma string_or_default v d s :
  defaulted d (as_string (or v (VStr d))) = Some s ->
  if truthy v then v = VStr s else s = d.
Proof.
  unfold or. destruct (truthy v) eqn:T.
  - destruct v; cbn; try discriminate. now intros [= <-].
  - cbn. now intros [= <-].
Qed.

Lemma optional_string v s :
  optional (as_string v) = Some s -> truthy v = true -> v = text s.
Proof.
  destruct v; cbn; try discriminate; intros [= <-]; try discriminate; reflexivity.
Qed.

Lemma optional_float v x :
  optional (as_float v) = Some x -> truthy v = true -> v = real x.
Proof.
  destruct v as [ | | | [ | | ] | | | | ]; cbn; try discriminate;
    intros [= <-]; try discriminate; reflexivity.
Qed.

Lemma strings_of_map xs l : strings_of xs = Some l -> xs = map VStr l.
Proof.
  revert l. induction xs as [ | x xs IH ]; cbn; intros l.
  - now intros [= <-].
  - destruct x; try discriminate.
    destruct (strings_of xs) as [l' | ]; [ | discriminate ].
    cbn. intros [= <-]. cbn. now rewrite (IH l' eq_refl).
Qed.

Lemma createData_created body caller id at_ p :
  new_post id at_ (createData body caller) = Some p ->
  created_from body caller at_ p.
Proof.
  intros H.
  apply new_post_every_field in H
    as (_ & Hc & Hu & Ht & Hp & Hi & Ha & Hy & Hb & Hh & Hty & Hpr & Hus).
  cbn [get assoc createData String.eqb Ascii.eqb Bool.eqb]
    in Ht, Hp, Hi, Ha, Hy, Hb, Hh, Hty, Hpr, Hus.
  unfold created_from.
  split; [ now apply Create.required_string | ].
  split; [ now apply Create.required_string | ].
  split; [ now injection Hus | ].
  split; [ exact Hc | split; [ exact Hu | ] ].
  split.
  { destruct (is_string (get body "price")).
    - destruct (parseFloat (get body "price")); cbn in Hp; try discriminate Hp.
      now injection Hp.
    - destruct (get body "price") as [ | | | [ | | ] | | | | ]; cbn in Hp;
        try discriminate Hp. now injection Hp as <-. }
  split.
  { destruct (truthy (get body "bedroom")) eqn:T.
    - destruct (is_string (get body "bedroom")).
      + destruct (Mutate.fresh_int _ _ Hb) as (n & P & E).
        exists n. now rewrite P, E.
      + destruct (get body "bedroom") as [ | | b | [ | s | m e ] | | | | ];
          try discriminate T; try discriminate Hb.
        unfold as_int in *. destruct (is_integer m e); [ | discriminate Hb ].
        cbn in Hb. injection Hb as <-. eauto.
    - unfold int in Hb. rewrite Mutate.whole_is_int in Hb. cbn in Hb.
      now injection Hb. }
  split.
  { destruct (truthy (get body "bathroom")) eqn:T.
    - destruct (is_string (get body "bathroom")).
      + now apply Mutate.revised_optional_float with (old := None).
      + now apply optional_float.
    - unfold int in Hh. cbn in Hh. now injection Hh. }
  split; [ now apply string_or_default in Hty | ].
  split; [ now apply string_or_default in Hpr | ].
  split.
  { unfold or in Ha. destruct (truthy (get body "address")) eqn:T.
    - now apply optional_string.
    - cbn in Ha. now injection Ha. }
  unfold or in Hi. destruct (truthy (get body "images")) eqn:T.
  - destruct (get body "images") as [ | | | | | | xs | ]; cbn in Hi;
      try discriminate Hi; try discriminate T.
    destruct (strings_of xs) as [l | ] eqn:S; cbn in Hi; [ | discriminate Hi ].
    injection Hi as <-. f_equal. now apply strings_of_map.
  - cbn in Hi. now injection Hi.
Qed.


Lemma optional_int_parsed v n :
  optional (as_int (if truthy v then VNum (parseInt v) else VNull)) = Some n ->
  if truthy v then exists z, parseInt v = Fin z 0 /\ n = Some z else n = None.
Proof.
  destruct (truthy v).
  - apply Mutate.fresh_int.
  - cbn. now intros [= <-].
Qed.

Lemma optional_text_or_empty v s :
  optional (as_string (or v (VStr ""))) = Some s ->
  if truthy v then v = text s else s = Some "".
Proof.
  unfold or. destruct (truthy v) eqn:T.
  - intros H. now apply optional_string.
  - cbn. now intros [= <-].
Qed.

Lemma detailCreate_detail id p postDetail x :
  new_detail id (Post.id p) (VObj (detailCreate postDetail)) = Some x ->
  detail_from postDetail p x.
Proof.
  intros H.
  apply new_detail_every_field in H as (Hp & H1 & H2 & H3 & H4 & H5 & H6 & H7 & H8).
  cbn [get assoc detailCreate String.eqb Ascii.eqb Bool.eqb]
    in H1, H2, H3, H4, H5, H6, H7, H8.
  apply optional_text_or_empty in H1, H2, H3, H4.
  apply optional_int_parsed in H5, H6, H7, H8.
  split; [ exact Hp | split ].
  - intros k read [ [= <- <-] | [ [= <- <-] | [ [= <- <-] | [ [= <- <-] | [] ] ] ] ];
      assumption.
  - intros k read [ [= <- <-] | [ [= <- <-] | [ [= <- <-] | [ [= <- <-] | [] ] ] ] ];
      assumption.
Qed.

Lemma nested_detail_from id p body caller ds :
  nested_detail id (Post.id p) (get (createData body caller) "postDetail")
    = Some ds ->
  if truthy (get body "postDetail")
  then exists x, ds = [x] /\ detail_from (get body "postDetail") p x
  else ds = [].
Proof.
  cbn [get assoc createData String.eqb Ascii.eqb Bool.eqb].
  destruct (truthy (get body "postDetail")).
  - change (nested_detail id (Post.id p)
              (VObj [("create", VObj (detailCreate (get body "postDetail")))]))
      with (option_map (fun x => [x])
              (new_detail id (Post.id p)
                 (VObj (detailCreate (get body "postDetail"))))).
    destruct (new_detail _ _ _) as [x | ] eqn:N; [ | discriminate ].
    cbn. intros [= <-]. exists x. split; [ reflexivity | ].
    now apply detailCreate_detail in N.
  - cbn. now intros [= <-].
Qed.

(** One attempt of [addPost], in full. *)
Lemma attempt_grows body caller w r w' :
  attempt (createData body caller) w = (r, w') ->
  now w' = now w /\
  ((exists p ds,
      grown w w' [p] ds /\
      Post.id p = oid (fresh w) /\
      created_from body caller (now w) p /\
      (if truthy (get body "postDetail")
       then exists x, ds = [x] /\ detail_from (get body "postDetail") p x
       else ds = []) /\
      log w' = log w ++ [{| what := Create (createData body caller);
                            served := true |}] /\
      r = match find_user (db w) caller with
          | Some u =>
              Ok {| status := 201;
                    json := extend (full (included (db w') p))
                              [("ownerInfo", ownerInfo u (Post.city p))] |}
          | None => Throw "Cannot read properties of null"
          end)
   \/ (db w' = db w /\ fresh w' = fresh w /\
       log w' = log w ++ [{| what := Create (createData body caller);
                             served := false |}] /\
       exists e, r = Throw e)).
Proof.
  unfold attempt, bind.
  destruct (prisma.post.create _ w) as [ [row | e] w1 ] eqn:C.
  - apply send_ok in C as (_ & w2 & H & ->).
    unfold create_post in H. cbn [db now fresh with_faults] in H.
    destruct (new_post _ _ _) as [p | ] eqn:P; [ | discriminate H ].
    destruct (nested_detail _ _ _) as [ds | ] eqn:N; [ | discriminate H ].
    cbn in H. injection H as <- <-.
    rewrite Create.shaped_run. cbn [user included post].
    pose proof (new_post_every_field _ _ _ _ P) as (Hid & _).
    pose proof (createData_created _ _ _ _ _ P) as Hc.
    assert (Hu : Post.userId p = caller) by apply Hc.
    rewrite <- Hid in N. apply nested_detail_from in N.
    unfold find_user at 1. cbn [db with_log with_db with_fresh users].
    fold (find_user (db w) (Post.userId p)). rewrite Hu.
    intros E. split.
    { destruct (find_user (db w) caller); injection E as _ <-; reflexivity. }
    left. exists p, ds.
    assert (G : forall w3, w3 = w' -> grown w w3 [p] ds /\
              log w3 = log w ++ [{| what := Create (createData body caller);
                                    served := true |}]).
    { intros w3 ->.
      destruct (find_user (db w) caller); injection E as _ <-;
        (split; [ repeat split | reflexivity ]). }
    destruct (G w' eq_refl) as [G1 G2].
    split; [ exact G1 | ]. split; [ exact Hid | ]. split; [ exact Hc | ].
    split; [ exact N | ]. split; [ exact G2 | ].
    destruct (find_user (db w) caller); injection E as <- <-; reflexivity.
  - apply send_throw in C as ->.
    intros E. injection E as <- <-. split; [ reflexivity | ].
    right. repeat split. eauto.
Qed.

Lemma grown_nothing w w' : db w' = db w -> grown w w' [] [].
Proof. intros H. unfold grown. rewrite H, !app_nil_r. auto. Qed.

Lemma grown_twice w w1 w2 ps ds ps' ds' :
  grown w w1 ps ds -> grown w1 w2 ps' ds' -> grown w w2 (ps ++ ps') (ds ++ ds').
Proof.
  intros (P & D & U & C & M) (P' & D' & U' & C' & M'). unfold grown.
  rewrite P', D', U', C', M', P, D, U, C, M, !app_assoc. auto.
Qed.

(** What an attempt leaves behind. *)
Lemma attempt_leaves body caller w r w' :
  attempt (createData body caller) w = (r, w') ->
  now w' = now w /\
  exists ps ds ev,
    grown w w' ps ds /\ log w' = log w ++ [ev] /\
    what ev = Create (createData body caller) /\
    length ps = length (List.filter served [ev]) /\
    Forall (created_from body caller (now w)) ps /\
    Forall (fun x => exists p, In p ps /\
                       detail_from (get body "postDetail") p x) ds /\
    (if truthy (get body "postDetail")
     then length ds = length ps else ds = []).
Proof.
  intros A. apply attempt_grows in A as (N & A). split; [ exact N | ].
  destruct A as [ (p & ds & G & _ & Cf & Df & L & _) | (D & _ & L & _) ].
  - exists [p], ds. eexists. split; [ exact G | ]. split; [ exact L | ].
    split; [ reflexivity | ].
    split; [ reflexivity | ]. split; [ now constructor | ].
    destruct (truthy (get body "postDetail")).
    + destruct Df as (x & -> & Df). split; [ | reflexivity ].
      constructor; [ | constructor ]. exists p. split; [ now left | exact Df ].
    + subst ds. split; [ constructor | reflexivity ].
  - exists [], []. eexists. split; [ now apply grown_nothing | ].
    split; [ exact L | ]. split; [ reflexivity | ]. split; [ reflexivity | ].
    split; [ constructor | ]. split; [ constructor | ].
    now destruct (truthy _).
Qed.

(** Two attempts in a row. *)
Lemma attempts_leave body caller w r1 w1 r2 w2 :
  attempt (createData body caller) w = (r1, w1) ->
  attempt (createData body caller) w1 = (r2, w2) ->
  now w2 = now w /\
  exists ps ds ev ev',
    grown w w2 ps ds /\ log w2 = log w ++ [ev; ev'] /\
    what ev = Create (createData body caller) /\ what ev' = what ev /\
    length ps = length (List.filter served [ev; ev']) /\
    Forall (created_from body caller (now w)) ps /\
    Forall (fun x => exists p, In p ps /\
                       detail_from (get body "postDetail") p x) ds /\
    (if truthy (get body "postDetail")
     then length ds = length ps else ds = []).
Proof.
  intros A1 A2.
  apply attempt_leaves in A1 as (N1 & ps & ds & ev & G & L & W & Len & Cf & Df & Dl).
  apply attempt_leaves in A2
    as (N2 & ps' & ds' & ev' & G' & L' & W' & Len' & Cf' & Df' & Dl').
  rewrite N1 in N2, Cf'. split; [ exact N2 | ].
  exists (ps ++ ps'), (ds ++ ds'), ev, ev'.
  split; [ eapply grown_twice; eassumption | ].
  split; [ rewrite L', L, <- app_assoc; reflexivity | ].
  split; [ exact W | ]. split; [ congruence | ].
  split.
  { change [ev; ev'] with ([ev] ++ [ev']).
    rewrite filter_app, !length_app. congruence. }
  split; [ apply Forall_app; auto | ].
  split.
  { apply Forall_app. split.
    - eapply Forall_impl; [ | exact Df ]. intros x (p & I & H).
      exists p. rewrite in_app_iff. auto.
    - eapply Forall_impl; [ | exact Df' ]. intros x (p & I & H).
      exists p. rewrite in_app_iff. auto. }
  destruct (truthy (get body "postDetail")).
  - rewrite !length_app. congruence.
  - now subst.
Qed.

(** X7.  [addPost] only ever appends.  Whatever the request and the
    backend, the listings and details of the store afterwards are those of
    before followed by new ones, and accounts, conversations and messages
    are as they were.  There is one new listing for each [create] request
    that was served.  Each new listing is filled from the body of the
    request: title, city and the caller as owner; the price parsed from a
    string or kept as a number; bedrooms and bathrooms parsed from strings,
    0 when falsy; "rent", "apartment", an empty address and no image where
    the body gives none; both dates the time of the request.  Each new
    detail belongs to one of the new listings and is filled from the
    [postDetail] of the body, and there is one for each new listing when
    the body has a [postDetail] and none otherwise. *)
Theorem addPost_only_appends (req : request) (w : World) :
  let '(r, w') := addPost req w in
  exists ps ds,
    grown w w' ps ds /\
    length ps = served_count w w' /\
    Forall (created_from (VObj (body req)) (userId req) (now w)) ps /\
    Forall (fun x => exists p, In p ps /\
              detail_from (get (VObj (body req)) "postDetail") p x) ds /\
    (if truthy (get (VObj (body req)) "postDetail")
     then length ds = length ps else ds = []).
Proof.
  rewrite Create.addPost_run. cbv zeta. unfold served_count.
  destruct (_ || _).
  { exists [], []. rewrite Mutate.sent_refl.
    split; [ now apply grown_nothing | ]. split; [ reflexivity | ].
    split; [ constructor | ]. split; [ constructor | ].
    now destruct (truthy _). }
  destruct (attempt _ w) as [ [resp | e] w1 ] eqn:A1.
  - apply attempt_leaves in A1 as (_ & ps & ds & ev & G & L & _ & Len & H).
    exists ps, ds. rewrite (Create.sent_app _ _ _ L). auto.
  - destruct (attempt _ w1) as [r2 w2] eqn:A2.
    destruct (attempts_leave _ _ _ _ _ _ _ A1 A2)
      as (_ & ps & ds & ev & ev' & G & L & _ & _ & Len & H).
    destruct r2; exists ps, ds; rewrite (Create.sent_app _ _ _ L); auto.
Qed.

(** X8.  A caller the store has no account of never gets a listing
    acknowledged, and gets it stored all the same.  The answer is 400 or
    500, never 201.  Each [create] request that is served stores a listing,
    and because the failure comes after the storing, a first request that
    was served is followed by a second with the same data: with a backend
    that serves both, one request leaves two listings. *)
Theorem addPost_without_an_account (req : request) (w : World) :
  find_user (db w) (userId req) = None ->
  let '(r, w') := addPost req w in
  (exists resp, r = Ok resp /\ (status resp = 400 \/ status resp = 500)) /\
  (forall first rest, sent w w' = first :: rest ->
     exists second, rest = [second] /\ what second = what first) /\
  length (posts (db w')) = (length (posts (db w)) + served_count w w')%nat.
Proof.
  intros U. rewrite Create.addPost_run. cbv zeta. unfold served_count.
  destruct (_ || _).
  { rewrite Mutate.sent_refl. split; [ eauto | ].
    split; [ intros ? ? [=] | cbn; lia ]. }
  destruct (attempt _ w) as [r1 w1] eqn:A1.
  assert (T1 : exists e, r1 = Throw e).
  { apply attempt_grows in A1 as (_ & [ (p & ds & _ & _ & _ & _ & _ & R) | (_ & _ & _ & R) ]).
    - rewrite U in R. eauto.
    - exact R. }
  destruct T1 as (e1 & ->).
  destruct (attempt _ w1) as [r2 w2] eqn:A2.
  assert (U1 : find_user (db w1) (userId req) = None).
  { apply attempt_leaves in A1 as (_ & ps & ds & ev & G & _).
    rewrite (Create.find_user_users (db w) (db w1)); [ exact U | apply G ]. }
  assert (T2 : exists e, r2 = Throw e).
  { apply attempt_grows in A2 as (_ & [ (p & ds & _ & _ & _ & _ & _ & R) | (_ & _ & _ & R) ]).
    - rewrite U1 in R. eauto.
    - exact R. }
  destruct T2 as (e2 & ->).
  destruct (attempts_leave _ _ _ _ _ _ _ A1 A2)
    as (_ & ps & ds & ev & ev' & G & L & _ & W & Len & _).
  rewrite (Create.sent_app _ _ _ L).
  split; [ eauto | ].
  split.
  - intros ? ? [= <- <-]. eauto.
  - destruct G as (P & _). rewrite P, length_app. lia.
Qed.

(** X9.  A listing that was created can be read back.  When [addPost]
    answers 201 in a store where the identifier to hand out next is not in
    use, a [getPost] for the identifier in the answer, its lookup served,
    answers 200 with the very same body, and leaves the store as it is. *)
Theorem addPost_then_getPost (req : request) (w : World)
  (resp : response) (w' : World) (req' : request) :
  find_post (db w) (oid (fresh w)) = None ->
  addPost req w = (Ok resp, w') ->
  status resp = 201 ->
  get (json resp) "id" = VStr (id req') ->
  hd false (faults w') = false ->
  fst (getPost req' w') = Ok {| status := 200; json := json resp |} /\
  db (snd (getPost req' w')) = db w'.
Proof.
  intros Free H S I F. rewrite Create.addPost_run in H. cbv zeta in H.
  destruct (_ || _); [ injection H as <- <-; discriminate S | ].
  assert (Back : forall w0 r,
            attempt (createData (VObj (body req)) (userId req)) w0 = (r, w') ->
            db w0 = db w -> fresh w0 = fresh w -> r = Ok resp ->
            fst (getPost req' w') = Ok {| status := 200; json := json resp |} /\
            db (snd (getPost req' w')) = db w').
  { intros w0 r A D0 F0 ->.
    apply attempt_grows in A
      as (_ & [ (p & ds & G & Hid & Cf & _ & _ & R) | (_ & _ & _ & e & [=]) ]).
    assert (Hu : Post.userId p = userId req) by apply Cf.
    destruct (find_user (db w0) (userId req)) as [u | ] eqn:U; [ | discriminate R ].
    injection R as ->. cbn [json] in I |- *.
    rewrite (Reads.full_scalars _ u _ "id" (VStr (Post.id p))) in I
      by (cbn; auto).
    injection I as I. rewrite Listing.getPost_run, F, <- I, Hid, F0.
    destruct G as (P & _ & Us & _).
    assert (Fp : find_post (db w') (oid (fresh w)) = Some p).
    { unfold find_post in *. rewrite P, D0. apply find_last; [ exact Free | ].
      rewrite Hid, F0. apply String.eqb_refl. }
    rewrite Fp.
    assert (Fu : find_user (db w') (Post.userId p) = Some u).
    { rewrite (Create.find_user_users (db w0) (db w')) by exact Us.
      now rewrite Hu. }
    rewrite Fu. split; reflexivity. }
  destruct (attempt _ w) as [ [resp1 | e1] w1 ] eqn:A1.
  - injection H as <- <-. eapply Back; eauto.
  - destruct (attempt _ w1) as [ [resp2 | e2] w2 ] eqn:A2;
      [ | injection H as <- <-; discriminate S ].
    injection H as <- <-.
    pose proof A1 as A1'.
    apply attempt_grows in A1'
      as (_ & [ (p & ds & G & _ & _ & _ & _ & R) | (D & Fr & _ & _) ]).
    + exfalso. destruct (find_user (db w) (userId req)) as [u | ] eqn:U;
        [ discriminate R | ].
      apply attempt_grows in A2
        as (_ & [ (p2 & ds2 & _ & _ & _ & _ & _ & R2) | (_ & _ & _ & e & [=]) ]).
      rewrite (Create.find_user_users (db w) (db w1)), U in R2 by apply G.
      discriminate R2.
    + eapply Back; eauto.
Qed.

(** A stranger's request, both [create] requests served: 500, and the two
    listings of the store have become four. *)
Lemma addPost_without_an_account_witness :
  (exists resp, fst (addPost stranger_request (Sample.world [])) = Ok resp /\
                (status resp = 400 \/ status resp = 500)) /\
  length (posts (db (snd (addPost stranger_request (Sample.world []))))) = 4%nat.
Proof.
  pose proof (addPost_without_an_account stranger_request (Sample.world [])
                eq_refl) as H.
  destruct (addPost stranger_request (Sample.world [])) as [r w'] eqn:E.
  destruct H as (H1 & _ & H3). split; [ exact H1 | ].
  cbn [snd]. rewrite H3. unfold served_count.
  vm_compute in E. injection E as _ <-. reflexivity.
Defined.

(** Bob's loft is created as "oid0" and read back. *)
Lemma addPost_then_getPost_witness :
  exists resp w',
    addPost loft_request (Sample.world []) = (Ok resp, w') /\
    fst (getPost (Sample.reading "oid0") w')
      = Ok {| status := 200; json := json resp |}.
Proof.
  destruct (addPost loft_request (Sample.world [])) as [ [resp | e] w' ] eqn:E;
    [ | vm_compute in E; discriminate E ].
  exists resp, w'. split; [ reflexivity | ].
  apply (addPost_then_getPost loft_request (Sample.world []) resp w'
           (Sample.reading "oid0")).
  - reflexivity.
  - exact E.
  - vm_compute in E. injection E as <- _. reflexivity.
  - vm_compute in E. injection E as <- _. reflexivity.
  - vm_compute in E. injection E as _ <-. reflexivity.
Defined.

End Creating.

(* ================================================================== *)
(** ** Further properties: changing and removing *)

Module Changing.
Import JS Store Controller StoreFacts Spec Further.

Lemma revised_post_every_field old at_ data p :
  revised_post old at_ data = Some p ->
  identity p = identity old /\ Post.updatedAt p = at_ /\
  revise (Post.title old) (as_string (get data "title")) = Some (Post.title p) /\
  revise (Post.city old) (as_string (get data "city")) = Some (Post.city p) /\
  revise (Post.type old) (as_string (get data "type")) = Some (Post.type p) /\
  revise (Post.property old) (as_string (get data "property"))
    = Some (Post.property p) /\
  revise_optional (Post.address old) (as_string (get data "address"))
    = Some (Post.address p) /\
  revise_optional (Post.latitude old) (as_string (get data "latitude"))
    = Some (Post.latitude p) /\
  revise_optional (Post.longitude old) (as_string (get data "longitude"))
    = Some (Post.longitude p) /\
  revise (Post.images old) (as_strings (get data "images"))
    = Some (Post.images p).
Proof.
  unfold revised_post. intros H.
  destruct data; try discriminate H.
  destruct (only_keys _ fields); [ | discriminate H ].
  fields H. injection H as <-. cbn. repeat split; assumption.
Qed.

Lemma revised_text old v s :
  revise old (as_string v) = Some s ->
  match v with VUndefined => s = old | v => v = VStr s end.
Proof. destruct v; cbn; try discriminate; now intros [= <-]. Qed.

Lemma revised_optional_text old v s :
  revise_optional old (as_string v) = Some s ->
  match v with
  | VUndefined => s = old
  | VNull => s = None
  | v => exists t, v = VStr t /\ s = Some t
  end.
Proof. destruct v; cbn; try discriminate; intros [= <-]; eauto. Qed.

Lemma revised_images old v l :
  revise old (as_strings v) = Some l ->
  match v with VUndefined => l = old | v => v = VArr (map VStr l) end.
Proof.
  destruct v as [ | | | | | | xs | ]; cbn; try discriminate.
  - now intros [= <-].
  - destruct (strings_of xs) as [l' | ] eqn:S; cbn; [ | discriminate ].
    intros [= <-]. f_equal. now apply Creating.strings_of_map.
Qed.

Lemma updateData_texts body old at_ new :
  revised_post old at_ (updateData body) = Some new ->
  listing_texts body at_ old new.
Proof.
  intros H.
  apply revised_post_every_field in H
    as (_ & Hu & Ht & Hc & Hty & Hp & Ha & Hla & Hlo & Hi).
  cbn [get assoc updateData String.eqb Ascii.eqb Bool.eqb]
    in Ht, Hc, Hty, Hp, Ha, Hla, Hlo, Hi.
  apply revised_text in Ht, Hc, Hty, Hp.
  apply revised_optional_text in Ha, Hla, Hlo.
  apply revised_images in Hi.
  split; [ | split; [ | split; [ | exact Hu ] ] ].
  - intros k read [ [= <- <-] | [ [= <- <-] | [ [= <- <-] | [ [= <- <-] | [] ] ] ] ];
      [ same_field Ht | same_field Hc | same_field Hty | same_field Hp ].
  - intros k read [ [= <- <-] | [ [= <- <-] | [ [= <- <-] | [] ] ] ];
      [ same_field Ha | same_field Hla | same_field Hlo ].
  - same_field Hi.
Qed.

(** *** One listing replaced *)

Lemma replace_post_elsewhere p l :
  List.filter (fun q => negb (String.eqb (Post.id q) (Post.id p)))
    (replace_post p l)
  = List.filter (fun q => negb (String.eqb (Post.id q) (Post.id p))) l.
Proof.
  induction l as [ | a l IH ]; [ reflexivity | ]. cbn.
  destruct (String.eqb (Post.id a) (Post.id p)) eqn:E; cbn.
  - now rewrite String.eqb_refl.
  - now rewrite E, IH.
Qed.

Lemma replace_post_identity p l old :
  find (fun q => String.eqb (Post.id q) (Post.id p)) l = Some old ->
  identity p = identity old ->
  map identity (replace_post p l) = map identity l.
Proof.
  intros F I. induction l as [ | a l IH ]; [ reflexivity | ]. cbn in *.
  destruct (String.eqb (Post.id a) (Post.id p)).
  - injection F as ->. cbn. now rewrite I.
  - cbn. now rewrite IH.
Qed.

Lemma replace_detail_elsewhere x l :
  List.filter (fun y => negb (String.eqb (PostDetail.postId y) (PostDetail.postId x)))
    (replace_detail x l)
  = List.filter (fun y => negb (String.eqb (PostDetail.postId y) (PostDetail.postId x))) l.
Proof.
  induction l as [ | a l IH ]; [ reflexivity | ]. cbn.
  destruct (String.eqb (PostDetail.postId a) (PostDetail.postId x)) eqn:E; cbn.
  - now rewrite String.eqb_refl.
  - now rewrite E, IH.
Qed.

(** An upsert touches the details of its listing only. *)
Lemma upsert_elsewhere id u c w r w' :
  get c "postId" = VStr id ->
  prisma.postDetail.upsert id u c w = (r, w') ->
  posts (db w') = posts (db w) /\
  users (db w') = users (db w) /\
  conversations (db w') = conversations (db w) /\
  messages (db w') = messages (db w) /\
  elsewhere id (db w') = elsewhere id (db w).
Proof.
  intros Hc H. destruct r as [ [] | e ].
  2: { apply Mutate.upsert_throw in H as (-> & _). auto. }
  apply send_ok in H as (_ & w2 & H & ->).
  unfold upsert_detail in H. cbn [db with_faults] in H.
  destruct (find_detail (db w) id) as [old | ] eqn:F.
  - destruct (revised_detail old u) as [x | ] eqn:R; [ | discriminate H ].
    injection H as <-. cbn. repeat split.
    unfold elsewhere. cbn. f_equal.
    apply revised_detail_fields in R as (Px & _).
    apply Mutate.find_detail_postId in F. rewrite <- F, <- Px.
    apply replace_detail_elsewhere.
  - rewrite Hc in H. cbn [as_string required] in H.
    destruct (new_detail _ id c) as [x | ] eqn:N; [ | discriminate H ].
    injection H as <-. cbn. repeat split.
    unfold elsewhere. cbn. f_equal.
    apply new_detail_fields in N as (Px & _).
    rewrite filter_app. cbn. rewrite Px, String.eqb_refl. cbn.
    apply app_nil_r.
Qed.

(** An update touches its listing only, and not what it is known by. *)
Lemma update_elsewhere id data w r w' :
  prisma.post.update id data w = (r, w') ->
  users (db w') = users (db w) /\
  conversations (db w') = conversations (db w) /\
  messages (db w') = messages (db w) /\
  elsewhere id (db w') = elsewhere id (db w) /\
  map identity (posts (db w')) = map identity (posts (db w)).
Proof.
  intros H. destruct r as [ row | e ].
  2: { apply Mutate.update_throw in H as (-> & _). auto. }
  apply Mutate.update_ok in H
    as (old & new & F & R & P & D & U & C & M & _ & _).
  apply revised_post_every_field in R as (I & _).
  pose proof (Mutate.find_post_id _ _ _ F) as Io.
  assert (In_ : Post.id new = id).
  { unfold identity in I. injection I as -> _ _. exact Io. }
  repeat split; try assumption.
  - unfold elsewhere. rewrite P, D. f_equal. rewrite <- In_.
    apply replace_post_elsewhere.
  - rewrite P. apply replace_post_identity with (old := old); [ | exact I ].
    rewrite In_. exact F.
Qed.

(** X10.  [updatePost] touches one listing and its detail.  Whatever the
    request and the backend, the accounts, conversations and messages are
    as before, the listings and details of every other identifier are as
    before, and the listings are as many as before, in the same order, each
    with the identifier, owner and creation date it had: an edit never
    moves, adds, removes or hands over a listing. *)
Theorem updatePost_touches_one_listing (req : request) (w : World) :
  let '(r, w') := updatePost req w in
  users (db w') = users (db w) /\
  conversations (db w') = conversations (db w) /\
  messages (db w') = messages (db w) /\
  elsewhere (id req) (db w') = elsewhere (id req) (db w) /\
  map identity (posts (db w')) = map identity (posts (db w)).
Proof.
  rewrite Mutate.updatePost_run. cbv zeta. unfold failed.
  destruct (hd false (faults w)); [ cbn; auto | ].
  destruct (find_post (db w) (id req)) as [old | ]; [ | cbn; auto ].
  destruct (negb _); [ cbn; auto | ].
  assert (Rest : forall r2 w2,
            posts (db w2) = posts (db w) /\
            users (db w2) = users (db w) /\
            conversations (db w2) = conversations (db w) /\
            messages (db w2) = messages (db w) /\
            elsewhere (id req) (db w2) = elsewhere (id req) (db w) ->
            let '(r, w') :=
              match r2 : outcome unit with
              | Throw _ => (Ok {| status := 500;
                                  json := message "Failed to update post" |}, w2)
              | Ok _ =>
                  match prisma.post.update (id req)
                          (updateData (VObj (body req))) w2 with
                  | (Throw _, w3) =>
                      (Ok {| status := 500;
                             json := message "Failed to update post" |}, w3)
                  | (Ok row, w3) =>
                      match user row with
                      | Some u =>
                          (Ok {| status := 200;
                                 json := extend (full row)
                                   [("ownerInfo",
                                     ownerInfo u (Post.city (post row)))] |}, w3)
                      | None =>
                          (Ok {| status := 500;
                                 json := message "Failed to update post" |}, w3)
                      end
                  end
              end in
            users (db w') = users (db w) /\
            conversations (db w') = conversations (db w) /\
            messages (db w') = messages (db w) /\
            elsewhere (id req) (db w') = elsewhere (id req) (db w) /\
            map identity (posts (db w')) = map identity (posts (db w))).
  { intros r2 w2 (P & U & C & M & E).
    destruct r2 as [ [] | e ]; [ | rewrite P; auto ].
    destruct (prisma.post.update _ _ w2) as [r3 w3] eqn:Ud.
    apply update_elsewhere in Ud as (U3 & C3 & M3 & E3 & I3).
    assert (G : users (db w3) = users (db w) /\
                conversations (db w3) = conversations (db w) /\
                messages (db w3) = messages (db w) /\
                elsewhere (id req) (db w3) = elsewhere (id req) (db w) /\
                map identity (posts (db w3)) = map identity (posts (db w)))
      by (rewrite U3, C3, M3, E3, I3, P; auto).
    destruct r3 as [ row | e ]; [ destruct (user row) | ]; exact G. }
  destruct (truthy (get (VObj (body req)) "postDetail")).
  - destruct (prisma.postDetail.upsert _ _ _ _) as [r2 w2] eqn:Up.
    apply upsert_elsewhere in Up; [ | reflexivity ].
    apply (Rest r2 w2). exact Up.
  - apply (Rest (Ok tt)). cbn. auto.
Qed.


(** A successful [updatePost], in full. *)
Lemma updatePost_done req w resp w' :
  updatePost req w = (Ok resp, w') -> status resp = 200 ->
  exists old new u,
    find_post (db w) (id req) = Some old /\
    Post.userId old = userId req /\
    revised_post old (now w) (updateData (VObj (body req))) = Some new /\
    find_post (db w') (id req) = Some new /\
    find_user (db w') (Post.userId new) = Some u /\
    json resp = extend (full (included (db w') new))
                  [("ownerInfo", ownerInfo u (Post.city new))].
Proof.
  rewrite Mutate.updatePost_run. cbv zeta. unfold failed.
  destruct (hd false (faults w)); [ intros [= <- <-]; discriminate | ].
  destruct (find_post (db w) (id req)) as [old | ] eqn:F;
    [ | intros [= <- <-]; discriminate ].
  destruct (negb _) eqn:O; [ intros [= <- <-]; discriminate | ].
  apply negb_false_iff, String.eqb_eq in O.
  assert (Rest : forall w2,
            posts (db w2) = posts (db w) -> now w2 = now w ->
            match prisma.post.update (id req)
                    (updateData (VObj (body req))) w2 with
            | (Throw _, w3) =>
                (Ok {| status := 500;
                       json := message "Failed to update post" |}, w3)
            | (Ok row, w3) =>
                match user row with
                | Some u =>
                    (Ok {| status := 200;
                           json := extend (full row)
                             [("ownerInfo",
                               ownerInfo u (Post.city (post row)))] |}, w3)
                | None =>
                    (Ok {| status := 500;
                           json := message "Failed to update post" |}, w3)
                end
            end = (Ok resp, w') ->
            status resp = 200 ->
            exists new u,
              revised_post old (now w) (updateData (VObj (body req))) = Some new /\
              find_post (db w') (id req) = Some new /\
              find_user (db w') (Post.userId new) = Some u /\
              json resp = extend (full (included (db w') new))
                            [("ownerInfo", ownerInfo u (Post.city new))]).
  { intros w2 P N H S.
    destruct (prisma.post.update _ _ w2) as [ [row | e] w3 ] eqn:Ud;
      [ | injection H as <- <-; discriminate S ].
    apply Mutate.update_ok in Ud
      as (old' & new & F' & R & P' & _ & _ & _ & _ & -> & _).
    rewrite (Mutate.find_post_posts (db w) (db w2)), F in F' by exact P.
    injection F' as <-. rewrite N in R.
    cbn [user included post] in H.
    destruct (find_user (db w3) (Post.userId new)) as [u | ] eqn:U;
      injection H as <- <-; [ | discriminate S ].
    exists new, u. repeat split; try assumption.
    pose proof (revised_post_every_field _ _ _ _ R) as (I & _).
    pose proof (Mutate.find_post_id _ _ _ F) as Io.
    assert (In_ : Post.id new = id req).
    { unfold identity in I. injection I as -> _ _. exact Io. }
    unfold find_post in *. rewrite P', <- In_.
    apply find_replace_post. exists old. rewrite In_, P. exact F. }
  destruct (truthy (get (VObj (body req)) "postDetail")).
  - destruct (prisma.postDetail.upsert _ _ _ _) as [ [ [] | e ] w2 ] eqn:Up;
      [ | intros [= <- <-]; discriminate ].
    apply Mutate.upsert_ok in Up as (P & _ & _ & _ & N & _); [ | reflexivity ].
    intros H S. destruct (Rest w2 P N H S) as (new & u & G).
    exists old, new, u. auto.
  - intros H S.
    destruct (Rest (looked_up w (id req)) eq_refl eq_refl H S) as (new & u & G).
    exists old, new, u. auto.
Qed.

(** X11.  What an edit does to the texts.  When [updatePost] answers 200
    the listing of the identifier is the one of before with its texts
    revised from the body: a title, city, type or property the body holds
    is the string now stored, and one it does not hold is left as it was;
    an address or coordinate is replaced by the string given, cleared by
    [null] and left when absent; the images given replace the old ones; the
    date of change is the time of the request.  An answer of 200 therefore
    means that every text the body holds was a string (or, for the optional
    ones, [null]). *)
Theorem updatePost_text_fields (req : request) (w : World)
  (resp : response) (w' : World) :
  updatePost req w = (Ok resp, w') -> status resp = 200 ->
  exists old new,
    find_post (db w) (id req) = Some old /\
    find_post (db w') (id req) = Some new /\
    listing_texts (VObj (body req)) (now w) old new.
Proof.
  intros H S.
  destruct (updatePost_done _ _ _ _ H S) as (old & new & u & F & _ & R & F' & _).
  exists old, new. split; [ exact F | ]. split; [ exact F' | ].
  now apply updateData_texts.
Qed.

(** X12.  An edited listing reads back as the edit answered.  After
    [updatePost] answers 200, a [getPost] for the same identifier, its
    lookup served, answers 200 with the same body. *)
Theorem updatePost_then_getPost (req : request) (w : World)
  (resp : response) (w' : World) (req' : request) :
  updatePost req w = (Ok resp, w') -> status resp = 200 ->
  id req' = id req ->
  hd false (faults w') = false ->
  fst (getPost req' w') = Ok {| status := 200; json := json resp |}.
Proof.
  intros H S I F.
  destruct (updatePost_done _ _ _ _ H S) as (old & new & u & _ & _ & _ & F' & U & J).
  rewrite Listing.getPost_run, F, I, F', U, J. reflexivity.
Qed.

(** X13.  A removed listing is gone for every handler.  After
    [deletePost] answers 200, with the lookup served, reading, editing or
    removing the same identifier is answered 404 and changes nothing, and
    whatever the backend does no item [getPosts] returns has that
    identifier. *)
Theorem deletePost_then_gone (req : request) (w : World)
  (resp : response) (w' : World) (req' : request) :
  deletePost req w = (Ok resp, w') -> status resp = 200 ->
  id req' = id req ->
  (hd false (faults w') = false ->
   Forall (fun handler : request -> M response =>
             exists resp' w'',
               handler req' w' = (Ok resp', w'') /\ status resp' = 404 /\
               db w'' = db w')
     [getPost; updatePost; deletePost]) /\
  (forall item, In item (items (json_of (fst (getPosts req' w')))) ->
     get item "id" <> VStr (id req)).
Proof.
  intros H S I.
  assert (Gone : forall p, In p (posts (db w')) -> Post.id p <> id req).
  { rewrite Mutate.deletePost_run in H. unfold failed in H.
    destruct (hd false (faults w)); [ injection H as <- <-; discriminate S | ].
    destruct (find_post (db w) (id req)); [ | injection H as <- <-; discriminate S ].
    destruct (negb _); [ injection H as <- <-; discriminate S | ].
    destruct (prisma.post.delete _ _) as [ [ [] | e ] w2 ] eqn:D;
      injection H as <- <-; [ | discriminate S ].
    apply Mutate.delete_ok in D. rewrite D. cbn [erase posts].
    intros p. rewrite filter_In. intros (_ & N).
    now apply negb_true_iff, String.eqb_neq in N. }
  assert (F' : find_post (db w') (id req') = None).
  { rewrite I. unfold find_post.
    destruct (find _ _) as [p | ] eqn:E; [ | reflexivity ].
    apply find_some in E as (E1 & E2). apply String.eqb_eq in E2.
    now destruct (Gone p E1). }
  split.
  - intros F. repeat constructor.
    + rewrite Listing.getPost_run, F, F'. eauto.
    + rewrite Mutate.updatePost_run. cbv zeta. rewrite F, F'. eauto.
    + rewrite Mutate.deletePost_run, F, F'. eauto.
  - intros item. rewrite Listing.getPosts_run.
    assert (Rows : forall filter join w0 rows w1,
              db w0 = db w' ->
              prisma.post.findMany filter join w0 = (Ok rows, w1) ->
              forall r, In r rows -> Post.id (post r) <> id req).
    { intros filter join w0 rows w1 D0 E r Ir.
      apply Reads.findMany_rows in E as (keep & _ & Ps & _).
      apply Gone. rewrite <- D0.
      assert (Ip : In (post r) (map post rows)) by now apply in_map.
      rewrite Ps in Ip.
      apply (Permutation_in _ (Reads.newest_first_perm _)) in Ip.
      now apply filter_In in Ip. }
    destruct (prisma.post.findMany (Some _) true w') as [ [rows | e] w1 ] eqn:E1.
    + cbn. rewrite in_map_iff. intros (r & <- & Ir).
      intros [= E]. now apply (Rows _ _ _ _ _ eq_refl E1 r Ir).
    + apply Listing.findMany_throw in E1 as (_ & D1).
      destruct (prisma.post.findMany None false w1) as [ [rows | e'] w2 ] eqn:E2.
      * cbn. rewrite in_map_iff. intros (r & <- & Ir).
        intros [= E]. now apply (Rows _ _ _ _ _ D1 E2 r Ir).
      * cbn. intros [].
Qed.

(** Alice renames her flat and clears its address. *)
Lemma updatePost_text_fields_witness :
  exists new,
    find_post (db (snd (updatePost rename_edit (Sample.world [])))) "p1"
      = Some new /\
    Post.title new = "Flat A+" /\ Post.address new = None /\
    Post.images new = ["a.jpg"] /\ Post.city new = "Berlin".
Proof.
  destruct (updatePost rename_edit (Sample.world [])) as [ [resp | e] w' ] eqn:E;
    [ | vm_compute in E; discriminate E ].
  assert (S : status resp = 200)
    by (vm_compute in E; injection E as <- _; reflexivity).
  destruct (updatePost_text_fields _ _ _ _ E S)
    as (old & new & Fo & Fn & T1 & T2 & T3 & _).
  exists new. split; [ exact Fn | ].
  injection Fo as <-.
  pose proof (T1 "title" Post.title ltac:(cbn; auto)) as Ti.
  pose proof (T1 "city" Post.city ltac:(cbn; auto 6)) as Ci.
  pose proof (T2 "address" Post.address ltac:(cbn; auto)) as Ad.
  cbn in Ti, Ci, Ad, T3. injection Ti as <-.
  split; [ reflexivity | ]. split; [ exact Ad | ]. split; [ | exact Ci ].
  destruct (Post.images new) as [ | a [ | b l ] ]; try discriminate T3.
  now injection T3 as <-.
Defined.

Lemma updatePost_then_getPost_witness :
  exists resp w',
    updatePost rename_edit (Sample.world []) = (Ok resp, w') /\
    fst (getPost (Sample.reading "p1") w')
      = Ok {| status := 200; json := json resp |}.
Proof.
  destruct (updatePost rename_edit (Sample.world [])) as [ [resp | e] w' ] eqn:E;
    [ | vm_compute in E; discriminate E ].
  exists resp, w'. split; [ reflexivity | ].
  apply (updatePost_then_getPost rename_edit (Sample.world []) resp w'
           (Sample.reading "p1") E).
  - vm_compute in E. injection E as <- _. reflexivity.
  - reflexivity.
  - vm_compute in E. injection E as _ <-. reflexivity.
Defined.

(** Alice removes her flat; it cannot be read, edited or removed again. *)
Lemma deletePost_then_gone_witness :
  exists w',
    snd (deletePost (Sample.removal "u1") (Sample.world [])) = w' /\
    Forall (fun handler : request -> M response =>
              exists resp' w'',
                handler (Sample.removal "u1") w' = (Ok resp', w'') /\
                status resp' = 404 /\ db w'' = db w')
      [getPost; updatePost; deletePost].
Proof.
  destruct (deletePost (Sample.removal "u1") (Sample.world []))
    as [ [resp | e] w' ] eqn:E; [ | vm_compute in E; discriminate E ].
  exists w'. split; [ reflexivity | ].
  apply (deletePost_then_gone (Sample.removal "u1") (Sample.world []) resp w'
           (Sample.removal "u1") E).
  - vm_compute in E. injection E as <- _. reflexivity.
  - reflexivity.
  - vm_compute in E. injection E as _ <-. reflexivity.
Defined.

End Changing.

(* ================================================================== *)
(** ** Further properties: the answers *)

Module Answers.
Import JS Store Controller StoreFacts Spec Further.

Lemma update_log id data w r w' :
  prisma.post.update id data w = (r, w') ->
  exists b, log w' = log w ++ [{| what := Update id data; served := b |}] /\
            (b = false <-> exists e, r = Throw e).
Proof.
  intros H. destruct r as [row | e].
  - apply Mutate.update_ok in H as (_ & _ & _ & _ & _ & _ & _ & _ & _ & _ & L).
    exists true. split; [ exact L | ].
    split; [ discriminate | intros (e & [=]) ].
  - apply Mutate.update_throw in H as (_ & L).
    exists false. split; [ exact L | ]. split; eauto.
Qed.

Lemma upsert_log id u c w r w' :
  get c "postId" = VStr id ->
  prisma.postDetail.upsert id u c w = (r, w') ->
  exists b, log w' = log w ++ [{| what := Upsert id u c; served := b |}] /\
            (b = false <-> exists e, r = Throw e).
Proof.
  intros Hc H. destruct r as [ [] | e].
  - apply Mutate.upsert_ok in H as (_ & _ & _ & _ & _ & L & _); [ | exact Hc ].
    exists true. split; [ exact L | ].
    split; [ discriminate | intros (e & [=]) ].
  - apply Mutate.upsert_throw in H as (_ & L).
    exists false. split; [ exact L | ]. split; eauto.
Qed.

Lemma delete_log id w r w' :
  prisma.post.delete id w = (r, w') ->
  exists b, log w' = log w ++ [{| what := Delete id; served := b |}] /\
            (b = false <-> exists e, r = Throw e).
Proof.
  intros H. destruct r as [ [] | e].
  - apply send_ok in H as (_ & w2 & R & ->).
    unfold delete_post in R. cbn [db with_faults] in R.
    destruct (find_post (db w) id); [ | discriminate R ].
    injection R as <-. exists true. split; [ reflexivity | ].
    split; [ discriminate | intros (e & [=]) ].
  - apply send_throw in H as ->.
    exists false. split; [ reflexivity | ]. split; eauto.
Qed.

(** X14.  No handler lets a failure escape.  Whatever the request and
    the backend, each handler answers, and with one of its own codes:
    [addPost] 201, 400 or 500; [getPost] 200, 404 or 500; [updatePost] and
    [deletePost] 200, 403, 404 or 500. *)
Theorem handlers_always_answer (req : request) (w : World) :
  answers (fst (addPost req w)) [201; 400; 500] /\
  answers (fst (getPost req w)) [200; 404; 500] /\
  answers (fst (updatePost req w)) [200; 403; 404; 500] /\
  answers (fst (deletePost req w)) [200; 403; 404; 500].
Proof.
  unfold answers. split; [ | split; [ | split ] ].
  - rewrite Create.addPost_run. cbv zeta.
    destruct (_ || _); [ cbn; eauto 6 | ].
    assert (A : forall w0 r w1,
              attempt (createData (VObj (body req)) (userId req)) w0 = (r, w1) ->
              match r with Ok resp => status resp = 201 | Throw _ => True end).
    { intros w0 r w1 A.
      apply Creating.attempt_grows in A
        as (_ & [ (p & ds & _ & _ & _ & _ & _ & ->) | (_ & _ & _ & e & ->) ]);
        [ | exact I ].
      now destruct (find_user _ _). }
    destruct (attempt _ w) as [ [resp | e] w1 ] eqn:A1.
    + apply A in A1. cbn. rewrite <- A1. eexists. split; [ reflexivity | ].
      rewrite A1. cbn. auto.
    + destruct (attempt _ w1) as [ [resp | e2] w2 ] eqn:A2.
      * apply A in A2. cbn. eexists. split; [ reflexivity | ].
        rewrite A2. cbn. auto.
      * cbn. eauto 6.
  - rewrite Listing.getPost_run. unfold failed.
    destruct (hd false (faults w)); [ cbn; eauto 6 | ].
    destruct (find_post (db w) (id req)) as [p | ]; [ | cbn; eauto 6 ].
    destruct (find_user (db w) (Post.userId p)); cbn; eauto 6.
  - rewrite Mutate.updatePost_run. cbv zeta. unfold failed.
    destruct (hd false (faults w)); [ cbn; eauto 7 | ].
    destruct (find_post (db w) (id req)) as [p | ]; [ | cbn; eauto 7 ].
    destruct (negb _); [ cbn; eauto 7 | ].
    destruct (if truthy _ then _ else _) as [ [ [] | e ] w2 ]; [ | cbn; eauto 7 ].
    destruct (prisma.post.update _ _ w2) as [ [row | e] w3 ]; [ | cbn; eauto 7 ].
    destruct (user row); cbn; eauto 7.
  - rewrite Mutate.deletePost_run. unfold failed.
    destruct (hd false (faults w)); [ cbn; eauto 7 | ].
    destruct (find_post (db w) (id req)) as [p | ]; [ | cbn; eauto 7 ].
    destruct (negb _); [ cbn; eauto 7 | ].
    destruct (prisma.post.delete _ _) as [ [ [] | e ] w2 ]; cbn; eauto 7.
Qed.

(** X15.  A request that fails ends the handler with 500.  In
    [getPost], [updatePost] and [deletePost], when one of the requests
    sent to the storage was not served, the answer is 500 and that request
    is the last one sent: every request before it was served and none
    follows it. *)
Theorem a_failed_request_is_answered_500 (req : request) (w : World) :
  Forall (fun handler : request -> M response =>
            let '(r, w') := handler req w in
            existsb unserved (sent w w') = true ->
            (exists resp, r = Ok resp /\ status resp = 500) /\
            forallb served (removelast (sent w w')) = true)
    [getPost; updatePost; deletePost].
Proof.
  assert (L0 : log (looked_up w (id req))
               = log w ++ [{| what := FindUnique (id req); served := true |}])
    by reflexivity.
  assert (Lf : log (with_log (with_faults w (tl (faults w)))
                      (log w ++ [{| what := FindUnique (id req);
                                    served := false |}]))
               = log w ++ [{| what := FindUnique (id req); served := false |}])
    by reflexivity.
  repeat constructor.
  - rewrite Listing.getPost_run. unfold failed.
    destruct (hd false (faults w)).
    { rewrite (Mutate.sent_one w _ _ Lf). cbn. eauto. }
    destruct (find_post (db w) (id req)) as [p | ];
      [ destruct (find_user (db w) (Post.userId p)) | ];
      rewrite (Mutate.sent_one w _ _ L0); cbn; try discriminate; eauto.
  - rewrite Mutate.updatePost_run. cbv zeta. unfold failed.
    destruct (hd false (faults w)).
    { rewrite (Mutate.sent_one w _ _ Lf). cbn. eauto. }
    destruct (find_post (db w) (id req)) as [p | ];
      [ | rewrite (Mutate.sent_one w _ _ L0); cbn; discriminate ].
    destruct (negb _);
      [ rewrite (Mutate.sent_one w _ _ L0); cbn; discriminate | ].
    assert (Rest : forall w2 evs,
              log w2 = log w ++ evs -> forallb served evs = true ->
              let '(r, w') :=
                match prisma.post.update (id req)
                        (updateData (VObj (body req))) w2 with
                | (Throw _, w3) =>
                    (Ok {| status := 500;
                           json := message "Failed to update post" |}, w3)
                | (Ok row, w3) =>
                    match user row with
                    | Some u =>
                        (Ok {| status := 200;
                               json := extend (full row)
                                 [("ownerInfo",
                                   ownerInfo u (Post.city (post row)))] |}, w3)
                    | None =>
                        (Ok {| status := 500;
                               json := message "Failed to update post" |}, w3)
                    end
                end in
              existsb unserved (sent w w') = true ->
              (exists resp, r = Ok resp /\ status resp = 500) /\
              forallb served (removelast (sent w w')) = true).
    { intros w2 evs L S.
      destruct (prisma.post.update _ _ w2) as [r3 w3] eqn:Ud.
      apply update_log in Ud as (b & L3 & B).
      assert (Sent : sent w w3
                     = evs ++ [{| what := Update (id req)
                                            (updateData (VObj (body req)));
                                  served := b |}]).
      { apply Create.sent_app. rewrite L3, L. now rewrite <- app_assoc. }
      assert (Good : forallb served (removelast (sent w w3)) = true)
        by (rewrite Sent, removelast_last; exact S).
      assert (Bad : existsb unserved (sent w w3) = true -> b = false).
      { rewrite Sent, existsb_app.
        destruct b; [ | reflexivity ]. cbn. rewrite orb_false_r.
        intros E. exfalso.
        apply existsb_exists in E as (ev & I & U).
        rewrite forallb_forall in S. unfold unserved in U.
        now rewrite (S ev I) in U. }
      destruct r3 as [row | e].
      - destruct (user row); intros E; (split; [ | exact Good ]); [ | eauto ].
        apply Bad, B in E as (e & [=]).
      - intros _. split; [ eauto | exact Good ]. }
    destruct (truthy (get (VObj (body req)) "postDetail")).
    + destruct (prisma.postDetail.upsert _ _ _ _) as [r2 w2] eqn:Up.
      apply upsert_log in Up as (b & L2 & B); [ | reflexivity ].
      destruct r2 as [ [] | e ].
      * destruct b; [ | destruct (proj1 B eq_refl) as (e & [=]) ].
        eapply (Rest w2).
        -- rewrite L2, L0, <- app_assoc. reflexivity.
        -- reflexivity.
      * intros _. split; [ eauto | ].
        erewrite (Create.sent_app w w2)
          by (rewrite L2, L0, <- app_assoc; reflexivity).
        reflexivity.
    + apply (Rest (looked_up w (id req))
               [{| what := FindUnique (id req); served := true |}]);
        [ exact L0 | reflexivity ].
  - rewrite Mutate.deletePost_run. unfold failed.
    destruct (hd false (faults w)).
    { rewrite (Mutate.sent_one w _ _ Lf). cbn. eauto. }
    destruct (find_post (db w) (id req)) as [p | ];
      [ | rewrite (Mutate.sent_one w _ _ L0); cbn; discriminate ].
    destruct (negb _);
      [ rewrite (Mutate.sent_one w _ _ L0); cbn; discriminate | ].
    destruct (prisma.post.delete _ _) as [r2 w2] eqn:D.
    apply delete_log in D as (b & L2 & B).
    assert (Sent : sent w w2
                   = [{| what := FindUnique (id req); served := true |};
                      {| what := Delete (id req); served := b |}])
      by (apply Create.sent_app; rewrite L2, L0, <- app_assoc; reflexivity).
    destruct r2 as [ [] | e ]; rewrite Sent; cbn.
    + destruct b; [ discriminate | destruct (proj1 B eq_refl) as (e & [=]) ].
    + eauto.
Qed.

(** X16.  A listing whose owner is no account is listed and cannot be
    read.  With the requests served, [getPost] answers 500 for it, while
    [getPosts], when its filter accepts the listing, returns an item for it
    with no [user] and the "unknown user" projection in the place of the
    owner. *)
Theorem ownerless_listing_is_listed_not_read (req : request) (w : World)
  (p : Post.t) (keep : Post.t -> bool) :
  hd false (faults w) = false ->
  find_post (db w) (id req) = Some p ->
  find_user (db w) (Post.userId p) = None ->
  compile_where (buildWhere (VObj (query req))) = Some keep ->
  keep p = true ->
  fst (getPost req w)
    = Ok {| status := 500; json := message "Failed to get post" |} /\
  exists item,
    In item (items (json_of (fst (getPosts req w)))) /\
    get item "id" = VStr (Post.id p) /\
    get item "user" = VNull /\
    get item "ownerInfo"
      = unknownOwner (now_iso w) (or_text (Post.city p) "Unknown City").
Proof.
  intros F Fp Fu C K. split.
  - rewrite Listing.getPost_run, F, Fp, Fu. reflexivity.
  - rewrite Listing.getPosts_run.
    destruct (prisma.post.findMany (Some _) true w) as [ [rows | e] w1 ] eqn:E.
    + pose proof (Listing.findMany_ok _ _ _ _ _ E) as (N & _ & _).
      apply Reads.findMany_rows in E as (keep' & K' & R & U).
      rewrite C in K'. injection K' as <-.
      assert (Ip : In p (map post rows)).
      { rewrite R.
        apply (Permutation_in _ (Permutation_sym (Reads.newest_first_perm _))).
        apply filter_In. split; [ | exact K ].
        unfold find_post in Fp. now apply find_some in Fp. }
      apply in_map_iff in Ip as (r & <- & Ir).
      rewrite Forall_forall in U. specialize (U r Ir). rewrite Fu in U.
      exists (transformedPost (now_iso w1) r). cbn [fst json_of json items].
      split; [ now apply in_map | ].
      unfold transformedPost. rewrite U, N. repeat split.
    + exfalso. unfold prisma.post.findMany, send in E. rewrite F in E.
      unfold find_many in E. rewrite C in E. discriminate E.
Qed.

(** X25.  An edit that fails can leave its detail written.  When a
    request of [updatePost] is not served, the listings of the store are
    all as before; but when the detail was written by then, it stays in the
    store, with the metrics of the request: the two writes are not undone
    together. *)
Theorem updatePost_is_not_atomic (req : request) (w : World) :
  let '(r, w') := updatePost req w in
  existsb unserved (sent w w') = true ->
  posts (db w') = posts (db w) /\
  (existsb upserted (sent w w') = true ->
   exists x, find_detail (db w') (id req) = Some x /\
             detail_numbers (get (VObj (body req)) "postDetail") x).
Proof.
  pose proof (Mutate.updatePost_effects req w) as E. cbv zeta in E.
  revert E. rewrite Mutate.updatePost_run. cbv zeta. unfold failed.
  assert (L0 : log (looked_up w (id req))
               = log w ++ [{| what := FindUnique (id req); served := true |}])
    by reflexivity.
  destruct (hd false (faults w)).
  { intros (_ & D & _) _. split; [ reflexivity | exact D ]. }
  destruct (find_post (db w) (id req)) as [p | ];
    [ | intros (_ & D & _) _; split; [ reflexivity | exact D ] ].
  destruct (negb _);
    [ intros (_ & D & _) _; split; [ reflexivity | exact D ] | ].
  assert (Rest : forall w2 evs,
            posts (db w2) = posts (db w) ->
            log w2 = log w ++ evs -> forallb served evs = true ->
            let '(r, w') :=
              match prisma.post.update (id req)
                      (updateData (VObj (body req))) w2 with
              | (Throw _, w3) =>
                  (Ok {| status := 500;
                         json := message "Failed to update post" |}, w3)
              | (Ok row, w3) =>
                  match user row with
                  | Some u =>
                      (Ok {| status := 200;
                             json := extend (full row)
                               [("ownerInfo",
                                 ownerInfo u (Post.city (post row)))] |}, w3)
                  | None =>
                      (Ok {| status := 500;
                             json := message "Failed to update post" |}, w3)
                  end
              end in
            existsb unserved (sent w w') = true ->
            posts (db w') = posts (db w)).
  { intros w2 evs P L S.
    destruct (prisma.post.update _ _ w2) as [r3 w3] eqn:Ud.
    pose proof (update_log _ _ _ _ _ Ud) as (b & L3 & B).
    assert (Sent : sent w w3
                   = evs ++ [{| what := Update (id req)
                                          (updateData (VObj (body req)));
                                served := b |}]).
    { apply Create.sent_app. rewrite L3, L. now rewrite <- app_assoc. }
    assert (Bad : existsb unserved (sent w w3) = true -> b = false).
    { rewrite Sent, existsb_app.
      destruct b; [ | reflexivity ]. cbn. rewrite orb_false_r.
      intros E. exfalso.
      apply existsb_exists in E as (ev & I & U).
      rewrite forallb_forall in S. unfold unserved in U.
      now rewrite (S ev I) in U. }
    assert (Kept : existsb unserved (sent w w3) = true ->
                   posts (db w3) = posts (db w)).
    { intros E. apply Bad, B in E as (e & ->).
      apply Mutate.update_throw in Ud as (-> & _). exact P. }
    destruct r3 as [row | e]; [ destruct (user row) | ]; exact Kept. }
  destruct (truthy (get (VObj (body req)) "postDetail")).
  - destruct (prisma.postDetail.upsert _ _ _ _) as [r2 w2] eqn:Up.
    pose proof Up as Up'.
    apply Changing.upsert_elsewhere in Up' as (P & _); [ | reflexivity ].
    apply upsert_log in Up as (b & L2 & B); [ | reflexivity ].
    destruct r2 as [ [] | e ].
    + destruct b; [ | destruct (proj1 B eq_refl) as (e & [=]) ].
      assert (R := Rest w2 _ P
                     ltac:(rewrite L2, L0, <- app_assoc; reflexivity) eq_refl).
      destruct (prisma.post.update _ _ w2) as [ [row | e] w3 ];
        [ destruct (user row) | ];
        intros (_ & D & _) U; (split; [ exact (R U) | exact D ]).
    + intros (_ & D & _) _. split; [ exact P | exact D ].
  - assert (R := Rest (looked_up w (id req)) _ eq_refl L0 eq_refl).
    destruct (prisma.post.update _ _ _) as [ [row | e] w3 ];
      [ destruct (user row) | ];
      intros (_ & D & _) U; (split; [ exact (R U) | exact D ]).
Qed.

(** The detail is written, the update fails: the flat has its new size
    and its old price. *)
Lemma updatePost_is_not_atomic_witness :
  let '(r, w') := updatePost Sample.full_edit (Sample.world [false; false; true]) in
  posts (db w') = posts (db (Sample.world [false; false; true])) /\
  option_map PostDetail.size (find_detail (db w') "p1") = Some (Some 85).
Proof.
  pose proof (updatePost_is_not_atomic Sample.full_edit
                (Sample.world [false; false; true])) as H.
  destruct (updatePost Sample.full_edit (Sample.world [false; false; true]))
    as [r w'] eqn:E.
  assert (U : existsb unserved (sent (Sample.world [false; false; true]) w') = true)
    by (vm_compute in E; injection E as _ <-; reflexivity).
  assert (V : existsb upserted (sent (Sample.world [false; false; true]) w') = true)
    by (vm_compute in E; injection E as _ <-; reflexivity).
  destruct (H U) as (P & D). destruct (D V) as (x & X & S & _).
  split; [ exact P | ].
  change (id Sample.full_edit) with "p1" in X. rewrite X. cbn [option_map].
  destruct (S eq_refl) as (n & N & ->). cbn in N. now injection N as <-.
Defined.

(** The lookup is served and the update fails: 500. *)
Lemma a_failed_request_is_answered_500_witness :
  exists resp,
    fst (updatePost Sample.studio_edit (Sample.world [false; true])) = Ok resp /\
    status resp = 500.
Proof.
  pose proof (a_failed_request_is_answered_500 Sample.studio_edit
                (Sample.world [false; true])) as H.
  apply Forall_inv_tail, Forall_inv in H.
  destruct (updatePost Sample.studio_edit (Sample.world [false; true]))
    as [r w'] eqn:E.
  apply H. vm_compute in E. injection E as _ <-. reflexivity.
Defined.

(** The loft of the account that is gone. *)
Lemma ownerless_listing_is_listed_not_read_witness :
  fst (getPost (Sample.reading "p3") (Sample.with_orphan (Sample.world [])))
    = Ok {| status := 500; json := message "Failed to get post" |} /\
  exists item,
    In item (items (json_of (fst (getPosts (Sample.reading "p3")
                                    (Sample.with_orphan (Sample.world []))))))
    /\ get item "id" = VStr "p3"
    /\ get (get item "ownerInfo") "username" = VStr "Unknown User".
Proof.
  destruct (ownerless_listing_is_listed_not_read (Sample.reading "p3")
              (Sample.with_orphan (Sample.world [])) Sample.orphan
              (fun _ => true) eq_refl eq_refl eq_refl eq_refl eq_refl)
    as (G & item & I & Id & _ & O).
  split; [ exact G | ].
  exists item. split; [ exact I | ]. split; [ exact Id | ].
  rewrite O. reflexivity.
Defined.

End Answers.

(* ================================================================== *)
(** ** Further properties: the diagnostic routes *)

Module RouterFacts.
Import JS Store Controller StoreFacts Spec Further Router.

(** *** Counting *)

Lemma reach_run {A} (read : DB -> A) w :
  reach read w =
    (if hd false (faults w) then Throw "storage fault" else Ok (read (db w)),
     with_faults w (tl (faults w))).
Proof. unfold reach. now destruct (hd false (faults w)). Qed.

Lemma db_stats_run NODE_ENV stack w :
  exists w',
    db w' = db w /\ log w' = log w /\
    db_stats NODE_ENV stack w =
      (if forallb negb (firstn 5 (faults w)) then
         Ok {| status := 200;
               json := VObj [("status", VStr "connected");
                             ("collections",
                               VObj [("users", int (Z.of_nat (length (users (db w)))));
                                     ("posts", int (Z.of_nat (length (posts (db w)))));
                                     ("conversations",
                                       int (Z.of_nat (length (conversations (db w)))));
                                     ("messages",
                                       int (Z.of_nat (length (messages (db w)))))])] |}
       else
         Ok {| status := 500;
               json := VObj [("status", VStr "error");
                             ("message", VStr "storage fault");
                             ("stack", if negb (production NODE_ENV)
                                       then VStr (stack "storage fault")
                                       else VUndefined)] |},
       w').
Proof.
  unfold db_stats, try, bind, connect, count. rewrite !reach_run.
  cbn [faults with_faults db log fst snd].
  destruct (faults w) as [ | [] [ | [] [ | [] [ | [] [ | [] fs ] ] ] ] ];
    cbn; eexists; (split; [ | split; [ | reflexivity ] ]); reflexivity.
Qed.

(** X17.  [/db-stats] answers from five requests and changes nothing.
    When the connection and the four counts are served it answers 200
    "connected" with the number of accounts, listings, conversations and
    messages of the store, and no count of the listing details; when one
    of the five fails it answers 500 "error" with the message of the
    failure, and with the trace of the error unless [NODE_ENV] is
    "production".  It never throws, and leaves the store and the
    controller's requests as they were. *)
Theorem db_stats_counts_the_collections (NODE_ENV : option string)
  (stack : string -> string) (w : World) :
  let '(r, w') := db_stats NODE_ENV stack w in
  db w' = db w /\ log w' = log w /\
  exists resp, r = Ok resp /\
    if forallb negb (firstn 5 (faults w)) then
      status resp = 200 /\
      get (json resp) "status" = VStr "connected" /\
      get (get (json resp) "collections") "users"
        = int (Z.of_nat (length (users (db w)))) /\
      get (get (json resp) "collections") "posts"
        = int (Z.of_nat (length (posts (db w)))) /\
      get (get (json resp) "collections") "conversations"
        = int (Z.of_nat (length (conversations (db w)))) /\
      get (get (json resp) "collections") "messages"
        = int (Z.of_nat (length (messages (db w)))) /\
      get (get (json resp) "collections") "postDetails" = VUndefined
    else
      status resp = 500 /\
      get (json resp) "status" = VStr "error" /\
      get (json resp) "message" = VStr "storage fault" /\
      (get (json resp) "stack" = VUndefined <-> NODE_ENV = Some "production").
Proof.
  destruct (db_stats_run NODE_ENV stack w) as (w' & D & L & ->).
  split; [ exact D | ]. split; [ exact L | ].
  destruct (forallb negb (firstn 5 (faults w)));
    (eexists; split; [ reflexivity | ]).
  - cbn. repeat split.
  - cbn. repeat split.
    + unfold production. destruct NODE_ENV as [mode | ]; cbn.
      * destruct (String.eqb mode "production") eqn:E; cbn; [ | discriminate ].
        apply String.eqb_eq in E. now subst.
      * discriminate.
    + intros ->. reflexivity.
Qed.

(** X18.  The count of [/db-stats] is the length of the unfiltered
    list.  When [/db-stats] answers 200, a [getPosts] with no query
    parameter that follows it, its query served, returns as many items as
    the listings counted. *)
Theorem db_stats_counts_what_getPosts_lists (NODE_ENV : option string)
  (stack : string -> string) (w : World) (resp : response) (w' : World)
  (req : request) :
  db_stats NODE_ENV stack w = (Ok resp, w') -> status resp = 200 ->
  query req = [] -> hd false (faults w') = false ->
  get (get (json resp) "collections") "posts"
    = int (Z.of_nat (length (items (json_of (fst (getPosts req w')))))).
Proof.
  intros H S Q F.
  destruct (db_stats_run NODE_ENV stack w) as (w1 & D & _ & E).
  rewrite E in H. clear E.
  destruct (forallb negb (firstn 5 (faults w)));
    injection H as <- <-; [ | discriminate S ].
  cbn [json get assoc String.eqb Ascii.eqb Bool.eqb].
  rewrite Listing.getPosts_run, Q.
  destruct (prisma.post.findMany (Some _) true w1) as [ [rows | e] w2 ] eqn:E.
  - apply Reads.findMany_rows in E as (keep & K & R & _).
    injection K as <-. cbn [fst json_of json items].
    rewrite length_map, <- (length_map post rows), R.
    rewrite (Permutation_length (Reads.newest_first_perm _)).
    rewrite D. do 3 f_equal. induction (posts (db w)) as [ | p l IH ];
      [ reflexivity | ]. cbn. now rewrite <- IH.
  - exfalso. unfold prisma.post.findMany, send in E. rewrite F in E.
    discriminate E.
Qed.

Lemma db_stats_counts_what_getPosts_lists_witness :
  exists resp w',
    db_stats None (fun message => message) (Sample.world []) = (Ok resp, w') /\
    get (get (json resp) "collections") "posts"
      = int (Z.of_nat (length (items (json_of (fst (getPosts Sample.everything w')))))).
Proof.
  destruct (db_stats None (fun message => message) (Sample.world []))
    as [ [resp | e] w' ] eqn:E; [ | vm_compute in E; discriminate E ].
  exists resp, w'. split; [ reflexivity | ].
  apply (db_stats_counts_what_getPosts_lists _ _ _ _ _ _ E).
  - vm_compute in E. injection E as <- _. reflexivity.
  - reflexivity.
  - vm_compute in E. injection E as _ <-. reflexivity.
Defined.

(** *** The token of a request *)

Lemma split_spaceless s : spaceless s = true -> split " " s = [s].
Proof.
  induction s as [ | c s IH ]; [ reflexivity | ]. cbn [spaceless split].
  intros H. apply andb_true_iff in H as (C & S).
  apply negb_true_iff in C. rewrite C, (IH S). reflexivity.
Qed.

Lemma split_word a s :
  spaceless a = true -> split " " (a ++ String " " s)%string = a :: split " " s.
Proof.
  induction a as [ | c a IH ]; [ reflexivity | ].
  cbn [spaceless split append]. intros H. apply andb_true_iff in H as (C & S).
  apply negb_true_iff in C. rewrite C, (IH S). reflexivity.
Qed.

Lemma bearer_second scheme token :
  spaceless scheme = true -> spaceless token = true ->
  bearer (Some (scheme ++ " " ++ token)%string) = VStr token.
Proof.
  intros S T. unfold bearer.
  change (scheme ++ " " ++ token)%string with (scheme ++ String " " token)%string.
  now rewrite (split_word _ _ S), (split_spaceless _ T).
Qed.

Lemma bearer_second_of_more scheme token rest :
  spaceless scheme = true -> spaceless token = true ->
  bearer (Some (scheme ++ " " ++ token ++ " " ++ rest)%string) = VStr token.
Proof.
  intros S T. unfold bearer.
  change (scheme ++ " " ++ token ++ " " ++ rest)%string
    with (scheme ++ String " " (token ++ String " " rest))%string.
  now rewrite (split_word _ _ S), (split_word _ _ T).
Qed.

Lemma auth_check_bearer verify a b :
  bearer a = bearer b -> auth_check verify a = auth_check verify b.
Proof. unfold auth_check. now intros ->. Qed.

(** X19.  [/auth-check] reads the second word of the header and nothing
    else.  Whatever stands before the first blank, "Bearer" or not, and
    whatever follows the second, the answer is the one for "Bearer" and
    the word between them. *)
Theorem auth_check_reads_the_second_word (verify : string -> outcome value)
  (scheme token rest : string) :
  spaceless scheme = true -> spaceless token = true ->
  auth_check verify (Some (scheme ++ " " ++ token)%string)
    = auth_check verify (Some ("Bearer " ++ token)%string) /\
  auth_check verify (Some (scheme ++ " " ++ token ++ " " ++ rest)%string)
    = auth_check verify (Some ("Bearer " ++ token)%string).
Proof.
  intros S T.
  assert (B : bearer (Some ("Bearer " ++ token)%string) = VStr token)
    by (apply (bearer_second "Bearer" token); [ reflexivity | exact T ]).
  split; apply auth_check_bearer; rewrite B.
  - now apply bearer_second.
  - now apply bearer_second_of_more.
Qed.

Lemma auth_check_reads_the_second_word_witness :
  auth_check (one_token "abc" (VObj [("userId", VStr "u1")]))
    (Some "Basic abc and more")
  = auth_check (one_token "abc" (VObj [("userId", VStr "u1")]))
      (Some "Bearer abc").
Proof.
  apply (auth_check_reads_the_second_word _ "Basic" "abc" "and more");
    reflexivity.
Defined.

(** X20.  [/auth-check] answers 200 for a verified token only.  The
    answer is 200 or 401.  It is 200 only when the header has a second
    word, not empty, that the verifier accepts, and the identifier
    returned is then the first truthy of [id], [_id] and [userId] of the
    decoded payload.  A request with no header, or with a header that has
    no blank, is answered 401 "No token provided" whatever the verifier
    would say. *)
Theorem auth_check_accepts_verified_tokens_only
  (verify : string -> outcome value) (authorization : option string) :
  let resp := auth_check verify authorization in
  (status resp = 200 \/ status resp = 401) /\
  (status resp = 200 ->
   exists header token decoded,
     authorization = Some header /\
     nth_error (split " " header) 1 = Some token /\ token <> "" /\
     verify token = Ok decoded /\
     get (get (json resp) "user") "id"
       = or (or (get decoded "id") (get decoded "_id")) (get decoded "userId")) /\
  ((forall header, authorization = Some header -> spaceless header = true) ->
   resp = {| status := 401;
             json := VObj [("status", VStr "error");
                           ("message", VStr "No token provided")] |}).
Proof.
  cbv zeta. unfold auth_check, bearer.
  destruct authorization as [header | ].
  2: { cbn. split; [ auto | ]. split; [ discriminate | reflexivity ]. }
  split; [ | split ].
  - destruct (nth_error _ 1) as [token | ]; [ | cbn; auto ].
    destruct (negb _); [ cbn; auto | ].
    destruct (verify token) as [decoded | m]; [ | cbn; auto ].
    destruct (property decoded "id"); cbn; auto.
  - destruct (nth_error _ 1) as [token | ] eqn:N; [ | discriminate ].
    destruct (negb _) eqn:T; [ discriminate | ].
    destruct (verify token) as [decoded | m] eqn:V; [ | discriminate ].
    destruct (property decoded "id"); [ | discriminate ].
    intros _. exists header, token, decoded.
    split; [ reflexivity | ]. split; [ exact N | ].
    split; [ | split; [ exact V | reflexivity ] ].
    intros ->. discriminate T.
  - intros H. rewrite (split_spaceless header (H header eq_refl)). reflexivity.
Qed.

Lemma auth_check_accepts_verified_tokens_only_witness :
  exists header token decoded,
    Some "Bearer abc" = Some header /\
    nth_error (split " " header) 1 = Some token /\ token <> "" /\
    one_token "abc" (VObj [("userId", VStr "u1")]) token = Ok decoded /\
    get (get (json (auth_check (one_token "abc" (VObj [("userId", VStr "u1")]))
                      (Some "Bearer abc"))) "user") "id"
      = or (or (get decoded "id") (get decoded "_id")) (get decoded "userId").
Proof.
  apply (proj1 (proj2 (auth_check_accepts_verified_tokens_only
                         (one_token "abc" (VObj [("userId", VStr "u1")]))
                         (Some "Bearer abc")))).
  reflexivity.
Defined.

End RouterFacts.

(* ================================================================== *)
(** ** Further properties: the session of the client *)

Module SessionFacts.
Import JS Store Session.

(** *** Object literals *)

Lemma assoc_put_same k v fs : assoc k (put k v fs) = Some v.
Proof.
  induction fs as [ | [a x] fs IH ]; cbn.
  - now rewrite String.eqb_refl.
  - destruct (String.eqb k a) eqn:E; cbn.
    + now rewrite String.eqb_refl.
    + now rewrite E.
Qed.

Lemma assoc_fold_put_other k more base :
  ~ In k (map fst more) ->
  assoc k (fold_left (fun fs kv => put (fst kv) (snd kv) fs) more base)
    = assoc k base.
Proof.
  revert base. induction more as [ | [a x] more IH ]; intros base N;
    [ reflexivity | ].
  cbn in *. rewrite IH by tauto.
  apply Filter.assoc_put_other. apply String.eqb_neq. intros ->. tauto.
Qed.

Lemma assoc_fold_put k v more base :
  NoDup (map fst more) -> In (k, v) more ->
  assoc k (fold_left (fun fs kv => put (fst kv) (snd kv) fs) more base)
    = Some v.
Proof.
  revert base. induction more as [ | [a x] more IH ]; intros base D I;
    [ destruct I | ].
  cbn in *. inversion D as [ | ? ? Na D' ]; subst.
  destruct I as [ [= -> ->] | I ].
  - rewrite assoc_fold_put_other by exact Na. apply assoc_put_same.
  - now apply IH.
Qed.

(** A field of [{ ...base, k1: v1, ..., kn: vn }]. *)
Lemma get_extend k v base more :
  NoDup (map fst more) -> In (k, v) more -> get (extend base more) k = v.
Proof. intros D I. unfold extend, get. now rewrite (assoc_fold_put k v). Qed.

Lemma get_extend_other k base more :
  ~ In k (map fst more) -> get (extend base more) k = get (VObj base) k.
Proof. intros N. unfold extend, get. now rewrite assoc_fold_put_other. Qed.

Lemma read_object o k :
  o <> VNull -> o <> VUndefined -> read o k = Ok (get o k).
Proof. destruct o; try reflexivity; now intros. Qed.

Lemma completeUserData_fields (String_ : value -> string) (toISOString : Z -> string)
  result userData time data :
  completeUserData String_ toISOString result userData time = Ok data ->
  truthy (get data "token") = true /\
  (forall k v, In (k, v) (profile String_ userData) -> get data k = v) /\
  (truthy (get result "token") = true -> get data "token" = get result "token") /\
  (forall k,
     ~ In k ["token"; "fullName"; "phone"; "city"; "state"; "location";
             "showContactInfo"; "lastLogin"] ->
     get data k = get (VObj (spread (get result "user"))) k).
Proof.
  unfold completeUserData.
  destruct (read result "user") as [account | ] eqn:R; [ | discriminate ].
  assert (A : account = get result "user")
    by (destruct result; cbn [read] in R; congruence).
  destruct (if truthy (get result "token") then _ else _) as [token | ] eqn:T;
    [ | discriminate ].
  destruct (read userData "fullName"); [ | discriminate ].
  intros [= <-].
  assert (D : NoDup (map fst (("token", token) :: profile String_ userData
                              ++ [("lastLogin", VStr (toISOString (time 0%nat)))]))).
  { cbn. repeat constructor; cbn; intuition discriminate. }
  split; [ | split; [ | split ] ].
  - rewrite (get_extend "token" token) by (auto; now left).
    destruct (truthy (get result "token")) eqn:Tk.
    + now injection T as <-.
    + destruct (read account "id"); [ | discriminate T ].
      now injection T as <-.
  - intros k v I. apply get_extend; [ exact D | ].
    exact (in_cons _ _ _ (in_or_app _ _ _ (or_introl I))).
  - intros Tk. rewrite Tk in T. injection T as <-.
    apply get_extend; [ exact D | now left ].
  - intros k N. rewrite <- A. apply get_extend_other. exact N.
Qed.

Lemma fallbackUserData_fields (String_ : value -> string) (toISOString : Z -> string)
  userData time :
  userData <> VNull -> userData <> VUndefined ->
  exists data,
    fallbackUserData String_ toISOString userData time = Ok data /\
    truthy (get data "token") = true /\
    (forall k v, In (k, v) (profile String_ userData) -> get data k = v).
Proof.
  intros N U. unfold fallbackUserData. rewrite read_object by assumption.
  eexists. split; [ reflexivity | ]. split; [ reflexivity | ].
  intros k v I. cbn in I.
  repeat (destruct I as [ [= <- <-] | I ]; [ reflexivity | ]).
  destruct I.
Qed.

(** X21.  [register] signs the visitor in whatever the server says.  For
    a form that is not [null] or [undefined], and for every outcome of the
    registration request (no answer, a refusal, a body that cannot be
    read, a body without an account), the call returns [success: true]
    with a user, and leaves the session signed in as that user, with the
    user written to [localStorage] and [loading] as it was.  The user has
    a truthy token, and the fields of its profile are those of the form:
    a full name that falls back to the handle, empty texts for a missing
    phone, city and state, a location only when city and state are both
    given, and contact details shown unless the form says otherwise. *)
Theorem register_always_signs_in (JSON_stringify : value -> string)
  (String_ : value -> string) (toISOString : Z -> string)
  (userData : value) (answer : fetched)
  (time : nat -> Z) (s : t) :
  userData <> VNull -> userData <> VUndefined ->
  exists data,
    register JSON_stringify String_ toISOString userData answer time s
      = (Ok (VObj [("success", VBool true); ("user", data)]),
         {| user := data; isAuthenticated := true; loading := loading s;
            saved := Some (JSON_stringify data) |}) /\
    truthy (get data "token") = true /\
    (forall k v, In (k, v) (profile String_ userData) -> get data k = v).
Proof.
  intros N U. unfold register.
  destruct (fallbackUserData_fields String_ toISOString userData time N U) as (fb & F & Tf & Pf).
  rewrite F.
  set (attempt := match answer with Rejected _ => _ | Answered _ _ => _ end).
  destruct attempt as [data | e] eqn:A.
  - exists data. split; [ reflexivity | ].
    assert (C : exists result,
              completeUserData String_ toISOString result userData time = Ok data).
    { subst attempt. destruct answer as [ m | [] [ result | m ] ];
        try discriminate A. eauto. }
    destruct C as (result & C).
    apply completeUserData_fields in C as (T & P & _). auto.
  - exists fb. split; [ reflexivity | auto ].
Qed.

(** X22.  When the server accepts, [register] keeps the account it sent
    and overrides it with the form.  With an [ok] response whose body
    holds a truthy token, the user stored has that token, the profile
    fields of the form, and every other field of the account in the body
    as the server gave it, but for [lastLogin]. *)
Theorem register_keeps_the_account (JSON_stringify : value -> string)
  (String_ : value -> string) (toISOString : Z -> string)
  (userData result : value)
  (time : nat -> Z) (s : t) :
  userData <> VNull -> userData <> VUndefined ->
  truthy (get result "token") = true ->
  exists data,
    fst (register JSON_stringify String_ toISOString userData (Answered true (Ok result)) time s)
      = Ok (VObj [("success", VBool true); ("user", data)]) /\
    user (snd (register JSON_stringify String_ toISOString userData (Answered true (Ok result)) time s)) = data /\
    get data "token" = get result "token" /\
    (forall k v, In (k, v) (profile String_ userData) -> get data k = v) /\
    (forall k,
       ~ In k ["token"; "fullName"; "phone"; "city"; "state"; "location";
               "showContactInfo"; "lastLogin"] ->
       get data k = get (VObj (spread (get result "user"))) k).
Proof.
  intros N U T. unfold register.
  destruct (completeUserData String_ toISOString result userData time)
    as [data | e] eqn:C.
  - exists data. split; [ reflexivity | ]. split; [ reflexivity | ].
    apply completeUserData_fields in C as (_ & P & Tk & O). auto.
  - exfalso. unfold completeUserData in C.
    assert (R : result <> VNull /\ result <> VUndefined)
      by (split; intros ->; discriminate T).
    rewrite (read_object result) in C by apply R.
    rewrite T, (read_object userData) in C by assumption.
    discriminate C.
Qed.

(** X23.  [checkAuth] restores the saved user or signs out.  It always
    ends with [loading] off.  With nothing saved it leaves the session as
    it is.  A saved object becomes the user of a signed-in session: as it
    is when it has a truthy token, and otherwise with the token
    "user_" followed by its [id], written back to [localStorage]; in both
    cases the user has a truthy token.  A saved text that does not parse,
    or parses to [null] or to a number, a boolean or a string, signs the
    session out and removes the item. *)
Theorem checkAuth_restores_or_signs_out (JSON_parse : string -> outcome value)
  (JSON_stringify : value -> string) (String_ : value -> string)
  (s : t) :
  loading (checkAuth JSON_parse JSON_stringify String_ s) = false /\
  (saved s = None \/ saved s = Some "" ->
   checkAuth JSON_parse JSON_stringify String_ s = setLoading s false) /\
  (forall item fs,
     saved s = Some item -> item <> "" -> JSON_parse item = Ok (VObj fs) ->
     isAuthenticated (checkAuth JSON_parse JSON_stringify String_ s) = true /\
     truthy (get (user (checkAuth JSON_parse JSON_stringify String_ s)) "token") = true /\
     (if truthy (get (VObj fs) "token")
      then user (checkAuth JSON_parse JSON_stringify String_ s) = VObj fs /\ saved (checkAuth JSON_parse JSON_stringify String_ s) = Some item
      else user (checkAuth JSON_parse JSON_stringify String_ s)
             = set (VObj fs) "token"
                 (VStr ("user_" ++ String_ (get (VObj fs) "id"))) /\
           saved (checkAuth JSON_parse JSON_stringify String_ s) = Some (JSON_stringify (user (checkAuth JSON_parse JSON_stringify String_ s))))) /\
  (forall item,
     saved s = Some item -> item <> "" ->
     match JSON_parse item with
     | Throw _ | Ok VNull | Ok (VBool _) | Ok (VNum _) | Ok (VStr _) => True
     | Ok _ => False
     end ->
     checkAuth JSON_parse JSON_stringify String_ s = {| user := VNull; isAuthenticated := false;
                      loading := false; saved := None |}).
Proof.
  split; [ reflexivity | ]. split; [ | split ].
  - unfold checkAuth. intros [ -> | -> ]; reflexivity.
  - intros item fs S I P. unfold checkAuth. rewrite S.
    assert (T : truthy (VStr item) = true).
    { cbn. apply negb_true_iff, String.eqb_neq. exact I. }
    rewrite T, P. cbn [read assign].
    destruct (truthy (get (VObj fs) "token")) eqn:Tk; cbn [negb].
    + split; [ reflexivity | ]. split; [ exact Tk | ].
      split; [ reflexivity | exact S ].
    + split; [ reflexivity | ]. split; [ | split; reflexivity ].
      change (truthy (get (VObj (put "token"
                (VStr ("user_" ++ String_ (get (VObj fs) "id"))) fs)) "token")
              = true).
      unfold get at 1. rewrite assoc_put_same. reflexivity.
  - intros item S I P. unfold checkAuth. rewrite S.
    assert (T : truthy (VStr item) = true).
    { cbn. apply negb_true_iff, String.eqb_neq. exact I. }
    rewrite T.
    destruct (JSON_parse item) as [ [ | | b | n | t | ms | xs | fs ] | e ];
      try destruct P; reflexivity.
Qed.

Lemma checkAuth_consistent (JSON_parse : string -> outcome value)
  (JSON_stringify : value -> string) (String_ : value -> string) s : consistent s -> consistent (checkAuth JSON_parse JSON_stringify String_ s).
Proof.
  unfold consistent, checkAuth. intros (A & B).
  destruct (saved s) as [item | ] eqn:S; [ | cbn; rewrite S; auto ].
  destruct (truthy (VStr item)); [ | cbn; rewrite S; auto ].
  destruct (JSON_parse item) as [userData | e];
    [ | cbn; split; [ discriminate | reflexivity ] ].
  destruct (read userData "token") as [token | e];
    [ | cbn; split; [ discriminate | reflexivity ] ].
  destruct (negb (truthy token)).
  - destruct (assign userData "token" _) as [userData' | e]; cbn;
      split; discriminate || reflexivity.
  - cbn. rewrite S. split; discriminate.
Qed.

Lemma register_consistent (JSON_stringify : value -> string)
  (String_ : value -> string) (toISOString : Z -> string)
  userData answer time s :
  consistent s -> consistent (snd (register JSON_stringify String_ toISOString userData answer time s)).
Proof.
  unfold consistent, register. intros C.
  destruct (match answer with Rejected _ => _ | Answered _ _ => _ end);
    [ cbn; split; discriminate | ].
  destruct (fallbackUserData _ _ _ _); [ cbn; split; discriminate | exact C ].
Qed.

Lemma login_consistent (JSON_stringify : value -> string) answer s :
  consistent s -> consistent (snd (login JSON_stringify answer s)).
Proof.
  unfold consistent, login. intros C.
  destruct answer; [ cbn; split; discriminate | exact C ].
Qed.

Lemma checkAuthStatus_consistent (JSON_parse : string -> outcome value) s : consistent (checkAuthStatus JSON_parse s).
Proof.
  unfold consistent, checkAuthStatus.
  destruct (saved s) as [item | ] eqn:S;
    [ | cbn; split; [ discriminate | reflexivity ] ].
  destruct (truthy (VStr item)); [ | cbn; split; [ discriminate | reflexivity ] ].
  destruct (JSON_parse item) as [parsedUser | e];
    [ | cbn; split; [ discriminate | reflexivity ] ].
  destruct (_ && _); cbn; [ rewrite S | ]; split; discriminate || reflexivity.
Qed.

Lemma step_consistent (JSON_parse : string -> outcome value)
  (JSON_stringify : value -> string) (String_ : value -> string)
  (toISOString : Z -> string) s a : consistent s -> consistent (step JSON_parse JSON_stringify String_ toISOString s a).
Proof.
  intros C. destruct a; cbn [Session.step].
  - now apply checkAuth_consistent.
  - now apply register_consistent.
  - now apply login_consistent.
  - split; [ discriminate | reflexivity ].
  - apply checkAuthStatus_consistent.
Qed.

(** X24.  The session and [localStorage] stay in step.  From the state
    the provider starts in, whatever [localStorage] holds, and after any
    sequence of [checkAuth], [register], [login], [logout] and
    [checkAuthStatus], with any answers of the server and any clock: a
    session that is signed in has an item in [localStorage], and a session
    that is not signed in has no user. *)
Theorem session_stays_consistent (JSON_parse : string -> outcome value)
  (JSON_stringify : value -> string) (String_ : value -> string)
  (toISOString : Z -> string) (item : option string)
  (actions : list action) :
  consistent (run JSON_parse JSON_stringify String_ toISOString actions (initial item)).
Proof.
  unfold Session.run.
  assert (G : forall s, consistent s -> consistent (fold_left (step JSON_parse JSON_stringify String_ toISOString) actions s)).
  { induction actions as [ | a l IH ]; intros s C; [ exact C | ].
    cbn. apply IH. now apply step_consistent. }
  apply G. split; [ discriminate | reflexivity ].
Qed.

(** The server refuses Carol's form; she is signed in all the same. *)
Lemma register_always_signs_in_witness :
  exists data,
    fst (register render render epoch form (Answered false (Throw "409"))
           ticking (initial None))
      = Ok (VObj [("success", VBool true); ("user", data)]) /\
    get data "fullName" = VStr "carol" /\
    get data "location" = VStr "" /\
    get data "showContactInfo" = VBool false.
Proof.
  destruct (register_always_signs_in render render epoch form
              (Answered false (Throw "409")) ticking (initial None))
    as (data & E & _ & P); [ discriminate | discriminate | ].
  exists data. rewrite E. split; [ reflexivity | ].
  split; [ | split ]; apply P; cbn; auto 10.
Defined.

(** The server accepts: its account is kept, the form's name is used. *)
Lemma register_keeps_the_account_witness :
  exists data,
    fst (register render render epoch form (Answered true (Ok accepted))
           ticking (initial None))
      = Ok (VObj [("success", VBool true); ("user", data)]) /\
    get data "token" = VStr "jwt" /\
    get data "id" = VStr "u7" /\
    get data "fullName" = VStr "carol".
Proof.
  destruct (register_keeps_the_account render render epoch form accepted
              ticking (initial None))
    as (data & E & _ & T & P & O);
    [ discriminate | discriminate | reflexivity | ].
  exists data. split; [ exact E | ]. split; [ exact T | ]. split.
  - rewrite O; [ reflexivity | ]. cbn. intuition discriminate.
  - apply P. cbn. auto.
Defined.

(** A saved user without a token gets one and is written back. *)
Lemma checkAuth_restores_or_signs_out_witness :
  let s := checkAuth (parse_one "{}" (VObj [("id", VStr "u7")])) render render
             (initial (Some "{}")) in
  isAuthenticated s = true /\ get (user s) "token" = VStr "user_u7".
Proof.
  destruct (checkAuth_restores_or_signs_out
              (parse_one "{}" (VObj [("id", VStr "u7")])) render render
              (initial (Some "{}"))) as (_ & _ & R & _).
  destruct (R "{}" [("id", VStr "u7")] eq_refl ltac:(discriminate) eq_refl)
    as (A & _ & U & _).
  cbv zeta. split; [ exact A | ]. rewrite U. reflexivity.
Defined.

End SessionFacts.

(* ================================================================== *)
(** ** The owner projection *)

Module Owner.
Import JS Store Controller StoreFacts Spec.

Lemma listed_row filter join w rows w1 keep p :
  prisma.post.findMany filter join w = (Ok rows, w1) ->
  match filter with
  | Some f => compile_where f = Some keep
  | None => keep = fun _ => true
  end ->
  In p (posts (db w)) -> keep p = true ->
  exists r, In r rows /\ post r = p /\
            user r = if join then find_user (db w) (Post.userId p) else None.
Proof.
  intros E K I T.
  apply Reads.findMany_rows in E as (keep' & K' & R & U).
  assert (keep' = keep) as ->.
  { destruct filter; [ rewrite K in K'; now injection K' | now subst ]. }
  assert (Ip : In p (map post rows)).
  { rewrite R.
    apply (Permutation_in _ (Permutation_sym (Reads.newest_first_perm _))).
    apply filter_In. auto. }
  apply in_map_iff in Ip as (r & <- & Ir).
  rewrite Forall_forall in U. exists r. auto.
Qed.

(** C8, as amended.  [getPosts] always answers 200 with a sequence, and
    every item of it carries an owner projection that is an object.  When
    the filtered query is served, each listing the filter accepts has its
    item: with an owner that is an account, the account under [user] and
    as projection its identifier, handle, e-mail and avatar, the handle
    again as display name, [verified = false], [showContactInfo = true],
    the account's creation instant and the listing's city (or "Unknown
    City") as location; with no such account, [user: null] and the
    "unknown user" stand-in.  When the filtered query fails and the
    fallback is served, every listing has its item, with the stand-in.
    [getPost], its lookup served, answers 200 with the projection of the
    owner for a listing whose owner is an account, and 500 for a listing
    whose owner is not: it has no stand-in. *)
Theorem results_carry_owner_info (req : request) (w : World) :
  (let '(r, w') := getPosts req w in
   exists xs,
     r = Ok {| status := 200; json := VArr xs |} /\
     Forall (owned_item (now_iso w)) xs /\
     (hd false (faults w) = false ->
      forall keep p,
        compile_where (buildWhere (VObj (query req))) = Some keep ->
        In p (posts (db w)) -> keep p = true ->
        exists item,
          In item xs /\ get item "id" = VStr (Post.id p) /\
          match find_user (db w) (Post.userId p) with
          | Some u =>
              get item "user" = shown_user (Some u) /\
              projects (get item "ownerInfo") u
                (or_text (Post.city p) "Unknown City")
          | None =>
              get item "user" = VNull /\
              stands_in (get item "ownerInfo") (now_iso w)
                (or_text (Post.city p) "Unknown City")
          end) /\
     (hd false (faults w) = true
      \/ compile_where (buildWhere (VObj (query req))) = None ->
      hd false (tl (faults w)) = false ->
      forall p,
        In p (posts (db w)) ->
        exists item,
          In item xs /\ get item "id" = VStr (Post.id p) /\
          stands_in (get item "ownerInfo") (now_iso w)
            (or_text (Post.city p) "Unknown")))
  /\
  (hd false (faults w) = false ->
   forall p,
     find_post (db w) (id req) = Some p ->
     match find_user (db w) (Post.userId p) with
     | Some u =>
         exists listing,
           fst (getPost req w) = Ok {| status := 200; json := listing |} /\
           get listing "id" = VStr (Post.id p) /\
           get listing "user" = shown_user (Some u) /\
           projects (get listing "ownerInfo") u (Post.city p)
     | None =>
         fst (getPost req w)
           = Ok {| status := 500; json := message "Failed to get post" |}
     end).
Proof.
  split.
  - rewrite Listing.getPosts_run.
    destruct (prisma.post.findMany (Some _) true w) as [ [rows | e] w1 ] eqn:E1.
    + pose proof (Listing.findMany_ok _ _ _ _ _ E1) as (N & _ & _). rewrite N.
      eexists. split; [ reflexivity | ]. split; [ | split ].
      * apply Forall_forall. intros x I. apply in_map_iff in I as (r & <- & _).
        apply Listing.transformedPost_owned.
      * intros _ keep p K I T.
        destruct (listed_row _ _ _ _ _ keep p E1 K I T) as (r & Ir & <- & U).
        exists (transformedPost (now_iso w) r).
        split; [ now apply in_map | ]. split; [ reflexivity | ].
        unfold transformedPost. rewrite U.
        destruct (find_user (db w) (Post.userId (post r))) as [u | ].
        -- split; [ reflexivity | ]. unfold projects, ownerInfo. repeat split.
        -- split; [ reflexivity | ].
           unfold stands_in, unknownOwner. repeat split.
      * intros Bad _. exfalso.
        apply send_ok in E1 as (F1 & w2 & R & _).
        destruct Bad as [ B | B ]; [ congruence | ].
        unfold find_many in R. rewrite B in R. discriminate R.
    + pose proof (Listing.findMany_throw _ _ _ _ _ E1) as (N1 & D1).
      destruct (prisma.post.findMany None false w1) as [ [rows | e'] w2 ] eqn:E2.
      * pose proof (Listing.findMany_ok _ _ _ _ _ E2) as (N2 & _ & _).
        rewrite N2, N1.
        eexists. split; [ reflexivity | ]. split; [ | split ].
        -- apply Forall_forall. intros x I.
           apply in_map_iff in I as (r & <- & _).
           apply Listing.simplePost_owned.
        -- intros F keep p K _ _. exfalso.
           unfold prisma.post.findMany, send in E1. rewrite F in E1.
           unfold find_many in E1. rewrite K in E1. discriminate E1.
        -- intros _ _ p I. rewrite <- D1 in I.
           destruct (listed_row _ _ _ _ _ (fun _ => true) p E2 eq_refl I eq_refl)
             as (r & Ir & <- & _).
           exists (simplePost (now_iso w) r).
           split; [ now apply in_map | ]. split; [ reflexivity | ].
           unfold stands_in, simplePost. repeat split.
      * eexists. split; [ reflexivity | ]. split; [ constructor | split ].
        -- intros F keep p K _ _. exfalso.
           unfold prisma.post.findMany, send in E1. rewrite F in E1.
           unfold find_many in E1. rewrite K in E1. discriminate E1.
        -- intros _ F2 p _. exfalso.
           apply send_throw in E1. subst w1.
           unfold prisma.post.findMany, send in E2.
           cbn [faults with_log with_faults] in E2. rewrite F2 in E2.
           unfold find_many in E2. discriminate E2.
  - intros F p Fp. rewrite Listing.getPost_run, F, Fp. unfold failed.
    destruct (find_user (db w) (Post.userId p)) as [u | ] eqn:U;
      [ | reflexivity ].
    eexists. split; [ reflexivity | ].
    split; [ reflexivity | ].
    split; [ cbn; now rewrite U | ].
    unfold projects, ownerInfo. repeat split.
Qed.

(** Bob's house is listed and read with Bob's projection; the loft of
    the account that is gone is listed with the stand-in. *)
Lemma results_carry_owner_info_witness :
  (exists item,
     In item (items (Further.json_of
                (fst (getPosts Sample.everything (Sample.world []))))) /\
     get item "id" = VStr "p2" /\
     get (get item "ownerInfo") "username" = VStr "bob") /\
  (exists item,
     In item (items (Further.json_of
                (fst (getPosts Sample.everything
                        (Sample.with_orphan (Sample.world [])))))) /\
     get item "id" = VStr "p3" /\
     get (get item "ownerInfo") "username" = VStr "Unknown User") /\
  (exists listing,
     fst (getPost (Sample.reading "p2") (Sample.world []))
       = Ok {| status := 200; json := listing |} /\
     get (get listing "ownerInfo") "fullName" = VStr "bob").
Proof.
  split; [ | split ].
  - pose proof (proj1 (results_carry_owner_info Sample.everything
                         (Sample.world []))) as H.
    destruct H as (xs & E & _ & L & _). injection E as <-.
    destruct (L eq_refl (fun _ => true) Sample.house eq_refl
                ltac:(cbn; auto) eq_refl) as (item & I & Id & U & P).
    exists item. split; [ exact I | ]. split; [ exact Id | ].
    destruct P as (_ & -> & _). reflexivity.
  - pose proof (proj1 (results_carry_owner_info Sample.everything
                         (Sample.with_orphan (Sample.world [])))) as H.
    destruct H as (xs & E & _ & L & _). injection E as <-.
    destruct (L eq_refl (fun _ => true) Sample.orphan eq_refl
                ltac:(cbn; auto) eq_refl) as (item & I & Id & U & P).
    exists item. split; [ exact I | ]. split; [ exact Id | ].
    destruct P as (_ & -> & _). reflexivity.
  - destruct (proj2 (results_carry_owner_info (Sample.reading "p2")
                       (Sample.world [])) eq_refl Sample.house eq_refl)
      as (listing & E & _ & _ & P).
    exists listing. split; [ exact E | ].
    destruct P as (_ & _ & _ & -> & _). reflexivity.
Defined.

End Owner.
